(** * Omen: structural extraction and framework signal detection

    A shallow embedding of the indexer of the Omen extension
    (src/indexer/parser.ts, src/indexer/generator.ts and
    src/indexer/fileScanner.ts): the line-scanning extractor for Python
    sources, the route and schema detectors that run on its output, the
    per-file loop of [generateIndex] and the scan of the workspace.

    JavaScript strings are modelled as [string] (code units below 256),
    JavaScript regular expressions as values of an inductive type [regex]
    run by a backtracking matcher with the priorities of the ECMAScript
    matcher (leftmost start, greedy or lazy quantifiers, ordered
    alternation), and mutable objects by explicit state passing.

    Each pattern of the source is quoted above its definition, after the
    word JS; where a star meets a closing parenthesis in the source a
    blank is written between them, and Q stands for the double quote
    character. *)

From Stdlib Require Import String Ascii List Arith Bool Lia PeanoNat Sorted
  Permutation.
Import ListNotations.
Open Scope list_scope.
Open Scope string_scope.
Open Scope nat_scope.

(* ===================================================================== *)
(** ** Characters and the string primitives of the host language *)
(* ===================================================================== *)

Module Js.

Definition code (c : ascii) : nat := nat_of_ascii c.

Definition in_range (lo hi : nat) (c : ascii) : bool :=
  (lo <=? code c) && (code c <=? hi).

(** [\s] and the characters removed by [trim]: TAB, LF, VT, FF, CR, SP and
    NBSP (the white space and line terminators below code 256). *)
Definition is_space (c : ascii) : bool :=
  in_range 9 13 c || (code c =? 32) || (code c =? 160).

Definition is_upper (c : ascii) : bool := in_range 65 90 c.
Definition is_lower (c : ascii) : bool := in_range 97 122 c.
Definition is_digit (c : ascii) : bool := in_range 48 57 c.

(** [\w] *)
Definition is_word (c : ascii) : bool :=
  is_upper c || is_lower c || is_digit c || (code c =? 95).

(** [.] without the [s] flag: anything but LF and CR. *)
Definition is_dot (c : ascii) : bool :=
  negb ((code c =? 10) || (code c =? 13)).

Definition is_char (a : ascii) (c : ascii) : bool := Ascii.eqb a c.
Definition not_char (a : ascii) (c : ascii) : bool := negb (Ascii.eqb a c).

Definition one_of (s : string) (c : ascii) : bool :=
  existsb (Ascii.eqb c) (list_ascii_of_string s).
Definition none_of (s : string) (c : ascii) : bool := negb (one_of s c).

Definition nl : string := String (ascii_of_nat 10) EmptyString.

(** The double quote and the single quote. *)
Definition dq : ascii := ascii_of_nat 34.
Definition sq : ascii := ascii_of_nat 39.
Definition is_quote (c : ascii) : bool := Ascii.eqb c sq || Ascii.eqb c dq.

(** [s.startsWith(p)] *)
Fixpoint startsWith (p s : string) : bool :=
  match p with
  | EmptyString => true
  | String a p' =>
      match s with
      | EmptyString => false
      | String b s' => Ascii.eqb a b && startsWith p' s'
      end
  end.

(** [s.includes(p)] *)
Fixpoint includes (s p : string) : bool :=
  startsWith p s ||
  match s with
  | EmptyString => false
  | String _ s' => includes s' p
  end.

Fixpoint drop (n : nat) (s : string) : string :=
  match n with
  | 0 => s
  | S n' => match s with EmptyString => EmptyString | String _ s' => drop n' s' end
  end.

Fixpoint take (n : nat) (s : string) : string :=
  match n with
  | 0 => EmptyString
  | S n' => match s with EmptyString => EmptyString | String c s' => String c (take n' s') end
  end.

(** [s.indexOf(p, from)], with [None] for -1. *)
Fixpoint indexOfAux (p s : string) (i : nat) : option nat :=
  if startsWith p s then Some i
  else match s with
       | EmptyString => None
       | String _ s' => indexOfAux p s' (S i)
       end.

Definition indexOf (s p : string) (from : nat) : option nat :=
  if String.length s <? from
  then (if String.eqb p EmptyString then Some (String.length s) else None)
  else indexOfAux p (drop from s) from.

(** [s.substring(a, b)] on non-negative arguments: both are clamped to the
    length and swapped when [a > b]. *)
Definition substring (s : string) (a b : nat) : string :=
  let a' := Nat.min a (String.length s) in
  let b' := Nat.min b (String.length s) in
  let lo := Nat.min a' b' in
  let hi := Nat.max a' b' in
  take (hi - lo) (drop lo s).

(** [s.substring(a, b)] where either index may be -1 ([None]), as returned
    by [indexOf]; a negative argument counts as 0. *)
Definition substringO (s : string) (a b : option nat) : string :=
  substring s (match a with Some x => x | None => 0 end)
              (match b with Some x => x | None => 0 end).

Fixpoint trimStart (s : string) : string :=
  match s with
  | EmptyString => EmptyString
  | String c s' => if is_space c then trimStart s' else s
  end.

(** End of the string once trailing white space is dropped. *)
Fixpoint trimEnd (s : string) : string :=
  match s with
  | EmptyString => EmptyString
  | String c s' =>
      match trimEnd s' with
      | EmptyString => if is_space c then EmptyString else String c EmptyString
      | t => String c t
      end
  end.

Definition trim (s : string) : string := trimEnd (trimStart s).

(** [s.split(sep)] for a non-empty separator: the result always has at
    least one element. [cur] holds the piece read so far. *)
Fixpoint splitAux (fuel : nat) (sep s : string) (cur : string) : list string :=
  match fuel with
  | 0 => [cur]
  | S f =>
      match s with
      | EmptyString => [cur]
      | String c s' =>
          if startsWith sep s
          then cur :: splitAux f sep (drop (String.length sep) s) EmptyString
          else splitAux f sep s' (cur ++ String c EmptyString)
      end
  end.

Definition split (s sep : string) : list string :=
  splitAux (S (String.length s)) sep s EmptyString.

(** Case mapping of one code unit: the letters A to Z and the accented
    capitals 192 to 222 (but the sign 215) have their small letter 32
    further. [toUpperCase] is only applied to unaccented names. *)
Definition lower_char (c : ascii) : ascii :=
  if is_upper c || in_range 192 214 c || in_range 216 222 c
  then ascii_of_nat (code c + 32) else c.
Definition upper_char (c : ascii) : ascii :=
  if is_lower c then ascii_of_nat (code c - 32) else c.

Fixpoint map_chars (f : ascii -> ascii) (s : string) : string :=
  match s with
  | EmptyString => EmptyString
  | String c s' => String (f c) (map_chars f s')
  end.

Definition toLowerCase : string -> string := map_chars lower_char.
Definition toUpperCase : string -> string := map_chars upper_char.

(** [xs.join(sep)] *)
Fixpoint join (sep : string) (xs : list string) : string :=
  match xs with
  | [] => EmptyString
  | [x] => x
  | x :: rest => x ++ sep ++ join sep rest
  end.

(** Truthiness of a string ([if (s)]) and of an optional string. *)
Definition truthy (s : string) : bool := negb (String.eqb s EmptyString).

Definition truthyO (o : option string) : bool :=
  match o with Some s => truthy s | None => false end.

(** [a || b] on optional strings. *)
Definition orElse (o : option string) (d : string) : string :=
  match o with
  | Some s => if truthy s then s else d
  | None => d
  end.

(** [s.replace(p, r)] with a string pattern: first occurrence only. *)
Definition replaceFirst (s p r : string) : string :=
  match indexOf s p 0 with
  | Some i => take i s ++ r ++ drop (i + String.length p) s
  | None => s
  end.

End Js.

(* ===================================================================== *)
(** ** Regular expressions *)
(* ===================================================================== *)

Module Re.

Inductive regex : Type :=
| Eps
| Chr (p : ascii -> bool)          (* a character class *)
| Seq (a b : regex)
| Alt (a b : regex)                (* a|b, left branch first *)
| Star (a : regex)                 (* a*  greedy *)
| LazyStar (a : regex)             (* a*? *)
| Group (n : nat) (a : regex)      (* capturing group number n *)
| Bol                              (* ^ (no m flag) *)
| Eol.                             (* $ (no m flag) *)

Definition Plus (a : regex) : regex := Seq a (Star a).
Definition LazyPlus (a : regex) : regex := Seq a (LazyStar a).
Definition Opt (a : regex) : regex := Alt a Eps.

Fixpoint Lit (s : string) : regex :=
  match s with
  | EmptyString => Eps
  | String c s' => Seq (Chr (Js.is_char c)) (Lit s')
  end.

Fixpoint Cat (rs : list regex) : regex :=
  match rs with
  | [] => Eps
  | [r] => r
  | r :: rs' => Seq r (Cat rs')
  end.

Definition space : regex := Chr Js.is_space.
Definition word : regex := Chr Js.is_word.
Definition dot : regex := Chr Js.is_dot.
Definition quote : regex := Chr Js.is_quote.

(** Matcher state: the unread input, the offset of its first character in
    the subject, and the captures recorded so far (latest first). *)
Record mstate : Type := MState {
  rest : string;
  pos : nat;
  caps : list (nat * string)
}.

Definition cont : Type := mstate -> option mstate.

(** One quantifier: [fuel] bounds the number of iterations. An iteration
    that consumes nothing is rejected, as in ECMAScript, so each one
    shortens [rest] and [S (length rest)] iterations are never exhausted. *)
Fixpoint iter (fuel : nat) (greedy : bool) (body : cont -> cont) (k : cont)
  (st : mstate) : option mstate :=
  match fuel with
  | 0 => k st
  | S f =>
      let again :=
        body (fun st' =>
                if String.length (rest st') <? String.length (rest st)
                then iter f greedy body k st'
                else None) st in
      if greedy
      then match again with Some r => Some r | None => k st end
      else match k st with Some r => Some r | None => again end
  end.

Fixpoint exec (r : regex) (k : cont) (st : mstate) : option mstate :=
  match r with
  | Eps => k st
  | Chr p =>
      match rest st with
      | String c s' =>
          if p c then k (MState s' (S (pos st)) (caps st)) else None
      | EmptyString => None
      end
  | Seq a b => exec a (exec b k) st
  | Alt a b =>
      match exec a k st with
      | Some r => Some r
      | None => exec b k st
      end
  | Star a => iter (S (String.length (rest st))) true (exec a) k st
  | LazyStar a => iter (S (String.length (rest st))) false (exec a) k st
  | Group n a =>
      exec a (fun st' =>
                k (MState (rest st') (pos st')
                     ((n, Js.take (pos st' - pos st) (rest st)) :: caps st')))
           st
  | Bol => if pos st =? 0 then k st else None
  | Eol => match rest st with EmptyString => k st | _ => None end
  end.

(** A successful match: offset, matched text, captures. *)
Record result : Type := Result {
  index : nat;
  whole : string;
  groups : list (nat * string)
}.

Fixpoint lookup (n : nat) (l : list (nat * string)) : option string :=
  match l with
  | [] => None
  | (m, s) :: l' => if n =? m then Some s else lookup n l'
  end.

(** [m[n]]: [None] when the group did not take part in the match. *)
Definition group (n : nat) (m : result) : option string := lookup n (groups m).

(** [m[n]] for a group that takes part in every match. *)
Definition group1 (n : nat) (m : result) : string :=
  match group n m with Some s => s | None => EmptyString end.

(** A match starting exactly at offset [i], whose unread input is [s]. *)
Definition matchAt (r : regex) (s : string) (i : nat) : option result :=
  match exec r Some (MState s i []) with
  | Some st' => Some (Result i (Js.take (pos st' - i) s) (caps st'))
  | None => None
  end.

(** Leftmost match at or after offset [i]; [s] is the input from [i] on. *)
Fixpoint searchFrom (r : regex) (s : string) (i : nat) : option result :=
  match matchAt r s i with
  | Some m => Some m
  | None =>
      match s with
      | EmptyString => None
      | String _ s' => searchFrom r s' (S i)
      end
  end.

(** [s.match(r)] for [r] without the [g] flag. *)
Definition search (r : regex) (s : string) : option result := searchFrom r s 0.

(** [r.test(s)] *)
Definition test (r : regex) (s : string) : bool :=
  match search r s with Some _ => true | None => false end.

(** Successive matches of a [g] regex, as [matchAll] yields them: the next
    search starts where the previous match ended, one further after an
    empty match. [s] is the input from offset [i] on. *)
Fixpoint allFrom (fuel : nat) (r : regex) (s : string) (i : nat) : list result :=
  match fuel with
  | 0 => []
  | S f =>
      match searchFrom r s i with
      | None => []
      | Some m =>
          let next := index m + Nat.max 1 (String.length (whole m)) in
          if String.length s <? next - i
          then [m]
          else m :: allFrom f r (Js.drop (next - i) s) next
      end
  end.

Definition matchAll (r : regex) (s : string) : list result :=
  allFrom (S (String.length s)) r s 0.

(** [s.match(r)] for [r] with the [g] flag: the matched texts; the empty
    list stands for [null]. *)
Definition matchG (r : regex) (s : string) : list string :=
  map whole (matchAll r s).

(** [(s.match(r) || []).length] *)
Definition count (r : regex) (s : string) : nat := List.length (matchG r s).

(** [s.replace(r, f)] for [r] with the [g] flag; [f] builds the
    replacement from the match. *)
Fixpoint replaceFrom (ms : list result) (f : result -> string) (s : string)
  (i : nat) : string :=
  match ms with
  | [] => s
  | m :: ms' =>
      let stop := index m + String.length (whole m) in
      Js.take (index m - i) s ++ f m ++
      replaceFrom ms' f (Js.drop (stop - i) s) stop
  end.

Definition replaceAll (r : regex) (f : result -> string) (s : string) : string :=
  replaceFrom (matchAll r s) f s 0.

End Re.

(* ===================================================================== *)
(** ** Data model (src/types/index.ts) *)
(* ===================================================================== *)

Record FunctionInfo : Type := mkFunctionInfo {
  fn_name : string;
  fn_params : list string;
  fn_returnType : option string;
  fn_line : nat;
  fn_isAsync : bool;
  fn_isExported : bool;
  fn_description : option string
}.

(** [properties] is optional in the interface, but every producer sets it. *)
Record ClassInfo : Type := mkClassInfo {
  cls_name : string;
  cls_line : nat;
  cls_methods : list FunctionInfo;
  cls_isExported : bool;
  cls_description : option string;
  cls_properties : list string
}.

Record InterfaceInfo : Type := mkInterfaceInfo {
  if_name : string;
  if_line : nat;
  if_properties : list string;
  if_isExported : bool;
  if_description : option string
}.

Record ImportInfo : Type := mkImportInfo {
  imp_source : string;
  imp_imports : list string;
  imp_line : nat
}.

Inductive Language : Type := typescript | javascript | python.

Record FileIndex : Type := mkFileIndex {
  path : string;
  relativePath : string;
  functions : list FunctionInfo;
  classes : list ClassInfo;
  interfaces : list InterfaceInfo;
  imports : list ImportInfo;
  language : Language
}.

Record ApiEndpoint : Type := mkApiEndpoint {
  ep_method : string;
  ep_path : string;
  ep_handler : string;
  ep_file : string;
  ep_line : nat;
  ep_auth : bool
}.

Record DbColumn : Type := mkDbColumn {
  col_name : string;
  col_type : string;
  col_nullable : bool;
  col_primary : bool;
  col_foreign : option string
}.

Record DbTable : Type := mkDbTable {
  tbl_name : string;
  tbl_file : string;
  tbl_line : nat;
  tbl_columns : list DbColumn
}.

(** The settings of [ExtensionConfig] that the indexer reads. *)
Record ExtensionConfig : Type := mkConfig {
  includeClasses : bool;
  includeInterfaces : bool;
  includeImports : bool
}.

(** A call either returns or throws. *)
Inductive outcome (A : Type) : Type :=
| Returned (a : A)
| Thrown (msg : string).
Arguments Returned {A} a.
Arguments Thrown {A} msg.

(* ===================================================================== *)
(** ** The path functions of the runtime used by the indexer *)
(* ===================================================================== *)

Module NodePath.

Definition segments (p : string) : list string :=
  filter Js.truthy (Js.split p "/").

Fixpoint stripCommon (a b : list string) : list string * list string :=
  match a, b with
  | x :: a', y :: b' => if String.eqb x y then stripCommon a' b' else (a, b)
  | _, _ => (a, b)
  end.

(** The segments of an absolute POSIX path as [path.resolve] leaves them:
    a segment [.] is dropped, a segment [..] drops the segment kept before
    it, if there is one. [kept] holds the segments kept so far, the latest
    first. *)
Fixpoint resolveSegments (kept segs : list string) : list string :=
  match segs with
  | [] => rev kept
  | s :: segs' =>
      if String.eqb s "." then resolveSegments kept segs'
      else if String.eqb s ".." then resolveSegments (tl kept) segs'
      else resolveSegments (s :: kept) segs'
  end.

Definition resolved (p : string) : list string :=
  resolveSegments [] (segments p).

(** [path.relative(from, to)] for absolute POSIX paths: both are resolved,
    then the result climbs out of what is left of [from] and descends
    into what is left of [to]. A path that is not absolute would first be
    joined to the working directory of the process, which is not part of
    this model: the indexer passes the workspace folder and the paths
    joined to it, which are absolute. *)
Definition relative (from to : string) : string :=
  let (up, down) := stripCommon (resolved from) (resolved to) in
  Js.join "/" (map (fun _ => "..") up ++ down)%list.

Definition last_segment (p : string) : string :=
  last (segments p) EmptyString.

(** Offset of the last dot of [s], if any. *)
Fixpoint lastDot (s : string) (i : nat) (acc : option nat) : option nat :=
  match s with
  | EmptyString => acc
  | String c s' => lastDot s' (S i) (if Ascii.eqb c "." then Some i else acc)
  end.

(** [path.extname(p)]: from the last dot of the last segment to its end;
    empty when there is no dot, when the last dot opens the segment, and
    for the segment [..]. *)
Definition extname (p : string) : string :=
  let b := last_segment p in
  if String.eqb b ".." then EmptyString
  else match lastDot b 0 None with
       | Some 0 => EmptyString
       | Some i => Js.drop i b
       | None => EmptyString
       end.

End NodePath.
(* ===================================================================== *)
(** ** The Python extractor (src/indexer/parser.ts, parsePythonFile) *)
(* ===================================================================== *)

Module Parser.
Import Re.

Definition tripleQuote : string :=
  String Js.dq (String Js.dq (String Js.dq EmptyString)).
Definition tripleSingleQuote : string := "'''".

(** JS: /^(\s* )/ *)
Definition indentRe : regex := Cat [Bol; Group 1 (Star space)].

(** JS: /^class\s+(\w+)\s*\(([^)]* )\)/ *)
Definition classRe : regex :=
  Cat [Bol; Lit "class"; Plus space; Group 1 (Plus word); Star space;
       Lit "("; Group 2 (Star (Chr (Js.not_char ")"))); Lit ")"].

(** JS: /^\s+(\w+)\s*=\s*(?:db\.)?Column\((.+)/ *)
Definition columnRe : regex :=
  Cat [Bol; Plus space; Group 1 (Plus word); Star space; Lit "=";
       Star space; Opt (Lit "db."); Lit "Column("; Group 2 (Plus dot)].

(** JS: /\(/g and /\)/g *)
Definition openParenRe : regex := Lit "(".
Definition closeParenRe : regex := Lit ")".

(** JS: /^([^,()]+)/ *)
Definition typeRe : regex := Cat [Bol; Group 1 (Plus (Chr (Js.none_of ",()")))].

(** JS: /^\s+(\w+)\s*:\s*(.+?)\s*(?:=|$)/ *)
Definition attrRe : regex :=
  Cat [Bol; Plus space; Group 1 (Plus word); Star space; Lit ":";
       Star space; Group 2 (LazyPlus dot); Star space; Alt (Lit "=") Eol].

(** JS: /^(\s* )(?:async\s+)?def\s+(\w+)\s*\(([^)]* )\)/ *)
Definition methodRe : regex :=
  Cat [Bol; Group 1 (Star space); Opt (Seq (Lit "async") (Plus space));
       Lit "def"; Plus space; Group 2 (Plus word); Star space;
       Lit "("; Group 3 (Star (Chr (Js.not_char ")"))); Lit ")"].

(** JS: /^(?:async\s+)?def\s+(\w+)\s*\(([^)]* )\)/ *)
Definition funcRe : regex :=
  Cat [Bol; Opt (Seq (Lit "async") (Plus space));
       Lit "def"; Plus space; Group 1 (Plus word); Star space;
       Lit "("; Group 2 (Star (Chr (Js.not_char ")"))); Lit ")"].

(** JS: /^(?:from\s+(\S+)\s+)?import\s+(.+)/ *)
Definition importRe : regex :=
  Cat [Bol;
       Opt (Cat [Lit "from"; Plus space;
                 Group 1 (Plus (Chr (fun c => negb (Js.is_space c))));
                 Plus space]);
       Lit "import"; Plus space; Group 2 (Plus dot)].

(** The variables of the loop. [fileIndex.functions], [fileIndex.classes]
    and [fileIndex.imports] grow by [push]; [currentClass] is a reference
    to one of the objects held in [fileIndex.classes], kept here as its
    position in that list. *)
Record PyState : Type := mkPyState {
  st_functions : list FunctionInfo;
  st_classes : list ClassInfo;
  st_imports : list ImportInfo;
  currentClass : option nat;
  currentIndent : nat;
  pendingDocstring : option string;
  inDocstring : bool;
  docstringLines : list string;
  st_i : nat
}.

Definition initial : PyState :=
  mkPyState [] [] [] None 0 None false [] 0.

(** Update of the object a reference points to. *)
Fixpoint update (n : nat) (f : ClassInfo -> ClassInfo) (l : list ClassInfo)
  : list ClassInfo :=
  match l, n with
  | [], _ => []
  | c :: l', 0 => f c :: l'
  | c :: l', S n' => c :: update n' f l'
  end.

Definition pushProperty (p : string) (c : ClassInfo) : ClassInfo :=
  mkClassInfo (cls_name c) (cls_line c) (cls_methods c) (cls_isExported c)
              (cls_description c) (cls_properties c ++ [p])%list.

Definition pushMethod (m : FunctionInfo) (c : ClassInfo) : ClassInfo :=
  mkClassInfo (cls_name c) (cls_line c) (cls_methods c ++ [m])%list
              (cls_isExported c) (cls_description c) (cls_properties c).

(** Numbers of opening and of closing parentheses in a text. *)
Definition parenDelta (s : string) : nat * nat :=
  (count openParenRe s, count closeParenRe s).

(** The [while (parenCount > 0 && j < lines.length)] loop of a column
    definition. [later] is [lines] from index [j] on; the count is kept as
    the pair (opened, closed), so [parenCount > 0] reads [closed < opened].
    Returns [fullDef] and the final value of the outer cursor [i]. *)
Fixpoint continuation (later : list string) (opened closed : nat)
  (fullDef : string) (i j : nat) : string * nat :=
  match later with
  | [] => (fullDef, i)
  | l :: later' =>
      if closed <? opened then
        let nextLine := Js.trim l in
        continuation later'
          (opened + fst (parenDelta nextLine))
          (closed + snd (parenDelta nextLine))
          (fullDef ++ " " ++ nextLine) j (S j)
      else (fullDef, i)
  end.

Definition setI (i : nat) (s : PyState) : PyState :=
  mkPyState (st_functions s) (st_classes s) (st_imports s) (currentClass s)
            (currentIndent s) (pendingDocstring s) (inDocstring s)
            (docstringLines s) i.

(** The triple-quote branch of the loop body. *)
Definition docstringStep (line : string) (s : PyState) : PyState :=
  let quote := if Js.includes line tripleQuote
               then tripleQuote else tripleSingleQuote in
  let quoteCount := count (Lit quote) line in
  if inDocstring s then
    let endContent := nth 0 (Js.split line quote) EmptyString in
    let docLines :=
      if Js.truthy (Js.trim endContent)
      then (docstringLines s ++ [Js.trim endContent])%list
      else docstringLines s in
    mkPyState (st_functions s) (st_classes s) (st_imports s) (currentClass s)
              (currentIndent s) (Some (Js.trim (Js.join " " docLines)))
              false [] (st_i s)
  else if 2 <=? quoteCount then
    let content := Js.orElse (nth_error (Js.split line quote) 1) EmptyString in
    mkPyState (st_functions s) (st_classes s) (st_imports s) (currentClass s)
              (currentIndent s) (Some (Js.trim content))
              (inDocstring s) (docstringLines s) (st_i s)
  else
    let startContent := nth_error (Js.split line quote) 1 in
    let docLines :=
      if Js.truthyO startContent &&
         Js.truthy (Js.trim (Js.orElse startContent EmptyString))
      then [Js.trim (Js.orElse startContent EmptyString)]
      else docstringLines s in
    mkPyState (st_functions s) (st_classes s) (st_imports s) (currentClass s)
              (currentIndent s) (pendingDocstring s) true docLines (st_i s).

(** Parameters of a method: split on commas, trimmed, without [self], [cls]
    and empty pieces. *)
Definition methodParams (paramsStr : string) : list string :=
  filter (fun p => negb (String.eqb p "self") && negb (String.eqb p "cls")
                   && negb (String.eqb p EmptyString))
         (map Js.trim (Js.split paramsStr ",")).

Definition functionParams (paramsStr : string) : list string :=
  filter (fun p => negb (String.eqb p EmptyString))
         (map Js.trim (Js.split paramsStr ",")).

(** [currentClass && indent > currentIndent], with the reference. *)
Definition insideClass (indent : nat) (s : PyState) : option nat :=
  match currentClass s with
  | Some c => if currentIndent s <? indent then Some c else None
  | None => None
  end.

(** The import rule, last in the loop body. *)
Definition importStep (config : ExtensionConfig) (line : string) (lineNum : nat)
  (s : PyState) : PyState :=
  if includeImports config then
    match search importRe line with
    | Some m =>
        let source :=
          Js.orElse (group 1 m)
                    (Js.trim (nth 0 (Js.split (group1 2 m) ",") EmptyString)) in
        let names :=
          map (fun i => Js.trim (nth 0 (Js.split (Js.trim i) " as ") EmptyString))
              (Js.split (group1 2 m) ",") in
        mkPyState (st_functions s) (st_classes s)
                  (st_imports s ++ [mkImportInfo source names lineNum])%list
                  (currentClass s) (currentIndent s) (pendingDocstring s)
                  (inDocstring s) (docstringLines s) (st_i s)
    | None => s
    end
  else s.

(** Method header, top-level function header, context reset and import:
    the rules tried once the class rules have not matched. *)
Definition declStep (config : ExtensionConfig) (line : string)
  (lineNum indent : nat) (s : PyState) : PyState :=
  match search methodRe line, insideClass indent s with
  | Some m, Some c =>
      let method :=
        mkFunctionInfo (group1 2 m) (methodParams (group1 3 m)) None lineNum
                       (Js.includes line "async def") false
                       (pendingDocstring s) in
      mkPyState (st_functions s) (update c (pushMethod method) (st_classes s))
                (st_imports s) (currentClass s) (currentIndent s) None
                (inDocstring s) (docstringLines s) (st_i s)
  | _, _ =>
      match search funcRe line, indent with
      | Some m, 0 =>
          let func :=
            mkFunctionInfo (group1 1 m) (functionParams (group1 2 m)) None
                           lineNum (Js.includes line "async def") true
                           (pendingDocstring s) in
          mkPyState (st_functions s ++ [func])%list (st_classes s)
                    (st_imports s) None (currentIndent s) None
                    (inDocstring s) (docstringLines s) (st_i s)
      | _, _ =>
          let s1 :=
            match indent, currentClass s with
            | 0, Some _ =>
                if Js.truthy (Js.trim line)
                then mkPyState (st_functions s) (st_classes s) (st_imports s)
                               None (currentIndent s) (pendingDocstring s)
                               (inDocstring s) (docstringLines s) (st_i s)
                else s
            | _, _ => s
            end in
          importStep config line lineNum s1
      end
  end.

(** Column definition and typed attribute, tried inside a class body. *)
Definition classBodyStep (config : ExtensionConfig) (lines : list string)
  (line : string) (lineNum indent : nat) (s : PyState) : PyState :=
  match insideClass indent s with
  | Some c =>
      match search columnRe line with
      | Some m =>
          let colName := group1 1 m in
          let colDef := group1 2 m in
          let (fullDef, i') :=
            continuation (skipn (st_i s + 1) lines)
                         (fst (parenDelta colDef)) (snd (parenDelta colDef))
                         colDef (st_i s) (st_i s + 1) in
          let colType :=
            match search typeRe fullDef with
            | Some t => Js.trim (group1 1 t)
            | None => "Unknown"
            end in
          mkPyState (st_functions s)
                    (update c (pushProperty (colName ++ ": " ++ colType))
                            (st_classes s))
                    (st_imports s) (currentClass s) (currentIndent s)
                    (pendingDocstring s) (inDocstring s) (docstringLines s) i'
      | None =>
          match search attrRe line with
          | Some m =>
              if negb (Js.includes line "def ") then
                let attrName := group1 1 m in
                let attrType :=
                  Js.trim (nth 0 (Js.split (group1 2 m) "=") EmptyString) in
                mkPyState (st_functions s)
                          (update c (pushProperty (attrName ++ ": " ++ attrType))
                                  (st_classes s))
                          (st_imports s) (currentClass s) (currentIndent s)
                          (pendingDocstring s) (inDocstring s)
                          (docstringLines s) (st_i s)
              else declStep config line lineNum indent s
          | None => declStep config line lineNum indent s
          end
      end
  | None => declStep config line lineNum indent s
  end.

(** One iteration of [for (let i = 0; i < lines.length; i++)], without the
    final [i++]. *)
Definition body (config : ExtensionConfig) (lines : list string) (s : PyState)
  : PyState :=
  let line := nth (st_i s) lines EmptyString in
  let lineNum := st_i s + 1 in
  let indent :=
    match search indentRe line with
    | Some m => String.length (group1 1 m)
    | None => 0
    end in
  if Js.includes line tripleQuote || Js.includes line tripleSingleQuote then
    docstringStep line s
  else if inDocstring s then
    mkPyState (st_functions s) (st_classes s) (st_imports s) (currentClass s)
              (currentIndent s) (pendingDocstring s) (inDocstring s)
              (docstringLines s ++ [Js.trim line])%list (st_i s)
  else
    match search classRe line with
    | Some m =>
        let cls := mkClassInfo (group1 1 m) lineNum [] true
                               (pendingDocstring s) [] in
        mkPyState (st_functions s) (st_classes s ++ [cls])%list (st_imports s)
                  (Some (List.length (st_classes s))) indent None
                  (inDocstring s) (docstringLines s) (st_i s)
    | None => classBodyStep config lines line lineNum indent s
    end.

Definition step (config : ExtensionConfig) (lines : list string) (s : PyState)
  : PyState :=
  let s' := body config lines s in setI (st_i s' + 1) s'.

(** The loop; every iteration advances [i], so [length lines] iterations
    reach the exit test. *)
Fixpoint loop (fuel : nat) (config : ExtensionConfig) (lines : list string)
  (s : PyState) : PyState :=
  match fuel with
  | 0 => s
  | S f =>
      if st_i s <? List.length lines
      then loop f config lines (step config lines s)
      else s
  end.

Definition run (config : ExtensionConfig) (content : string) : PyState :=
  let lines := Js.split content Js.nl in
  loop (List.length lines) config lines initial.

Definition parsePythonFile (config : ExtensionConfig)
  (filePath content workspaceRoot : string) : FileIndex :=
  let s := run config content in
  mkFileIndex filePath (NodePath.relative workspaceRoot filePath)
              (st_functions s) (st_classes s) [] (st_imports s) python.

End Parser.

(* ===================================================================== *)
(** ** Route and schema detectors (src/indexer/generator.ts) *)
(* ===================================================================== *)

Module Generator.
Import Re.

(** *** Flask routes *)

(** JS: /@\w+\.route\s*\(\s*['Q]([^'Q]+)['Q]/ *)
Definition routeRe : regex :=
  Cat [Lit "@"; Plus word; Lit ".route"; Star space; Lit "("; Star space;
       quote; Group 1 (Plus (Chr (fun c => negb (Js.is_quote c)))); quote].

(** JS: /methods\s*=\s*\[([^\]]+)\]/ *)
Definition methodsRe : regex :=
  Cat [Lit "methods"; Star space; Lit "="; Star space; Lit "[";
       Group 1 (Plus (Chr (Js.not_char "]"))); Lit "]"].

(** JS: /['Q]([A-Z]+)['Q]/g *)
Definition verbRe : regex := Cat [quote; Group 1 (Plus (Chr Js.is_upper)); quote].

(** JS: m.replace(/['Q]/g, '') *)
Definition stripQuotes (m : string) : string :=
  replaceAll quote (fun _ => EmptyString) m.

(** The body of the decorator scan for one line. *)
Definition scanLine (line : string) (acc : string * list string)
  : string * list string :=
  let routePath :=
    match search routeRe line with
    | Some m => group1 1 m
    | None => fst acc
    end in
  let routeMethods :=
    match search methodsRe line with
    | Some m => map stripQuotes (matchG verbRe (group1 1 m))
    | None => snd acc
    end in
  (routePath, routeMethods).

(** [for (let i = ...; i < func.line; i++)]: [n] is the number of values of
    [i] still to visit; the loop breaks at the first [i >= lines.length]. *)
Fixpoint scanFrom (n : nat) (lines : list string) (i : nat)
  (acc : string * list string) : string * list string :=
  match n with
  | 0 => acc
  | S n' =>
      match nth_error lines i with
      | None => acc
      | Some line => scanFrom n' lines (S i) (scanLine line acc)
      end
  end.

(** The scan for a function declared on line [line]:
    [i] runs from [Math.max(0, line - 10)] to [line - 1]. *)
Definition scanDecorators (lines : list string) (line : nat)
  : string * list string :=
  let start := Nat.max 0 (line - 10) in
  scanFrom (line - start) lines start (EmptyString, []).

Definition flaskEndpoints (fileIndex : FileIndex) (content : string)
  (lines : list string) (func : FunctionInfo) : list ApiEndpoint :=
  let (routePath, routeMethods) := scanDecorators lines (fn_line func) in
  if Js.truthy routePath then
    let methods := match routeMethods with [] => ["GET"] | _ => routeMethods end in
    map (fun method =>
           mkApiEndpoint method routePath (fn_name func)
                         (relativePath fileIndex) (fn_line func)
                         (Js.includes content "@jwt_required" ||
                          Js.includes content "@login_required"))
        methods
  else [].

Definition extractFlaskRoutes (fileIndex : FileIndex) (content : string)
  (endpoints : list ApiEndpoint) : list ApiEndpoint :=
  let lines := Js.split content Js.nl in
  (endpoints ++ flat_map (flaskEndpoints fileIndex content lines)
                         (functions fileIndex))%list.

(** *** Next.js API routes *)

(** JS: /\/(?:pages|app)\/api\/(.+)\.(?:ts|js|tsx|jsx)$/ *)
Definition apiRe : regex :=
  Cat [Lit "/"; Alt (Lit "pages") (Lit "app"); Lit "/api/"; Group 1 (Plus dot);
       Lit ".";
       Alt (Lit "ts") (Alt (Lit "js") (Alt (Lit "tsx") (Lit "jsx"))); Eol].

(** JS: /\\/g *)
Definition backslashRe : regex := Lit "\".

(** JS: /\[([^\]]+)\]/g *)
Definition bracketRe : regex :=
  Cat [Lit "["; Group 1 (Plus (Chr (Js.not_char "]"))); Lit "]"].

Definition nextMethods : list string := ["GET"; "POST"; "PUT"; "DELETE"; "PATCH"].

Definition extractNextJSRoutes (filePath : string) (fileIndex : FileIndex)
  (content : string) (endpoints : list ApiEndpoint) : list ApiEndpoint :=
  let isApiRoute :=
    Js.includes filePath "/pages/api/" || Js.includes filePath "/app/api/" in
  if isApiRoute then
    match search apiRe filePath with
    | Some apiMatch =>
        let routePath :=
          "/api/" ++
          replaceAll bracketRe (fun m => ":" ++ group1 1 m)
            (replaceAll backslashRe (fun _ => "/") (group1 1 apiMatch)) in
        let hasHandler method :=
          Js.includes content ("export async function " ++ method) ||
          Js.includes content ("export function " ++ method) ||
          (String.eqb method "GET" && Js.includes content "export default") in
        (endpoints ++
         map (fun method =>
                mkApiEndpoint method routePath (Js.toLowerCase method)
                              (relativePath fileIndex) 1
                              (Js.includes content "getServerSession" ||
                               Js.includes content "auth"))
             (filter hasHandler nextMethods))%list
    | None => endpoints
    end
  else endpoints.

(** *** SQLAlchemy schema *)

(** JS: new RegExp(`${name}\\s*=\\s*(?:db\\.)?Column\\([^)]+\\)`, 's').
    The name is spliced into the pattern; a name made of word characters,
    as the Python extractor records them, stands for itself. *)
Definition colDefRe (name : string) : regex :=
  Cat [Lit name; Star space; Lit "="; Star space; Opt (Lit "db.");
       Lit "Column("; Plus (Chr (Js.not_char ")")); Lit ")"].

(** JS: /ForeignKey\(['Q]([\w.]+)['Q]/ *)
Definition foreignKeyRe : regex :=
  Cat [Lit "ForeignKey("; quote;
       Group 1 (Plus (Chr (fun c => Js.is_word c || Js.is_char "." c))); quote].

(** [fullDef] of a property: the first text of the whole file that matches
    the pattern built from its name, else its recorded type. *)
Definition fullDefOf (content name typeInfo : string) : string :=
  match search (colDefRe name) content with
  | Some colDefMatch => whole colDefMatch
  | None => typeInfo
  end.

(** The column built from one property string. Every property string the
    Python extractor builds contains a colon, so [typeInfo] is defined. *)
Definition sqlColumn (content prop : string) : DbColumn :=
  let parts := map Js.trim (Js.split prop ":") in
  let name := nth 0 parts EmptyString in
  let typeInfo := nth 1 parts EmptyString in
  let fullDef := fullDefOf content name typeInfo in
  mkDbColumn name
    (Js.replaceFirst (nth 0 (Js.split typeInfo "(") EmptyString) "db." EmptyString)
    (negb (Js.includes fullDef "nullable=False"))
    (Js.includes fullDef "primary_key=True")
    (match search foreignKeyRe fullDef with
     | Some m => group 1 m
     | None => None
     end).

Definition sqlTable (fileIndex : FileIndex) (content : string) (cls : ClassInfo)
  : list DbTable :=
  match cls_properties cls with
  | [] => []
  | props =>
      [mkDbTable (cls_name cls) (relativePath fileIndex) (cls_line cls)
                 (map (sqlColumn content) props)]
  end.

Definition extractSQLAlchemySchema (fileIndex : FileIndex) (content : string)
  (tables : list DbTable) : list DbTable :=
  if negb (Js.includes content "db.Model") && negb (Js.includes content "Base")
  then tables
  else (tables ++ flat_map (sqlTable fileIndex content) (classes fileIndex))%list.

(** *** Django models *)

(** JS: /(\w+)\s*=\s*models\.(\w+Field)\(([^)]* )\)/g *)
Definition fieldRe : regex :=
  Cat [Group 1 (Plus word); Star space; Lit "="; Star space; Lit "models.";
       Group 2 (Seq (Plus word) (Lit "Field")); Lit "(";
       Group 3 (Star (Chr (Js.not_char ")"))); Lit ")"].

(** [content.substring(a, b)] with
    [a = content.indexOf(`class ${cls.name}`)] and
    [b = content.indexOf('\nclass ', a + 1)]; either may be -1. *)
Definition classSlice (content name : string) : string :=
  let a := Js.indexOf content ("class " ++ name) 0 in
  let b := Js.indexOf content (Js.nl ++ "class ")
                      (match a with Some x => x + 1 | None => 0 end) in
  Js.substringO content a b.

Definition djangoColumn (m : result) : DbColumn :=
  let params := group1 3 m in
  mkDbColumn (group1 1 m) (group1 2 m)
             (Js.includes params "null=True")
             (Js.includes params "primary_key=True")
             (match search foreignKeyRe params with
              | Some k => group 1 k
              | None => None
              end).

Definition djangoTable (fileIndex : FileIndex) (content : string)
  (cls : ClassInfo) : list DbTable :=
  match map djangoColumn (matchAll fieldRe (classSlice content (cls_name cls))) with
  | [] => []
  | columns =>
      [mkDbTable (cls_name cls) (relativePath fileIndex) (cls_line cls) columns]
  end.

Definition extractDjangoModels (fileIndex : FileIndex) (content : string)
  (tables : list DbTable) : list DbTable :=
  if negb (Js.includes content "models.Model") then tables
  else (tables ++ flat_map (djangoTable fileIndex content)
                           (classes fileIndex))%list.

(** *** Django routes *)

(** JS: /@api_view\(\[([^\]]+)\]\)\s*def\s+(\w+)/g *)
Definition apiViewRe : regex :=
  Cat [Lit "@api_view(["; Group 1 (Plus (Chr (Js.not_char "]"))); Lit "])";
       Star space; Lit "def"; Plus space; Group 2 (Plus word)].

(** JS: /class\s+(\w+)\(.*?View\)/g *)
Definition cbvRe : regex :=
  Cat [Lit "class"; Plus space; Group 1 (Plus word); Lit "(";
       LazyStar dot; Lit "View)"].

(** JS: /_/g *)
Definition underscoreRe : regex := Lit "_".

Definition apiViewEndpoints (fileIndex : FileIndex) (content : string)
  (m : result) : list ApiEndpoint :=
  let methodsStr := group1 1 m in
  let funcName := group1 2 m in
  let methods :=
    match matchG verbRe methodsStr with
    | [] => ["GET"]
    | found => map stripQuotes found
    end in
  match find (fun f => String.eqb (fn_name f) funcName) (functions fileIndex) with
  | Some func =>
      map (fun method =>
             mkApiEndpoint method
               ("/api/" ++ replaceAll underscoreRe (fun _ => "-") funcName)
               funcName (relativePath fileIndex) (fn_line func)
               (Js.includes content "@permission_classes" ||
                Js.includes content "IsAuthenticated"))
          methods
  | None => []
  end.

Definition viewMethods : list string := ["get"; "post"; "put"; "patch"; "delete"].

Definition cbvEndpoints (fileIndex : FileIndex) (content : string)
  (m : result) : list ApiEndpoint :=
  let className := group1 1 m in
  match find (fun c => String.eqb (cls_name c) className) (classes fileIndex) with
  | Some cls =>
      map (fun method =>
             mkApiEndpoint (Js.toUpperCase method)
               ("/api/" ++ Js.replaceFirst (Js.toLowerCase className) "view" EmptyString)
               (className ++ "." ++ method)
               (relativePath fileIndex) (cls_line cls)
               (Js.includes content "LoginRequiredMixin" ||
                Js.includes content "PermissionRequiredMixin"))
          (filter (fun method =>
                     existsb (fun f => String.eqb (fn_name f) method)
                             (cls_methods cls))
                  viewMethods)
  | None => []
  end.

Definition extractDjangoRoutes (fileIndex : FileIndex) (content : string)
  (endpoints : list ApiEndpoint) : list ApiEndpoint :=
  (endpoints
   ++ flat_map (apiViewEndpoints fileIndex content) (matchAll apiViewRe content)
   ++ flat_map (cbvEndpoints fileIndex content) (matchAll cbvRe content))%list.

(** *** Express routes *)

(** JS: /(?:app|router)\.get\s*\(\s*['Q]([^'Q]+)['Q]/g, and the same with
    post, put, delete and patch. *)
Definition expressRe (verb : string) : regex :=
  Cat [Alt (Lit "app") (Lit "router"); Lit "."; Lit verb; Star space; Lit "(";
       Star space; quote; Group 1 (Plus (Chr (fun c => negb (Js.is_quote c))));
       quote].

Definition routePatterns : list (regex * string) :=
  [(expressRe "get", "GET"); (expressRe "post", "POST"); (expressRe "put", "PUT");
   (expressRe "delete", "DELETE"); (expressRe "patch", "PATCH")].

(** [content.substring(0, startPos).split('\n').length] *)
Definition lineOfOffset (content : string) (startPos : nat) : nat :=
  List.length (Js.split (Js.substring content 0 startPos) Js.nl).

Definition extractExpressRoutes (fileIndex : FileIndex) (content : string)
  (endpoints : list ApiEndpoint) : list ApiEndpoint :=
  (endpoints ++
   flat_map (fun pm : regex * string =>
               map (fun m =>
                      mkApiEndpoint (snd pm) (group1 1 m) "handler"
                        (relativePath fileIndex)
                        (lineOfOffset content (index m))
                        (Js.includes content "authenticate" ||
                         Js.includes content "authMiddleware"))
                   (matchAll (fst pm) content))
            routePatterns)%list.

(** *** NestJS routes *)

(** JS: /@Controller\s*\(\s*['Q]([^'Q]* )['Q]/ *)
Definition controllerRe : regex :=
  Cat [Lit "@Controller"; Star space; Lit "("; Star space; quote;
       Group 1 (Star (Chr (fun c => negb (Js.is_quote c)))); quote].

(** JS: /@Get\s*\(\s*['Q]([^'Q]* )['Q]/g, and the same with Post, Put,
    Delete and Patch. *)
Definition nestRe (decorator : string) : regex :=
  Cat [Lit "@"; Lit decorator; Star space; Lit "("; Star space; quote;
       Group 1 (Star (Chr (fun c => negb (Js.is_quote c)))); quote].

Definition routeDecorators : list (regex * string) :=
  [(nestRe "Get", "GET"); (nestRe "Post", "POST"); (nestRe "Put", "PUT");
   (nestRe "Delete", "DELETE"); (nestRe "Patch", "PATCH")].

(** JS: /async\s+(\w+)\s*\(|\s+(\w+)\s*\(/ *)
Definition signatureRe : regex :=
  Alt (Cat [Lit "async"; Plus space; Group 1 (Plus word); Star space; Lit "("])
      (Cat [Plus space; Group 2 (Plus word); Star space; Lit "("]).

Definition nestEndpoint (fileIndex : FileIndex) (content basePath method : string)
  (m : result) : ApiEndpoint :=
  let routePath := group1 1 m in
  let fullPath :=
    basePath ++ (if Js.truthy routePath then "/" ++ routePath else EmptyString) in
  let startPos := index m in
  let handlerName :=
    match search signatureRe (Js.drop startPos content) with
    | Some methodMatch => Js.orElse (group 1 methodMatch) (group1 2 methodMatch)
    | None => "handler"
    end in
  mkApiEndpoint method fullPath handlerName (relativePath fileIndex)
                (lineOfOffset content startPos)
                (Js.includes content "@UseGuards" ||
                 Js.includes content "AuthGuard").

Definition extractNestJSRoutes (fileIndex : FileIndex) (content : string)
  (endpoints : list ApiEndpoint) : list ApiEndpoint :=
  let basePath :=
    match search controllerRe content with
    | Some controllerMatch => "/" ++ group1 1 controllerMatch
    | None => EmptyString
    end in
  List.app endpoints
    (flat_map (fun pm : regex * string =>
                 map (nestEndpoint fileIndex content basePath (snd pm))
                     (matchAll (fst pm) content))
              routeDecorators).

(** *** Technology tags *)

(** The markers looked for in an import source, with the tag each adds, in
    the order of the tests. *)
Definition techCatalog : list (list string * string) :=
  [(["flask"], "Flask"); (["express"], "Express"); (["fastapi"], "FastAPI");
   (["django"], "Django"); (["@nestjs"], "NestJS"); (["koa"], "Koa");
   (["react"], "React"); (["next"], "Next.js"); (["vue"], "Vue");
   (["@angular"], "Angular"); (["svelte"], "Svelte"); (["solid-js"], "Solid.js");
   (["sqlalchemy"], "SQLAlchemy"); (["mongoose"], "Mongoose");
   (["prisma"], "Prisma"); (["typeorm"], "TypeORM"); (["sequelize"], "Sequelize");
   (["drizzle"], "Drizzle ORM"); (["graphql"; "apollo"], "GraphQL");
   (["jwt"; "jsonwebtoken"], "JWT Auth"); (["bcrypt"], "Bcrypt");
   (["redis"], "Redis")].

(** [set.add(x)] on a [Set], kept in insertion order. *)
Definition setAdd (x : string) (set : list string) : list string :=
  if existsb (String.eqb x) set then set else (set ++ [x])%list.

Definition detectImport (detectedTechs : list string) (imp : ImportInfo)
  : list string :=
  let source := Js.toLowerCase (imp_source imp) in
  fold_left (fun techs (entry : list string * string) =>
               if existsb (Js.includes source) (fst entry)
               then setAdd (snd entry) techs else techs)
            techCatalog detectedTechs.

Definition detectTechs (fileIndex : FileIndex) (detectedTechs : list string)
  : list string :=
  fold_left detectImport (imports fileIndex) detectedTechs.

(** [Array.from(set).sort()]: order of the code units. *)
Fixpoint insertSorted (x : string) (l : list string) : list string :=
  match l with
  | [] => [x]
  | y :: l' => if String.leb x y then x :: l else y :: insertSorted x l'
  end.

Definition sortStrings (l : list string) : list string :=
  fold_right insertSorted [] l.

(** *** The run over the files of a workspace *)

Definition parseFileWith
  (parseTypeScriptFile : string -> string -> string -> Language -> outcome FileIndex)
  (config : ExtensionConfig) (filePath content workspaceRoot : string)
  : outcome FileIndex :=
  let ext := NodePath.extname filePath in
  if String.eqb ext ".ts" || String.eqb ext ".tsx" then
    parseTypeScriptFile filePath content workspaceRoot typescript
  else if String.eqb ext ".js" || String.eqb ext ".jsx" then
    parseTypeScriptFile filePath content workspaceRoot javascript
  else if String.eqb ext ".py" then
    Returned (Parser.parsePythonFile config filePath content workspaceRoot)
  else Thrown ("Unsupported file type: " ++ ext).

(** What the loop of [generateIndex] accumulates: the fields of
    [projectIndex] it writes, [detectedTechs], [apiEndpoints], [dbTables]. *)
Record Accumulators : Type := mkAcc {
  acc_files : list FileIndex;
  acc_fileCount : nat;
  acc_functionCount : nat;
  acc_classCount : nat;
  detectedTechs : list string;
  apiEndpoints : list ApiEndpoint;
  dbTables : list DbTable
}.

Definition emptyAcc : Accumulators := mkAcc [] 0 0 0 [] [] [].

Record ProjectIndex : Type := mkProjectIndex {
  projectName : string;
  fileCount : nat;
  functionCount : nat;
  classCount : nat;
  files : list FileIndex;
  techStack : list string;
  pi_apiEndpoints : list ApiEndpoint;
  dbSchema : list DbTable
}.

Section Run.

(** [readFileContent] reads the file system; [parseTypeScriptFile] walks
    the syntax tree built by the TypeScript compiler; both may throw.
    [typeormSchema fileIndex content] stands for the tables that
    [extractTypeORMSchema] has pushed when it returns or throws (its
    patterns are built from arbitrary property texts and may be
    rejected); no extractor writes after it. *)
Variable readFileContent : string -> outcome string.
Variable parseTypeScriptFile :
  string -> string -> string -> Language -> outcome FileIndex.
Variable typeormSchema : FileIndex -> string -> list DbTable.

Definition parseFile := parseFileWith parseTypeScriptFile.

Definition extractTypeORMSchema (fileIndex : FileIndex) (content : string)
  (tables : list DbTable) : list DbTable :=
  if negb (Js.includes content "@Entity") then tables
  else (tables ++ typeormSchema fileIndex content)%list.

(** Detects the client, pushes nothing. *)
Definition extractPrismaSchema (fileIndex : FileIndex) (content : string)
  (tables : list DbTable) : list DbTable := tables.

(** The [try] block for one file, after [parseFile] has returned. *)
Definition contribute (file content : string) (fileIndex : FileIndex)
  (acc : Accumulators) : Accumulators :=
  let endpoints :=
    match language fileIndex with
    | python =>
        extractDjangoRoutes fileIndex content
          (extractFlaskRoutes fileIndex content (apiEndpoints acc))
    | _ =>
        extractNextJSRoutes file fileIndex content
          (extractNestJSRoutes fileIndex content
             (extractExpressRoutes fileIndex content (apiEndpoints acc)))
    end in
  let tables :=
    match language fileIndex with
    | python =>
        extractDjangoModels fileIndex content
          (extractSQLAlchemySchema fileIndex content (dbTables acc))
    | _ =>
        extractPrismaSchema fileIndex content
          (extractTypeORMSchema fileIndex content (dbTables acc))
    end in
  mkAcc (acc_files acc ++ [fileIndex])%list
        (acc_fileCount acc + 1)
        (acc_functionCount acc + List.length (functions fileIndex))
        (acc_classCount acc + List.length (classes fileIndex))
        (detectTechs fileIndex (detectedTechs acc))
        endpoints tables.

(** One iteration of [for (const file of files)]: an exception thrown by
    the read or by the parse is caught and the accumulators keep the
    values they had. *)
Definition processFile (config : ExtensionConfig) (workspaceRoot : string)
  (acc : Accumulators) (file : string) : Accumulators :=
  match readFileContent file with
  | Thrown _ => acc
  | Returned content =>
      match parseFile config file content workspaceRoot with
      | Thrown _ => acc
      | Returned fileIndex => contribute file content fileIndex acc
      end
  end.

Definition runFiles (config : ExtensionConfig) (workspaceRoot : string)
  (files : list string) : Accumulators :=
  fold_left (processFile config workspaceRoot) files emptyAcc.

(** The project index built by [generateIndex] from the files that
    [scanWorkspace] returned (the time stamp left out). *)
Definition generateIndex (config : ExtensionConfig) (workspaceRoot : string)
  (files : list string) : ProjectIndex :=
  let acc := runFiles config workspaceRoot files in
  mkProjectIndex (NodePath.last_segment workspaceRoot)
                 (acc_fileCount acc) (acc_functionCount acc)
                 (acc_classCount acc) (acc_files acc)
                 (sortStrings (detectedTechs acc))
                 (apiEndpoints acc) (dbTables acc).

End Run.

(** *** Technology categories of the rendered document *)

(** The three lists of [generateMarkdown]. *)
Definition backendTags : list string :=
  ["Flask"; "Express"; "FastAPI"; "Django"; "NestJS"; "Koa"].
Definition frontendTags : list string :=
  ["React"; "Next.js"; "Vue"; "Angular"; "Svelte"; "Solid.js"].
Definition databaseTags : list string :=
  ["SQLAlchemy"; "Mongoose"; "Prisma"; "TypeORM"; "Sequelize"; "Drizzle ORM"].

(** [list.includes(t)] *)
Definition member (t : string) (l : list string) : bool :=
  existsb (String.eqb t) l.

Record TechGroups : Type := mkTechGroups {
  backend : list string;
  frontend : list string;
  database : list string;
  other : list string
}.

(** The four [filter] calls that group [index.techStack]. *)
Definition groupTechs (techStack : list string) : TechGroups :=
  let backend := filter (fun t => member t backendTags) techStack in
  let frontend := filter (fun t => member t frontendTags) techStack in
  let database := filter (fun t => member t databaseTags) techStack in
  let other :=
    filter (fun t => negb (member t backend) && negb (member t frontend) &&
                     negb (member t database))
           techStack in
  mkTechGroups backend frontend database other.

End Generator.

(* ===================================================================== *)
(** ** The workspace scan (fileScanner.ts) *)
(* ===================================================================== *)

Module Scanner.

Local Unset Elimination Schemes.

(** What [fs.readdirSync(dir, { withFileTypes: true })] lists: a regular
    file with what [fs.statSync] gives for its size, a directory with what
    reading it gives, or an entry that is neither. Either call may throw. *)
Inductive Dirent : Type :=
| FileEntry (name : string) (size : outcome nat)
| DirEntry (name : string) (listing : outcome (list Dirent))
| OtherEntry (name : string).

Local Set Elimination Schemes.

Definition name_of (entry : Dirent) : string :=
  match entry with
  | FileEntry name _ => name
  | DirEntry name _ => name
  | OtherEntry name => name
  end.

(** [supportedExtensions] of [scanWorkspace]. *)
Definition scanExtensions : list string :=
  [".ts"; ".tsx"; ".js"; ".jsx"; ".py"].

(** [path.join(dir, name)] for a directory path that does not end with a
    separator and the name of one of its entries. *)
Definition joinPath (dir name : string) : string := dir ++ "/" ++ name.

(** The body of [for (const entry of entries)], with the recursive call
    for a directory left open. An exception thrown by the ignore test ends
    the loop of this directory: it is caught by the [try] around it. *)
Definition forEntries
  (ignores : string -> outcome bool) (workspaceRoot : string)
  (scan : string -> Dirent -> list string -> list string) (dir : string)
  : list Dirent -> list string -> list string :=
  fix loop (entries : list Dirent) (files : list string) : list string :=
    match entries with
    | [] => files
    | entry :: rest =>
        let fullPath := joinPath dir (name_of entry) in
        let relativePath := NodePath.relative workspaceRoot fullPath in
        match ignores relativePath with
        | Thrown _ => files
        | Returned true => loop rest files
        | Returned false => loop rest (scan fullPath entry files)
        end
    end.

Section Scan.

(** [ig.ignores], the filter built from [.gitignore] and the configured
    exclude patterns; [config.maxFileSize]. *)
Variable ignores : string -> outcome bool.
Variable maxFileSize : nat.
Variable workspaceRoot : string.

(** What the loop does with an entry that is not ignored; [files] is the
    set of paths, in insertion order. *)
Fixpoint scanEntry (fullPath : string) (entry : Dirent) (files : list string)
  {struct entry} : list string :=
  match entry with
  | DirEntry _ (Returned entries) =>
      forEntries ignores workspaceRoot scanEntry fullPath entries files
  | DirEntry _ (Thrown _) => files
  | FileEntry name size =>
      let ext := NodePath.extname name in
      if Generator.member ext scanExtensions then
        match size with
        | Returned bytes =>
            if bytes <=? maxFileSize then Generator.setAdd fullPath files
            else files
        | Thrown _ => files
        end
      else files
  | OtherEntry _ => files
  end.

Definition scanEntries : string -> list Dirent -> list string -> list string :=
  forEntries ignores workspaceRoot scanEntry.

(** [scanDirectory(dir)], given what reading [dir] gives. *)
Definition scanDirectory (dir : string) (listing : outcome (list Dirent))
  (files : list string) : list string :=
  match listing with
  | Returned entries => scanEntries dir entries files
  | Thrown _ => files
  end.

(** [scanWorkspace(workspaceRoot)], given what reading the root gives. *)
Definition scanWorkspace (listing : outcome (list Dirent)) : list string :=
  scanDirectory workspaceRoot listing [].

(** The paths that the scan is meant to return: the supported files of at
    most [maxFileSize] bytes that are not ignored, in [dir] or below a
    directory of [dir] that can be read and is not ignored. *)
Inductive listed : string -> list Dirent -> string -> Prop :=
| listed_file dir entries name bytes :
    In (FileEntry name (Returned bytes)) entries ->
    ignores (NodePath.relative workspaceRoot (joinPath dir name)) = Returned false ->
    In (NodePath.extname name) scanExtensions ->
    bytes <= maxFileSize ->
    listed dir entries (joinPath dir name)
| listed_below dir entries name sub file :
    In (DirEntry name (Returned sub)) entries ->
    ignores (NodePath.relative workspaceRoot (joinPath dir name)) = Returned false ->
    listed (joinPath dir name) sub file ->
    listed dir entries file.

(** What an entry that is not ignored may add. *)
Definition found (fullPath : string) (entry : Dirent) (file : string) : Prop :=
  match entry with
  | FileEntry name (Returned bytes) =>
      file = fullPath /\ In (NodePath.extname name) scanExtensions /\
      bytes <= maxFileSize
  | DirEntry _ (Returned entries) => listed fullPath entries file
  | _ => False
  end.

End Scan.

(** An entry name as [readdirSync] gives it: not empty, no separator. *)
Definition entryName (name : string) : bool :=
  Js.truthy name && negb (Js.includes name "/").

Fixpoint plain_names (entry : Dirent) : bool :=
  entryName (name_of entry) &&
  match entry with
  | DirEntry _ (Returned entries) => forallb plain_names entries
  | _ => true
  end.

End Scanner.

(* ===================================================================== *)
(** ** Sample sources *)
(* ===================================================================== *)

Module Samples.
Import Parser.

(** Sample sources are written one line per list element. *)
Definition text (sourceLines : list string) : string := Js.join Js.nl sourceLines.

Definition defaults : ExtensionConfig := mkConfig true true false.

(** Two models that both declare a column [id]; only the first one is a
    primary key and only the second one is declared not null. *)
Definition two_models : string :=
  text ["class A(Base):";
        "    id = Column(Integer, primary_key=True)";
        "class B(Base):";
        "    id = Column(Integer, nullable=False)"].

Definition flask_app : string :=
  text ["from flask import Flask";
        "@app.route('/widgets', methods=['GET','POST'])";
        "def list_widgets():";
        "    pass"].

(** A workspace of two Python sources and a text file; any other path
    cannot be read. *)
Definition sample_disk (file : string) : outcome string :=
  if String.eqb file "/p/src/app.py" then Returned flask_app
  else if String.eqb file "/p/src/notes.txt" then Returned "class A(Base):"
  else if String.eqb file "/p/src/models.py" then Returned two_models
  else Thrown "ENOENT: no such file or directory".

Definition no_typescript (filePath content workspaceRoot : string)
  (language : Language) : outcome FileIndex :=
  Thrown "the sample workspace holds no TypeScript source".

Definition no_typeorm (fileIndex : FileIndex) (content : string) : list DbTable := [].


(** A view whose decorator stands [gap] comment lines above the [def]. *)
Definition spaced_view (before gap : nat) : string :=
  text (repeat "#" before ++ ["@app.route('/widgets')"] ++ repeat "#" gap ++
        ["def list_widgets():"; "    pass"])%list.

Definition docstring (body : string) : string :=
  tripleQuote ++ body ++ tripleQuote.

Definition documented_class : string :=
  text ["class Widget(Base):";
        "    " ++ docstring "A widget.";
        "    def run(self):";
        "        pass"].

Definition comment_before_class : string :=
  text [docstring "A widget.";
        "class Widget(Base):";
        "    def run(self):";
        "        pass"].

(** A model with one column, under either marker of the declarative
    rule. *)
Definition user_model (base : string) : string :=
  text ["class User(" ++ base ++ "):";
        "    id = Column(Integer, primary_key=True)"].

(** A class that is a declarative model and a Django model at once. *)
Definition mixed_models : string :=
  text ["class User(Base, models.Model):";
        "    id = Column(Integer, primary_key=True)";
        "    name = models.CharField(max_length=50)";
        "class Audit(object):";
        "    pass"].

(** Two models that both declare a column [id]; the first declares it not
    nullable, the second as the primary key. *)
Definition earlier_id : string :=
  text ["class Account(Base):";
        "    id = Column(Integer, nullable=False)";
        "class User(Base):";
        "    id = Column(Integer, primary_key=True)"].




(** A workspace of two Python sources: the two declarative models and the
    class that is a model of both kinds. *)
Definition models_disk (file : string) : outcome string :=
  if String.eqb file "/p/src/base.py" then Returned two_models
  else if String.eqb file "/p/src/models.py" then Returned mixed_models
  else Thrown "ENOENT: no such file or directory".

(** A docstring of four lines whose inner lines look like declarations. *)
Definition commented_out : list string :=
  [tripleSingleQuote; "def f():"; "class A(B):"; tripleSingleQuote].

(** The state of the loop after the opening line of [commented_out]. *)
Definition inside_docstring : PyState :=
  mkPyState [] [] [] None 0 None true [] 1.

(** A Django model alone in its file. *)
Definition lone_django_model : string :=
  text ["class User(models.Model):";
        "    name = models.CharField(max_length=50)"].

(** A module with a function and no route decorator. *)
Definition plain_module : string :=
  text ["def helper(x):"; "    return x"].

(** The lines of [flask_app] with other text below the declaration. *)
Definition flask_app_longer : string :=
  text ["from flask import Flask";
        "@app.route('/widgets', methods=['GET','POST'])";
        "def list_widgets():";
        "    return []";
        "@app.route('/other')"].

(** A workspace directory as [readdirSync] lists it: two sources and a
    text file under [src], a dependency directory, a source that is too
    large, a directory that cannot be read and a link. *)
Definition sample_entries : list Scanner.Dirent :=
  [Scanner.DirEntry "src"
     (Returned [Scanner.FileEntry "app.py" (Returned 120);
                Scanner.FileEntry "notes.txt" (Returned 10);
                Scanner.FileEntry "models.py" (Returned 300)]);
   Scanner.DirEntry "node_modules"
     (Returned [Scanner.FileEntry "index.js" (Returned 40)]);
   Scanner.FileEntry "bundle.js" (Returned 4000);
   Scanner.DirEntry "locked" (Thrown "EACCES: permission denied");
   Scanner.OtherEntry "link"].

(** A filter that ignores the dependency directory. *)
Definition sample_ignores (relativePath : string) : outcome bool :=
  Returned (Js.startsWith "node_modules" relativePath).

End Samples.

(* ===================================================================== *)
(** ** The properties stated of the extractors *)
(* ===================================================================== *)

Module Props.
Import Re Parser Generator Samples.

(** Line numbers between 1 and [k], in strictly increasing order. *)
Definition lines_ok (k : nat) (l : list nat) : Prop :=
  Forall (fun x => 1 <= x <= k) l /\ StronglySorted lt l.

(** What has been recorded once the cursor stands at [k]: the four kinds
    of records are in range and in order, the methods also when read
    through all the classes in turn, and [currentClass] refers to the
    class pushed last. *)
Definition wf (k : nat) (s : PyState) : Prop :=
  lines_ok k (map fn_line (st_functions s)) /\
  lines_ok k (map cls_line (st_classes s)) /\
  lines_ok k (map imp_line (st_imports s)) /\
  Forall (fun c => lines_ok k (map fn_line (cls_methods c))) (st_classes s) /\
  lines_ok k (map fn_line (flat_map cls_methods (st_classes s))) /\
  (forall c, currentClass s = Some c -> S c = List.length (st_classes s)).



Definition supportedExtensions : list string :=
  [".ts"; ".tsx"; ".js"; ".jsx"; ".py"].

(** The two ways the processing of a file throws before anything is
    recorded: the read fails, or the extension is not one the dispatch
    of [parseFile] knows. *)
Definition fails (readFileContent : string -> outcome string) (file : string)
  : Prop :=
  (exists msg, readFileContent file = Thrown msg) \/
  ~ In (NodePath.extname file) supportedExtensions.

(** Two continuations that agree give the same result. *)
Definition respects (body : cont -> cont) : Prop :=
  forall k1 k2, (forall st, k1 st = k2 st) -> forall st, body k1 st = body k2 st.






(** The tables of a given name. *)
Definition named (name : string) (t : DbTable) : bool :=
  String.eqb (tbl_name t) name.

(** The property list of each class the Python extractor finds. *)
Definition properties_of (content : string) : list (string * list string) :=
  map (fun c => (cls_name c, cls_properties c))
      (classes (parsePythonFile defaults "/p/models.py" content "/p")).

(** A function record of the Python extractor: exported, without return
    type, without an empty parameter. *)
Definition function_ok (f : FunctionInfo) : Prop :=
  fn_isExported f = true /\ fn_returnType f = None /\
  ~ In EmptyString (fn_params f).

(** A method record of class [c]: not exported, without return type, on a
    line below the header of [c], without the receiver names and without
    an empty parameter. *)
Definition method_ok (c : ClassInfo) (m : FunctionInfo) : Prop :=
  fn_isExported m = false /\ fn_returnType m = None /\
  cls_line c < fn_line m /\
  ~ In "self" (fn_params m) /\ ~ In "cls" (fn_params m) /\
  ~ In EmptyString (fn_params m).

Definition class_ok (c : ClassInfo) : Prop :=
  cls_isExported c = true /\ Forall (method_ok c) (cls_methods c).

(** The shape of what has been recorded once the cursor stands at [k]. *)
Definition shape (k : nat) (s : PyState) : Prop :=
  Forall function_ok (st_functions s) /\
  Forall (fun c => cls_line c <= k /\ class_ok c) (st_classes s).

(** The number of records held by a state: functions, classes, imports,
    methods and properties. *)
Definition records (s : PyState) : nat :=
  List.length (st_functions s) + List.length (st_classes s) +
  List.length (st_imports s) +
  List.length (flat_map cls_methods (st_classes s)) +
  List.length (flat_map cls_properties (st_classes s)).

(** A line that holds no triple quote of either kind. *)
Definition plain (line : string) : bool :=
  negb (Js.includes line tripleQuote) &&
  negb (Js.includes line tripleSingleQuote).

(** [after] is [before] followed by new elements that all satisfy [P]. *)
Definition extends {A : Type} (P : A -> Prop) (before after : list A) : Prop :=
  exists new, after = (before ++ new)%list /\ Forall P new.

(** Number of line feeds in a text. *)
Fixpoint lineFeeds (s : string) : nat :=
  match s with
  | EmptyString => 0
  | String c s' => (if Ascii.eqb (ascii_of_nat 10) c then 1 else 0) + lineFeeds s'
  end.

(** An endpoint that a detector has read in the file [fileIndex], whose
    text has [n] lines: it names that file and a line of it. *)
Definition endpoint_of (fileIndex : FileIndex) (n : nat) (ep : ApiEndpoint)
  : Prop :=
  ep_file ep = relativePath fileIndex /\ 1 <= ep_line ep <= n.

(** The three counters agree with the list of file records. *)
Definition counts_agree (fileCount functionCount classCount : nat)
  (files : list FileIndex) : Prop :=
  fileCount = List.length files /\
  functionCount = list_sum (map (fun f => List.length (functions f)) files) /\
  classCount = list_sum (map (fun f => List.length (classes f)) files).

(** The order of [Array.prototype.sort] on strings. *)
Definition string_le (a b : string) : Prop := String.leb a b = true.

(** Every endpoint names the relative path of one of the file records. *)
Definition endpoints_name_files (files : list FileIndex)
  (endpoints : list ApiEndpoint) : Prop :=
  Forall (fun ep => exists f, In f files /\ ep_file ep = relativePath f)
         endpoints.

(** [cls.properties && cls.properties.length > 0] *)
Definition hasProperties (cls : ClassInfo) : bool :=
  match cls_properties cls with [] => false | _ :: _ => true end.

(** A table that stands for a class record: its name, its file, its line,
    and one column for each property. *)
Definition table_of_class (fileIndex : FileIndex) (cls : ClassInfo)
  (t : DbTable) : Prop :=
  tbl_name t = cls_name cls /\ tbl_file t = relativePath fileIndex /\
  tbl_line t = cls_line cls /\
  List.length (tbl_columns t) = List.length (cls_properties cls).

(** The set of detected technologies holds no label twice and only labels
    of the catalogue. *)
Definition tags_ok (set : list string) : Prop :=
  NoDup set /\ Forall (fun t => In t (map snd Generator.techCatalog)) set.

(** The counters of the accumulators agree with their file records. *)
Definition acc_counts (acc : Accumulators) : Prop :=
  counts_agree (acc_fileCount acc) (acc_functionCount acc) (acc_classCount acc)
               (acc_files acc).

(** What a later state of the accumulators keeps of an earlier one. *)
Definition grows (a b : Accumulators) : Prop :=
  extends (fun _ => True) (acc_files a) (acc_files b) /\
  extends (fun _ => True) (apiEndpoints a) (apiEndpoints b) /\
  extends (fun _ => True) (dbTables a) (dbTables b) /\
  extends (fun _ => True) (detectedTechs a) (detectedTechs b) /\
  acc_fileCount a <= acc_fileCount b /\
  acc_functionCount a <= acc_functionCount b /\
  acc_classCount a <= acc_classCount b.





(** The indentation that the loop body measures on a line. *)
Definition indentOf (line : string) : nat :=
  match search indentRe line with
  | Some m => String.length (group1 1 m)
  | None => 0
  end.

(** A line that the loop body reads as a column definition: it holds no
    triple quote, is no class header, and the column pattern captures
    [name] before [=] and [def] after [Column(]. *)
Definition columnLine (line name def : string) : Prop :=
  Js.includes line tripleQuote || Js.includes line tripleSingleQuote = false /\
  search classRe line = None /\
  exists m, search columnRe line = Some m /\
            group1 1 m = name /\ group1 2 m = def.

(** The class of position [c] holds the property [p]. *)
Definition holds (c : nat) (p : string) (classes : list ClassInfo) : Prop :=
  exists cls, nth_error classes c = Some cls /\ In p (cls_properties cls).




End Props.

(* ===================================================================== *)
(** ** Facts about the Python extractor *)
(* ===================================================================== *)

Module ParserFacts.
Import Re Parser Props.

Lemma lines_ok_nil k : lines_ok k [].
Proof. split; constructor. Qed.

Lemma lines_ok_mono k k' l : k <= k' -> lines_ok k l -> lines_ok k' l.
Proof.
  intros Hle [Hb Hs]. split; [|exact Hs].
  eapply Forall_impl; [|exact Hb]. simpl. intros; lia.
Qed.

Lemma sorted_snoc (l : list nat) (x : nat) :
  StronglySorted lt l -> Forall (fun y => y < x) l ->
  StronglySorted lt (l ++ [x])%list.
Proof.
  induction 1 as [|a l Hs IH Ha]; intros Hlt; simpl.
  - repeat constructor.
  - inversion Hlt; subst. constructor; [now apply IH|].
    apply Forall_app; split; [exact Ha|]. now repeat constructor.
Qed.

(** A record pushed by the iteration that reads line [k + 1] keeps the
    list in range and in order. *)
Lemma lines_ok_snoc k l : lines_ok k l -> lines_ok (k + 1) (l ++ [k + 1])%list.
Proof.
  intros [Hb Hs]. split.
  - apply Forall_app; split.
    + eapply Forall_impl; [|exact Hb]. simpl; intros; lia.
    + repeat constructor; lia.
  - apply sorted_snoc; [exact Hs|].
    eapply Forall_impl; [|exact Hb]. simpl; intros; lia.
Qed.

Lemma wf_mono k k' s : k <= k' -> wf k s -> wf k' s.
Proof.
  intros Hle (Hf & Hc & Hi & Hm & Ha & Hr).
  split; [|split; [|split; [|split; [|split]]]];
    try (eapply lines_ok_mono; [exact Hle|]; assumption).
  - eapply Forall_impl; [|exact Hm]. intros c. apply lines_ok_mono, Hle.
  - exact Hr.
Qed.

Lemma update_cls_line n f l :
  (forall c, cls_line (f c) = cls_line c) ->
  map cls_line (update n f l) = map cls_line l.
Proof.
  intros Hf. revert n. induction l as [|c l IH]; intros [|n]; simpl; auto.
  - now rewrite Hf.
  - now rewrite IH.
Qed.

Lemma update_Forall (P Q : ClassInfo -> Prop) n f l :
  (forall c, P c -> Q c) -> (forall c, P c -> Q (f c)) ->
  Forall P l -> Forall Q (update n f l).
Proof.
  intros Hpq Hf H. revert n.
  induction H as [|c l Hc Hl IH]; intros [|n]; simpl; constructor; auto.
  eapply Forall_impl; [|exact Hl]. exact Hpq.
Qed.

Lemma update_length n f l : List.length (update n f l) = List.length l.
Proof.
  revert n. induction l as [|c l IH]; intros [|n]; simpl; auto.
Qed.

Lemma flat_update_property n p l :
  flat_map cls_methods (update n (pushProperty p) l) = flat_map cls_methods l.
Proof.
  revert n. induction l as [|c l IH]; intros [|n]; simpl; auto.
  now rewrite IH.
Qed.

(** A method pushed through the reference to the last class comes last
    among all the methods. *)
Lemma flat_update_method n m l :
  S n = List.length l ->
  flat_map cls_methods (update n (pushMethod m) l) =
  (flat_map cls_methods l ++ [m])%list.
Proof.
  revert n. induction l as [|c l IH]; intros n Hn; [discriminate|].
  destruct n as [|n]; simpl in *.
  - destruct l; [|discriminate]. simpl. now rewrite !app_nil_r.
  - rewrite IH by lia. now rewrite app_assoc.
Qed.

Lemma insideClass_current indent s c :
  insideClass indent s = Some c -> currentClass s = Some c.
Proof.
  unfold insideClass. destruct (currentClass s); [|discriminate].
  destruct (_ <? _); [auto|discriminate].
Qed.

(** The inner loop of a column definition leaves the cursor where it was
    or on one of the later lines. *)
Lemma continuation_cursor later o c fd i j :
  i < j ->
  let r := continuation later o c fd i j in
  i <= snd r /\ snd r < j + List.length later.
Proof.
  revert o c fd i j. induction later as [|l later IH]; intros o c fd i j Hij; simpl.
  - lia.
  - destruct (c <? o).
    + specialize (IH (o + fst (parenDelta (Js.trim l)))
                     (c + snd (parenDelta (Js.trim l)))
                     (fd ++ " " ++ Js.trim l) j (S j)).
      simpl in IH. lia.
    + simpl. lia.
Qed.

Ltac break_match :=
  repeat match goal with
    | |- context [match ?x with _ => _ end] => destruct x eqn:?
    end.

Ltac lines_tac :=
  first
    [ apply lines_ok_nil
    | rewrite map_app; simpl; apply lines_ok_snoc; assumption
    | rewrite update_cls_line by (intros; reflexivity);
      eapply lines_ok_mono; [|eassumption]; lia
    | eapply lines_ok_mono; [|eassumption]; lia ].

Ltac methods_tac :=
  first
    [ eapply Forall_impl; [|eassumption];
      intros; cbv beta in *; eapply lines_ok_mono; [|eassumption]; lia
    | apply Forall_app; split;
      [ eapply Forall_impl; [|eassumption];
        intros; cbv beta in *; eapply lines_ok_mono; [|eassumption]; lia
      | repeat constructor; apply lines_ok_nil ]
    | eapply update_Forall; [| |eassumption]; simpl; intros;
      first [ eapply lines_ok_mono; [|eassumption]; lia
            | rewrite map_app; simpl; apply lines_ok_snoc; assumption ] ].

Ltac last_class :=
  match goal with
  | Hin : insideClass _ _ = Some _,
    Href : forall c, currentClass _ = Some c -> _ |- _ =>
      apply Href; apply (insideClass_current _ _ _ Hin)
  end.

Ltac all_methods_tac :=
  first
    [ eapply lines_ok_mono; [|eassumption]; lia
    | rewrite flat_map_app; simpl; rewrite app_nil_r;
      eapply lines_ok_mono; [|eassumption]; lia
    | rewrite flat_update_property;
      eapply lines_ok_mono; [|eassumption]; lia
    | rewrite flat_update_method by last_class;
      rewrite map_app; simpl; apply lines_ok_snoc; assumption ].

Ltac reference_tac :=
  first
    [ assumption
    | rewrite update_length; assumption
    | intros ? ?; discriminate
    | intros ? Hnew; injection Hnew as <-; rewrite length_app; simpl; lia ].

(** Closes [wf (k + 1) s'] for a state [s'] written out field by field. *)
Ltac leaf :=
  match goal with
  | H : wf _ _ |- _ => destruct H as (? & ? & ? & ? & ? & ?)
  end;
  unfold wf; simpl;
  split; [lines_tac|split; [lines_tac|split; [lines_tac|split;
    [methods_tac|split; [all_methods_tac|reference_tac]]]]].

Section Step.
Variable config : ExtensionConfig.
Variable lines : list string.

Lemma importStep_wf line k s :
  wf k s -> wf (k + 1) (importStep config line (k + 1) s).
Proof.
  intros H. unfold importStep.
  break_match; try (apply (wf_mono k); [lia|exact H]). leaf.
Qed.

Lemma importStep_i line n s : st_i (importStep config line n s) = st_i s.
Proof. unfold importStep. break_match; reflexivity. Qed.

Lemma declStep_wf line indent k s :
  wf k s -> wf (k + 1) (declStep config line (k + 1) indent s).
Proof.
  intros H. unfold declStep.
  break_match; try apply importStep_wf; try assumption; try leaf.
Qed.

Lemma declStep_i line indent n s :
  st_i (declStep config line n indent s) = st_i s.
Proof.
  unfold declStep. break_match; try rewrite importStep_i; reflexivity.
Qed.

Lemma docstringStep_wf line k s :
  wf k s -> wf (k + 1) (docstringStep line s).
Proof. intros H. unfold docstringStep. break_match; leaf. Qed.

Lemma docstringStep_i line s : st_i (docstringStep line s) = st_i s.
Proof. unfold docstringStep. break_match; reflexivity. Qed.

Lemma classBodyStep_wf line indent k s :
  wf k s -> wf (k + 1) (classBodyStep config lines line (k + 1) indent s).
Proof.
  intros H. unfold classBodyStep.
  break_match; try apply declStep_wf; try assumption; try leaf.
Qed.

Lemma classBodyStep_i line indent n s :
  let s' := classBodyStep config lines line n indent s in
  st_i s <= st_i s' /\ st_i s' < Nat.max (st_i s + 1) (List.length lines).
Proof.
  unfold classBodyStep.
  destruct (insideClass indent s); [|rewrite declStep_i; lia].
  destruct (search columnRe line) as [m|].
  - pose proof (continuation_cursor (skipn (st_i s + 1) lines)
                  (fst (parenDelta (group1 2 m))) (snd (parenDelta (group1 2 m)))
                  (group1 2 m) (st_i s) (st_i s + 1)) as Hc.
    simpl in Hc. destruct (continuation _ _ _ _ _ _) as [fullDef i'].
    simpl in *. rewrite length_skipn in Hc. lia.
  - break_match; simpl; try rewrite declStep_i; lia.
Qed.

Lemma body_wf s :
  wf (st_i s) s -> wf (st_i s + 1) (body config lines s).
Proof.
  intros H. unfold body.
  break_match; try apply docstringStep_wf; try apply classBodyStep_wf;
    try assumption; try leaf.
Qed.

Lemma body_i s :
  let s' := body config lines s in
  st_i s <= st_i s' /\ st_i s' < Nat.max (st_i s + 1) (List.length lines).
Proof.
  unfold body.
  break_match; try rewrite docstringStep_i; simpl; try lia;
    apply classBodyStep_i.
Qed.

Lemma setI_wf k i s : wf k s -> wf k (setI i s).
Proof. intros H. exact H. Qed.

Lemma step_wf s :
  st_i s < List.length lines -> wf (st_i s) s ->
  wf (st_i (step config lines s)) (step config lines s) /\
  st_i (step config lines s) <= List.length lines /\
  st_i s < st_i (step config lines s).
Proof.
  intros Hlt H. unfold step.
  pose proof (body_wf s H) as Hb. pose proof (body_i s) as Hi.
  cbv zeta in Hi. cbv zeta. simpl st_i.
  split; [|split]; [|lia|lia].
  apply setI_wf. eapply wf_mono; [|exact Hb]. lia.
Qed.

Lemma loop_wf fuel s :
  wf (st_i s) s -> st_i s <= List.length lines ->
  wf (st_i (loop fuel config lines s)) (loop fuel config lines s) /\
  st_i (loop fuel config lines s) <= List.length lines.
Proof.
  revert s. induction fuel as [|fuel IH]; intros s H Hle; simpl.
  - now split.
  - destruct (st_i s <? List.length lines) eqn:E; [|now split].
    apply Nat.ltb_lt in E. destruct (step_wf s E H) as (Hw & Hn & _).
    now apply IH.
Qed.

(** The fuel given to the loop is enough: it stops because the cursor
    has passed the last line. *)
Lemma loop_exits fuel s :
  List.length lines - st_i s <= fuel -> wf (st_i s) s ->
  List.length lines <= st_i (loop fuel config lines s).
Proof.
  revert s. induction fuel as [|fuel IH]; intros s Hf H; simpl.
  - lia.
  - destruct (st_i s <? List.length lines) eqn:E.
    + apply Nat.ltb_lt in E. destruct (step_wf s E H) as (Hw & Hn & Hlt).
      apply IH; [lia|exact Hw].
    + apply Nat.ltb_ge in E. exact E.
Qed.

End Step.

Lemma initial_wf : wf 0 initial.
Proof.
  unfold wf, initial; simpl.
  repeat split; try constructor. intros c Hc; discriminate.
Qed.

Lemma run_wf config content :
  wf (List.length (Js.split content Js.nl)) (run config content).
Proof.
  unfold run.
  destruct (loop_wf config (Js.split content Js.nl)
              (List.length (Js.split content Js.nl)) initial initial_wf)
    as [Hw Hn]; [simpl; lia|].
  eapply wf_mono; [exact Hn|exact Hw].
Qed.

(** The loop of [parsePythonFile] runs to its exit test. *)
Lemma run_reads_every_line config content :
  st_i (run config content) = List.length (Js.split content Js.nl).
Proof.
  unfold run. apply Nat.le_antisymm.
  - apply loop_wf; [exact initial_wf|simpl; lia].
  - apply loop_exits; [simpl; lia|exact initial_wf].
Qed.

(** C10. Every function, class, import and class method recorded by the
    Python extractor carries a line number between 1 and the number of
    lines of the text, and each of these lists is in strictly increasing
    order of line number: the functions, the classes, the imports, the
    methods of each class, and the methods of all the classes read in the
    order of the classes. *)
Theorem python_records_in_source_order :
  forall config filePath content workspaceRoot,
    let fileIndex := parsePythonFile config filePath content workspaceRoot in
    let n := List.length (Js.split content Js.nl) in
    lines_ok n (map fn_line (functions fileIndex)) /\
    lines_ok n (map cls_line (classes fileIndex)) /\
    lines_ok n (map imp_line (imports fileIndex)) /\
    Forall (fun c => lines_ok n (map fn_line (cls_methods c)))
           (classes fileIndex) /\
    lines_ok n (map fn_line (flat_map cls_methods (classes fileIndex))).
Proof.
  intros config filePath content workspaceRoot. simpl.
  destruct (run_wf config content) as (Hf & Hc & Hi & Hm & Ha & _).
  repeat split; try apply Hf; try apply Hc; try apply Hi; try apply Ha.
  exact Hm.
Qed.

End ParserFacts.

(* ===================================================================== *)
(** ** Facts about the matcher *)
(* ===================================================================== *)

Module ReFacts.
Import Re Props.

Lemma take_take n s : Js.take (String.length (Js.take n s)) s = Js.take n s.
Proof.
  revert s. induction n as [|n IH]; intros [|c s]; simpl; auto.
  now rewrite IH.
Qed.

Lemma drop_drop n m s : Js.drop n (Js.drop m s) = Js.drop (m + n) s.
Proof.
  revert s. induction m as [|m IH]; intros s; simpl; [reflexivity|].
  destruct s as [|c s]; [now destruct n|apply IH].
Qed.

Lemma matchAt_index r s i m :
  matchAt r s i = Some m ->
  index m = i /\ whole m = Js.take (String.length (whole m)) s.
Proof.
  unfold matchAt. destruct (exec r Some (MState s i [])) as [st'|]; [|discriminate].
  intros H; injection H as <-. simpl. split; [reflexivity|].
  now rewrite take_take.
Qed.

(** [searchFrom] returns the leftmost match: it starts at [index m], its
    text is read there, and no match starts at an earlier offset. *)
Lemma searchFrom_leftmost r s i m :
  searchFrom r s i = Some m ->
  i <= index m /\
  whole m = Js.take (String.length (whole m)) (Js.drop (index m - i) s) /\
  forall k, k < index m - i -> matchAt r (Js.drop k s) (i + k) = None.
Proof.
  revert i. induction s as [|c s IH]; intros i; simpl.
  - destruct (matchAt r "" i) as [m'|] eqn:E; [|discriminate].
    intros H; injection H as <-. apply matchAt_index in E as [Hi Hw].
    rewrite Hi, Nat.sub_diag. simpl. repeat split; [lia|exact Hw|intros; lia].
  - destruct (matchAt r (String c s) i) as [m'|] eqn:E.
    + intros H; injection H as <-. apply matchAt_index in E as [Hi Hw].
      rewrite Hi, Nat.sub_diag. simpl. repeat split; [lia|exact Hw|intros; lia].
    + intros H. apply IH in H as (Hle & Hw & Hnone).
      replace (index m - i) with (S (index m - S i)) by lia. simpl.
      repeat split; [lia|exact Hw|].
      intros [|k] Hk; simpl.
      * now rewrite Nat.add_0_r.
      * replace (i + S k) with (S i + k) by lia. apply Hnone. lia.
Qed.

Lemma search_leftmost r s m :
  search r s = Some m ->
  whole m = Js.take (String.length (whole m)) (Js.drop (index m) s) /\
  forall k, k < index m -> matchAt r (Js.drop k s) k = None.
Proof.
  intros H. apply searchFrom_leftmost in H as (_ & Hw & Hnone).
  rewrite Nat.sub_0_r in *. split; [exact Hw|]. intros k Hk. now apply Hnone.
Qed.

Lemma iter_respects fuel greedy body :
  respects body -> respects (iter fuel greedy body).
Proof.
  intros Hb. induction fuel as [|fuel IH]; intros k1 k2 Hk st; simpl.
  - apply Hk.
  - rewrite (Hk st).
    rewrite (Hb _ (fun st' =>
                     if String.length (rest st') <? String.length (rest st)
                     then iter fuel greedy body k2 st' else None)); [reflexivity|].
    intros st'. destruct (_ <? _); [now apply IH|reflexivity].
Qed.

Lemma exec_respects r : respects (exec r).
Proof.
  induction r as [|p|a IHa b IHb|a IHa b IHb|a IHa|a IHa|n a IHa| |];
    intros k1 k2 Hk st; cbn [exec].
  - apply Hk.
  - destruct (rest st) as [|c s']; [reflexivity|]. destruct (p c); [apply Hk|reflexivity].
  - apply IHa. intros st'. now apply IHb.
  - rewrite (IHa k1 k2 Hk), (IHb k1 k2 Hk). reflexivity.
  - now apply (iter_respects _ _ _ IHa).
  - now apply (iter_respects _ _ _ IHa).
  - apply IHa. intros st'. apply Hk.
  - destruct (pos st =? 0); [apply Hk|reflexivity].
  - destruct (rest st); [apply Hk|reflexivity].
Qed.

(** The bound on the iterations of a quantifier is never reached: with
    more fuel than unread characters, one more unit changes nothing. *)
Lemma iter_fuel a greedy k fuel :
  forall st, String.length (rest st) < fuel ->
             iter fuel greedy (exec a) k st = iter (S fuel) greedy (exec a) k st.
Proof.
  induction fuel as [|fuel IH]; intros st Hlt; [lia|].
  change (iter (S (S fuel)) greedy (exec a) k st)
    with (let again :=
            exec a (fun st' =>
                      if String.length (rest st') <? String.length (rest st)
                      then iter (S fuel) greedy (exec a) k st' else None) st in
          if greedy
          then match again with Some r => Some r | None => k st end
          else match k st with Some r => Some r | None => again end).
  cbv zeta. simpl iter at 1.
  rewrite (exec_respects a _ (fun st' =>
             if String.length (rest st') <? String.length (rest st)
             then iter (S fuel) greedy (exec a) k st' else None)); [reflexivity|].
  intros st'. destruct (_ <? _) eqn:E; [|reflexivity].
  apply Nat.ltb_lt in E. apply IH. lia.
Qed.

Lemma iter_enough_fuel a greedy k st extra :
  iter (S (String.length (rest st)) + extra) greedy (exec a) k st =
  iter (S (String.length (rest st))) greedy (exec a) k st.
Proof.
  induction extra as [|extra IH]; [now rewrite Nat.add_0_r|].
  rewrite Nat.add_succ_r, <- IH. symmetry. apply iter_fuel. lia.
Qed.






Lemma length_drop n s : String.length (Js.drop n s) = String.length s - n.
Proof.
  revert s. induction n as [|n IH]; intros [|c s]; simpl; auto.
Qed.

(** The fuel of [split] is enough: one more unit changes nothing. *)
Lemma splitAux_fuel sep fuel :
  sep <> EmptyString ->
  forall s cur,
    String.length s < fuel ->
    Js.splitAux fuel sep s cur = Js.splitAux (S fuel) sep s cur.
Proof.
  intros Hsep. induction fuel as [|fuel IH]; intros s cur Hlt; [lia|].
  destruct s as [|c s]; [reflexivity|].
  change (Js.splitAux (S (S fuel)) sep (String c s) cur)
    with (if Js.startsWith sep (String c s)
          then cur :: Js.splitAux (S fuel) sep
                        (Js.drop (String.length sep) (String c s)) EmptyString
          else Js.splitAux (S fuel) sep s (cur ++ String c EmptyString)).
  cbn [Js.splitAux]. destruct (Js.startsWith sep (String c s)).
  - rewrite IH; [reflexivity|]. rewrite length_drop.
    destruct sep; [congruence|]. simpl in *. lia.
  - rewrite IH; [reflexivity|]. simpl in Hlt. lia.
Qed.

(** The fuel of [matchAll] is enough as well. *)
Lemma allFrom_fuel r fuel :
  forall s i,
    String.length s < fuel ->
    allFrom fuel r s i = allFrom (S fuel) r s i.
Proof.
  induction fuel as [|fuel IH]; intros s i Hlt; [lia|].
  change (allFrom (S (S fuel)) r s i)
    with (match searchFrom r s i with
          | None => []
          | Some m =>
              let next := index m + Nat.max 1 (String.length (whole m)) in
              if String.length s <? next - i
              then [m]
              else m :: allFrom (S fuel) r (Js.drop (next - i) s) next
          end).
  cbn [allFrom]. destruct (searchFrom r s i) as [m|] eqn:E; [|reflexivity].
  cbv zeta. destruct (_ <? _) eqn:El; [reflexivity|].
  apply Nat.ltb_ge in El. apply searchFrom_leftmost in E as (Hle & _).
  rewrite IH; [reflexivity|]. rewrite length_drop. lia.
Qed.



Lemma append_nil_r s : s ++ "" = s.
Proof. induction s as [|c s IH]; simpl; [reflexivity|now rewrite IH]. Qed.

Lemma append_assoc a b c : (a ++ b) ++ c = a ++ (b ++ c).
Proof. induction a as [|x a IH]; simpl; [reflexivity|now rewrite IH]. Qed.








End ReFacts.

(* ===================================================================== *)
(** ** The property strings of the Python extractor *)
(* ===================================================================== *)

Module PropertyFacts.
Import Re Parser Props ParserFacts.









End PropertyFacts.

(* ===================================================================== *)
(** ** Facts about the detectors *)
(* ===================================================================== *)

Module GeneratorFacts.
Import Re Parser Generator Samples Props.






Section RunFacts.

Variable readFileContent : string -> outcome string.
Variable parseTypeScriptFile :
  string -> string -> string -> Language -> outcome FileIndex.
Variable typeormSchema : FileIndex -> string -> list DbTable.

Lemma unsupported_extension_throws config file content workspaceRoot :
  ~ In (NodePath.extname file) supportedExtensions ->
  parseFile parseTypeScriptFile config file content workspaceRoot =
  Thrown ("Unsupported file type: " ++ NodePath.extname file).
Proof.
  intros H.
  assert (Hne : forall e, In e supportedExtensions ->
                          String.eqb (NodePath.extname file) e = false).
  { intros e He. apply String.eqb_neq. intros E. apply H. now rewrite E. }
  unfold parseFile, parseFileWith.
  rewrite !Hne by (simpl; auto 10). reflexivity.
Qed.

Lemma processFile_fails config workspaceRoot acc file :
  fails readFileContent file ->
  processFile readFileContent parseTypeScriptFile typeormSchema
              config workspaceRoot acc file = acc.
Proof.
  intros [[msg Hr]|Hext]; unfold processFile.
  - now rewrite Hr.
  - destruct (readFileContent file) as [content|msg]; [|reflexivity].
    now rewrite unsupported_extension_throws.
Qed.

(** C2. A file whose read fails or whose extension the dispatch does not
    know leaves every accumulator as it was (no file record, no count,
    no technology tag, no endpoint, no table), and the index built from
    the batch is the index built from the other files alone: they are
    all processed, and the run returns an index. *)
Theorem failing_file_contributes_nothing :
  forall config workspaceRoot before bad after,
    fails readFileContent bad ->
    (forall acc,
        processFile readFileContent parseTypeScriptFile typeormSchema
                    config workspaceRoot acc bad = acc) /\
    generateIndex readFileContent parseTypeScriptFile typeormSchema
                  config workspaceRoot (before ++ bad :: after)%list =
    generateIndex readFileContent parseTypeScriptFile typeormSchema
                  config workspaceRoot (before ++ after)%list.
Proof.
  intros config workspaceRoot before bad after Hbad. split.
  - intros acc. now apply processFile_fails.
  - unfold generateIndex, runFiles.
    rewrite !fold_left_app. simpl.
    now rewrite processFile_fails.
Qed.

End RunFacts.

End GeneratorFacts.

(* ===================================================================== *)
(** ** The extractors on sample sources *)
(* ===================================================================== *)

Module Scenarios.
Import Re Parser Generator Samples Props GeneratorFacts.

(** *** The batch loop *)

Lemma failing_file_contributes_nothing_witness :
  fails sample_disk "/p/src/notes.txt" /\
  generateIndex sample_disk no_typescript no_typeorm defaults "/p"
                ["/p/src/app.py"; "/p/src/notes.txt"; "/p/src/models.py"] =
  generateIndex sample_disk no_typescript no_typeorm defaults "/p"
                ["/p/src/app.py"; "/p/src/models.py"] /\
  fileCount (generateIndex sample_disk no_typescript no_typeorm defaults "/p"
               ["/p/src/app.py"; "/p/src/notes.txt"; "/p/src/models.py"]) = 2.
Proof.
  assert (H : fails sample_disk "/p/src/notes.txt").
  { right. vm_compute. intuition discriminate. }
  split; [exact H|]. split.
  - exact (proj2 (failing_file_contributes_nothing sample_disk no_typescript
                    no_typeorm defaults "/p" ["/p/src/app.py"]
                    "/p/src/notes.txt" ["/p/src/models.py"] H)).
  - vm_compute. reflexivity.
Defined.

(** *** Decorator scan *)

(** The scan reads the lines of index [line - 10] to [line - 1] and no
    other: two texts that agree there give the same path and methods. *)
Lemma scanFrom_window n lines lines' i acc :
  (forall k, i <= k < i + n -> nth_error lines k = nth_error lines' k) ->
  scanFrom n lines i acc = scanFrom n lines' i acc.
Proof.
  revert i acc. induction n as [|n IH]; intros i acc H; simpl; [reflexivity|].
  rewrite <- (H i) by lia. destruct (nth_error lines i); [|reflexivity].
  apply IH. intros k Hk. apply H. lia.
Qed.

Lemma scanDecorators_window lines lines' line :
  (forall k, line - 10 <= k < line -> nth_error lines k = nth_error lines' k) ->
  scanDecorators lines line = scanDecorators lines' line.
Proof.
  intros H. unfold scanDecorators. apply scanFrom_window.
  intros k Hk. apply H. lia.
Qed.

(** C7. The function is declared on line 11. A decorator on line 1 is one
    of the ten lines just above the declaration and is not recognised;
    a decorator on line 2 is. The lines read are those of index
    [line - 10] to [line - 1], which are the declaration line and the
    nine lines above it. *)
Theorem decorator_ten_lines_above_is_not_seen :
  let far := spaced_view 0 9 in
  let near := spaced_view 1 8 in
  let farIndex := parsePythonFile defaults "/p/views.py" far "/p" in
  let nearIndex := parsePythonFile defaults "/p/views.py" near "/p" in
  nth_error (Js.split far Js.nl) 0 = Some "@app.route('/widgets')" /\
  map fn_line (functions farIndex) = [11] /\
  extractFlaskRoutes farIndex far [] = [] /\
  nth_error (Js.split near Js.nl) 1 = Some "@app.route('/widgets')" /\
  map fn_line (functions nearIndex) = [11] /\
  extractFlaskRoutes nearIndex near [] =
  [mkApiEndpoint "GET" "/widgets" "list_widgets" "views.py" 11 false].
Proof. vm_compute. repeat split; reflexivity. Qed.

(** *** Path convention *)

(** C1. For the route file of the app directory the path keeps the file
    name [route] as a last segment: the endpoint is GET
    /api/users/:id/route, not GET /api/users/:id. The same handler in a
    file of the pages directory, named after the segment, gives
    /api/users/:id. *)
Theorem next_app_route_keeps_file_name :
  forall fileIndex,
    extractNextJSRoutes "/proj/app/api/users/[id]/route.ts" fileIndex
      "export async function GET(request) { return list(); }" [] =
    [mkApiEndpoint "GET" "/api/users/:id/route" "get"
                   (relativePath fileIndex) 1 false] /\
    extractNextJSRoutes "/proj/pages/api/users/[id].ts" fileIndex
      "export async function GET(request) { return list(); }" [] =
    [mkApiEndpoint "GET" "/api/users/:id" "get"
                   (relativePath fileIndex) 1 false].
Proof. intros fileIndex. split; vm_compute; reflexivity. Qed.

(** *** Docstrings *)

(** C4. The docstring of a class, written under its header, is not the
    description of the class record: the class has no description and
    the text goes to the next declaration, here the method [run]. A
    triple-quoted line above the header is what becomes the description
    of the class. *)
Theorem class_docstring_goes_to_next_declaration :
  forall config,
    map (fun c => (cls_name c, cls_description c,
                   map (fun m => (fn_name m, fn_description m)) (cls_methods c)))
        (classes (parsePythonFile config "/p/w.py" documented_class "/p")) =
    [("Widget", None, [("run", Some "A widget.")])] /\
    map (fun c => (cls_name c, cls_description c,
                   map (fun m => (fn_name m, fn_description m)) (cls_methods c)))
        (classes (parsePythonFile config "/p/w.py" comment_before_class "/p")) =
    [("Widget", Some "A widget.", [("run", None)])].
Proof.
  intros [classesOn interfacesOn importsOn].
  destruct importsOn; split; vm_compute; reflexivity.
Qed.

(** *** Column definitions *)

(** When the text after [Column(] on the first line closes as many
    parentheses as it opens, the inner loop reads no line: the definition
    and the cursor stay as they are. *)
Lemma continuation_balanced later opened closed fullDef i j :
  opened <= closed ->
  continuation later opened closed fullDef i j = (fullDef, i).
Proof.
  intros H. destruct later as [|l later]; simpl; [reflexivity|].
  destruct (closed <? opened) eqn:E; [|reflexivity].
  apply Nat.ltb_lt in E. lia.
Qed.

(** C5. A column call that spans several lines is followed to its end
    only when the first line leaves a parenthesis open after [Column(]:
    the opening parenthesis of the call itself is not counted. With the
    arguments starting on the next line no column is recorded; with
    balanced text on the first line the next line is not consumed, and
    here it is read as a property of its own; with a parenthesis left
    open after [Column(] the same next line is consumed. *)
Theorem column_call_over_several_lines :
  properties_of (text ["class Event(Base):";
                       "    created = Column(";
                       "        DateTime,";
                       "        nullable=False)"]) = [("Event", [])] /\
  properties_of (text ["class Event(Base):";
                       "    created = Column(DateTime, default=";
                       "        lambda: now())"]) =
  [("Event", ["created: DateTime"; "lambda: now())"])] /\
  properties_of (text ["class Event(Base):";
                       "    created = Column(DateTime, default=wrap(";
                       "        lambda: now()))"]) =
  [("Event", ["created: DateTime"])].
Proof. vm_compute. repeat split; reflexivity. Qed.

(** *** Schema rules *)

(** C8. There is a file in which one class is matched by the
    declarative-column rule and by the model-field rule: the run appends
    two tables with the name of that class to the table list of the
    index, one from each rule, after the tables of the file before. The
    file declares one class of that name; its other class, the last of
    the file, gets a table from the model-field rule only. *)
Theorem one_class_two_tables :
  forall parseTypeScriptFile typeormSchema,
    let run := generateIndex models_disk parseTypeScriptFile typeormSchema
                             defaults "/p" in
    let fileIndex :=
      parsePythonFile defaults "/p/src/models.py" mixed_models "/p" in
    let declarative :=
      mkDbTable "User" "src/models.py" 1
                [mkDbColumn "id" "Integer" true true None] in
    let django :=
      mkDbTable "User" "src/models.py" 1
                [mkDbColumn "name" "CharField" false false None] in
    let audit :=
      mkDbTable "Audit" "src/models.py" 4
                [mkDbColumn "name" "CharField" false false None] in
    files (run ["/p/src/base.py"; "/p/src/models.py"]) =
      (files (run ["/p/src/base.py"]) ++ [fileIndex])%list /\
    List.length (filter (fun c => String.eqb (cls_name c) "User")
                        (classes fileIndex)) = 1 /\
    extractSQLAlchemySchema fileIndex mixed_models [] = [declarative] /\
    extractDjangoModels fileIndex mixed_models [] = [django; audit] /\
    dbSchema (run ["/p/src/base.py"; "/p/src/models.py"]) =
      (dbSchema (run ["/p/src/base.py"]) ++ [declarative; django; audit])%list /\
    filter (named "User")
           (dbSchema (run ["/p/src/base.py"; "/p/src/models.py"])) =
      [declarative; django].
Proof.
  intros parseTypeScriptFile typeormSchema. vm_compute.
  repeat split; reflexivity.
Qed.

End Scenarios.

(* ===================================================================== *)
(** ** Shape of the records of the Python extractor *)
(* ===================================================================== *)

Module ShapeFacts.
Import Re Parser Samples Props ParserFacts.

Lemma methodParams_clean paramsStr :
  ~ In "self" (methodParams paramsStr) /\ ~ In "cls" (methodParams paramsStr) /\
  ~ In EmptyString (methodParams paramsStr).
Proof.
  unfold methodParams. repeat split; intros H; apply filter_In in H as [_ H];
    simpl in H; discriminate.
Qed.

Lemma functionParams_clean paramsStr :
  ~ In EmptyString (functionParams paramsStr).
Proof.
  unfold functionParams. intros H. apply filter_In in H as [_ H].
  simpl in H. discriminate.
Qed.

Lemma class_ok_pushProperty p c : class_ok c -> class_ok (pushProperty p c).
Proof. intros H. exact H. Qed.

Lemma class_ok_pushMethod m c :
  method_ok c m -> class_ok c -> class_ok (pushMethod m c).
Proof.
  intros Hm [He Hms]. split; [exact He|]. cbn [pushMethod cls_methods].
  apply Forall_app; split; [exact Hms|]. constructor; [exact Hm|constructor].
Qed.

Ltac new_method :=
  split; [cbn [pushMethod cls_line]; lia|];
  apply class_ok_pushMethod; [|assumption];
  unfold method_ok; cbn [fn_isExported fn_returnType fn_line fn_params];
  repeat split; try reflexivity; try lia; apply methodParams_clean.

Ltac older_classes :=
  eapply Forall_impl; [|eassumption];
  intros c [Hl Hk]; split; [lia|exact Hk].

Ltac shape_leaf :=
  match goal with
  | H : shape _ _ |- _ => destruct H as [? ?]
  end;
  unfold shape; cbn [st_functions st_classes];
  split;
  [ first
      [ assumption
      | apply Forall_app; split;
        [ assumption
        | constructor; [|constructor];
          unfold function_ok; cbn [fn_isExported fn_returnType fn_params];
          repeat split; apply functionParams_clean ] ]
  | first
      [ older_classes
      | apply Forall_app; split;
        [ older_classes
        | constructor; [|constructor];
          split; [cbn [cls_line]; lia|]; split; [reflexivity|];
          cbn [cls_methods]; constructor ]
      | eapply update_Forall; [| |eassumption]; cbv beta;
        intros c [Hl Hk];
        first [ split; [lia|exact Hk]
              | split; [cbn [pushProperty cls_line]; lia|exact Hk]
              | new_method ] ] ].

Lemma body_shape config lines s :
  shape (st_i s) s -> shape (st_i s + 1) (body config lines s).
Proof.
  intros H.
  unfold body, classBodyStep, declStep, importStep, docstringStep.
  break_match; shape_leaf.
Qed.

Lemma loop_shape config lines fuel :
  forall s, shape (st_i s) s ->
            shape (st_i (loop fuel config lines s)) (loop fuel config lines s).
Proof.
  induction fuel as [|fuel IH]; intros s H; simpl; [exact H|].
  destruct (st_i s <? List.length lines); [|exact H].
  apply IH. unfold step. cbn [setI st_i].
  pose proof (body_shape config lines s H) as [Hf Hc].
  pose proof (body_i config lines s) as Hi. cbv zeta in Hi.
  split; [exact Hf|]. cbn [setI st_classes].
  eapply Forall_impl; [|exact Hc]. intros c [Hl Hk]. split; [lia|exact Hk].
Qed.

Lemma run_shape config content :
  shape (st_i (run config content)) (run config content).
Proof. unfold run. apply loop_shape. split; constructor. Qed.

(** The flags of the records: every function is exported and every class
    is; no method is; no record has a return type; the file has no
    interface and is tagged as Python. *)
Theorem python_record_flags :
  forall config filePath content workspaceRoot,
    let fileIndex := parsePythonFile config filePath content workspaceRoot in
    Forall (fun f => fn_isExported f = true /\ fn_returnType f = None)
           (functions fileIndex) /\
    Forall (fun c => cls_isExported c = true /\
                     Forall (fun m => fn_isExported m = false /\
                                      fn_returnType m = None)
                            (cls_methods c))
           (classes fileIndex) /\
    interfaces fileIndex = [] /\ language fileIndex = python /\
    path fileIndex = filePath.
Proof.
  intros config filePath content workspaceRoot. cbv zeta.
  destruct (run_shape config content) as [Hf Hc].
  repeat split; cbn [parsePythonFile functions classes].
  - eapply Forall_impl; [|exact Hf]. intros f (He & Hr & _). now split.
  - eapply Forall_impl; [|exact Hc]. intros c (_ & He & Hm). split; [exact He|].
    eapply Forall_impl; [|exact Hm]. intros m (Hx & Hr & _). now split.
Qed.

(** No parameter list holds an empty parameter, and the parameter list of
    a method holds neither [self] nor [cls]. *)
Theorem python_parameters_are_cleaned :
  forall config filePath content workspaceRoot,
    let fileIndex := parsePythonFile config filePath content workspaceRoot in
    Forall (fun f => ~ In EmptyString (fn_params f)) (functions fileIndex) /\
    Forall (fun c => Forall (fun m => ~ In "self" (fn_params m) /\
                                      ~ In "cls" (fn_params m) /\
                                      ~ In EmptyString (fn_params m))
                            (cls_methods c))
           (classes fileIndex).
Proof.
  intros config filePath content workspaceRoot. cbv zeta.
  destruct (run_shape config content) as [Hf Hc].
  split; cbn [parsePythonFile functions classes].
  - eapply Forall_impl; [|exact Hf]. intros f (_ & _ & Hp). exact Hp.
  - eapply Forall_impl; [|exact Hc]. intros c (_ & _ & Hm).
    eapply Forall_impl; [|exact Hm]. intros m (_ & _ & _ & H1 & H2 & H3).
    now repeat split.
Qed.

(** Every method is recorded on a line below the header of its class. *)
Theorem python_methods_below_class_header :
  forall config filePath content workspaceRoot c m,
    In c (classes (parsePythonFile config filePath content workspaceRoot)) ->
    In m (cls_methods c) ->
    cls_line c < fn_line m.
Proof.
  intros config filePath content workspaceRoot c m Hc Hm.
  destruct (run_shape config content) as [_ H].
  rewrite Forall_forall in H. destruct (H c Hc) as (_ & _ & Hms).
  rewrite Forall_forall in Hms. now destruct (Hms m Hm) as (_ & _ & Hl & _).
Qed.

Lemma python_methods_below_class_header_witness :
  let run := mkFunctionInfo "run" [] None 3 false false (Some "A widget.") in
  let widget := mkClassInfo "Widget" 1 [run] true None [] in
  In widget (classes (parsePythonFile defaults "/p/w.py" documented_class "/p")) /\
  In run (cls_methods widget) /\
  cls_line widget < fn_line run.
Proof.
  intros run widget.
  assert (Hc : In widget (classes (parsePythonFile defaults "/p/w.py"
                                     documented_class "/p")))
    by (vm_compute; left; reflexivity).
  assert (Hm : In run (cls_methods widget)) by (left; reflexivity).
  split; [exact Hc|]. split; [exact Hm|].
  exact (python_methods_below_class_header defaults "/p/w.py" documented_class
           "/p" widget run Hc Hm).
Defined.

Lemma flat_methods_pushMethod n m l :
  List.length (flat_map cls_methods (update n (pushMethod m) l)) <=
  S (List.length (flat_map cls_methods l)).
Proof.
  revert n. induction l as [|c l IH]; intros [|n]; simpl; try lia.
  - rewrite !length_app. simpl. lia.
  - rewrite !length_app. specialize (IH n). lia.
Qed.

Lemma flat_properties_pushMethod n m l :
  flat_map cls_properties (update n (pushMethod m) l) =
  flat_map cls_properties l.
Proof.
  revert n. induction l as [|c l IH]; intros [|n]; simpl; auto.
  now rewrite IH.
Qed.

Lemma flat_properties_pushProperty n p l :
  List.length (flat_map cls_properties (update n (pushProperty p) l)) <=
  S (List.length (flat_map cls_properties l)).
Proof.
  revert n. induction l as [|c l IH]; intros [|n]; simpl; try lia.
  - rewrite !length_app. simpl. lia.
  - rewrite !length_app. specialize (IH n). lia.
Qed.

Ltac count_leaf :=
  unfold records; cbn [st_functions st_classes st_imports];
  rewrite ?length_app, ?flat_map_app, ?length_app, ?update_length,
          ?flat_update_property, ?flat_properties_pushMethod;
  cbn [List.length flat_map cls_methods cls_properties app];
  try match goal with
    | |- context [flat_map cls_methods (update ?n (pushMethod ?m) ?l)] =>
        pose proof (flat_methods_pushMethod n m l)
    end;
  try match goal with
    | |- context [flat_map cls_properties (update ?n (pushProperty ?p) ?l)] =>
        pose proof (flat_properties_pushProperty n p l)
    end;
  lia.

(** One iteration records at most one thing. *)
Lemma body_records config lines s :
  records (body config lines s) <= records s + 1.
Proof.
  unfold body, classBodyStep, declStep, importStep, docstringStep.
  break_match; count_leaf.
Qed.

Lemma loop_records config lines fuel :
  forall s, records s <= st_i s ->
            records (loop fuel config lines s) <= st_i (loop fuel config lines s).
Proof.
  induction fuel as [|fuel IH]; intros s H; simpl; [exact H|].
  destruct (st_i s <? List.length lines); [|exact H].
  apply IH. unfold step. cbn [setI st_i].
  pose proof (body_records config lines s) as Hr.
  pose proof (body_i config lines s) as Hi. cbv zeta in Hi.
  change (records (setI (st_i (body config lines s) + 1) (body config lines s)))
    with (records (body config lines s)).
  lia.
Qed.

(** A file of [n] lines gives at most [n] records in all: functions,
    classes, imports, methods and properties together. *)
Theorem python_at_most_one_record_per_line :
  forall config filePath content workspaceRoot,
    let fileIndex := parsePythonFile config filePath content workspaceRoot in
    List.length (functions fileIndex) + List.length (classes fileIndex) +
    List.length (imports fileIndex) +
    List.length (flat_map cls_methods (classes fileIndex)) +
    List.length (flat_map cls_properties (classes fileIndex)) <=
    List.length (Js.split content Js.nl).
Proof.
  intros config filePath content workspaceRoot. cbv zeta.
  cbn [parsePythonFile functions classes imports].
  pose proof (loop_records config (Js.split content Js.nl)
                (List.length (Js.split content Js.nl)) initial) as H.
  pose proof (run_reads_every_line config content) as Hn.
  unfold run in *. unfold records in H. rewrite Hn in H. apply H. simpl. lia.
Qed.

End ShapeFacts.

(* ===================================================================== *)
(** ** The line loop: docstrings, column definitions, imports *)
(* ===================================================================== *)

Module LineLoopFacts.
Import Re Parser Samples Props ParserFacts.

Lemma body_in_docstring config lines s :
  inDocstring s = true -> plain (nth (st_i s) lines EmptyString) = true ->
  body config lines s =
  mkPyState (st_functions s) (st_classes s) (st_imports s) (currentClass s)
            (currentIndent s) (pendingDocstring s) true
            (docstringLines s ++ [Js.trim (nth (st_i s) lines EmptyString)])%list
            (st_i s).
Proof.
  intros Hin Hp. unfold plain in Hp. apply andb_prop in Hp as [H1 H2].
  apply negb_true_iff in H1, H2. unfold body. rewrite H1, H2, Hin. reflexivity.
Qed.

Lemma firstn_skipn_step (i k : nat) (lines : list string) :
  i < List.length lines ->
  firstn (S k) (skipn i lines) =
  nth i lines EmptyString :: firstn k (skipn (S i) lines).
Proof.
  revert i. induction lines as [|l lines IH]; intros i Hi; [simpl in Hi; lia|].
  destruct i as [|i]; [reflexivity|].
  simpl in Hi. change (skipn (S i) (l :: lines)) with (skipn i lines).
  rewrite IH by lia. reflexivity.
Qed.

(** While a docstring is open, the lines that hold no triple quote record
    nothing, whatever they look like: functions, classes, imports, class
    context and pending description stay as they are, the trimmed lines
    are added to the docstring, and the cursor moves by one line each. *)
Theorem lines_inside_docstring_record_nothing :
  forall config lines k s,
    inDocstring s = true ->
    st_i s + k <= List.length lines ->
    (forall j, st_i s <= j < st_i s + k -> plain (nth j lines EmptyString) = true) ->
    loop k config lines s =
    mkPyState (st_functions s) (st_classes s) (st_imports s) (currentClass s)
              (currentIndent s) (pendingDocstring s) true
              (docstringLines s ++ map Js.trim (firstn k (skipn (st_i s) lines)))%list
              (st_i s + k).
Proof.
  intros config lines k. induction k as [|k IH]; intros s Hin Hlen Hplain.
  - simpl. rewrite app_nil_r, Nat.add_0_r. destruct s; simpl in *; now subst.
  - cbn [loop]. assert (Hlt : st_i s < List.length lines) by lia.
    apply Nat.ltb_lt in Hlt as Hb. rewrite Hb. unfold step.
    rewrite body_in_docstring by (auto; apply Hplain; lia).
    unfold setI.
    cbn [st_functions st_classes st_imports currentClass currentIndent
         pendingDocstring inDocstring docstringLines st_i].
    rewrite IH; cbn [st_functions st_classes st_imports currentClass
                     currentIndent pendingDocstring inDocstring docstringLines
                     st_i]; [|reflexivity|lia|intros j Hj; apply Hplain; lia].
    rewrite firstn_skipn_step by exact Hlt. cbn [map].
    rewrite <- app_assoc. cbn [app].
    replace (st_i s + 1 + k) with (st_i s + S k) by lia.
    replace (st_i s + 1) with (S (st_i s)) by lia. reflexivity.
Qed.

Lemma lines_inside_docstring_record_nothing_witness :
  inDocstring inside_docstring = true /\
  st_i inside_docstring + 2 <= List.length commented_out /\
  loop 2 defaults commented_out inside_docstring =
  mkPyState [] [] [] None 0 None true ["def f():"; "class A(B):"] 3.
Proof.
  split; [reflexivity|]. split; [simpl; lia|].
  rewrite (lines_inside_docstring_record_nothing defaults commented_out 2
             inside_docstring).
  - reflexivity.
  - reflexivity.
  - simpl; lia.
  - intros j Hj. simpl in Hj.
    assert (Hcase : j = 1 \/ j = 2) by lia.
    destruct Hcase as [-> | ->]; reflexivity.
Defined.

(** The text and the cursor that the inner loop of a column definition
    returns: some number [n] of the following lines are read; the text is
    the first line's followed by these lines, each trimmed and put after
    a blank; the cursor stays on the column line when no line is read and
    else stands on the last line read. *)
Theorem column_definition_text :
  forall later opened closed fullDef i j,
    exists n,
      n <= List.length later /\
      continuation later opened closed fullDef i j =
      (fold_left (fun d l => d ++ " " ++ Js.trim l) (firstn n later) fullDef,
       if n =? 0 then i else j + n - 1).
Proof.
  induction later as [|l later IH]; intros opened closed fullDef i j.
  - exists 0. split; [simpl; lia|reflexivity].
  - cbn [continuation]. destruct (closed <? opened).
    + destruct (IH (opened + fst (parenDelta (Js.trim l)))
                   (closed + snd (parenDelta (Js.trim l)))
                   (fullDef ++ " " ++ Js.trim l) j (S j)) as (n & Hn & ->).
      exists (S n). split; [simpl; lia|]. cbn [firstn fold_left Nat.eqb].
      f_equal. destruct n; cbn [Nat.eqb]; lia.
    + exists 0. split; [simpl; lia|reflexivity].
Qed.

Lemma body_imports_disabled config lines s :
  includeImports config = false ->
  st_imports (body config lines s) = st_imports s.
Proof.
  intros H. unfold body, classBodyStep, declStep, importStep, docstringStep.
  rewrite H. break_match; reflexivity.
Qed.

Lemma loop_imports_disabled config lines fuel :
  includeImports config = false ->
  forall s, st_imports (loop fuel config lines s) = st_imports s.
Proof.
  intros H. induction fuel as [|fuel IH]; intros s; simpl; [reflexivity|].
  destruct (st_i s <? List.length lines); [|reflexivity].
  rewrite IH. unfold step. cbn [setI st_imports]. now apply body_imports_disabled.
Qed.

(** With the import records switched off, which is the default, a Python
    file gets no import record. *)
Theorem python_imports_switched_off :
  forall config filePath content workspaceRoot,
    includeImports config = false ->
    imports (parsePythonFile config filePath content workspaceRoot) = [].
Proof.
  intros config filePath content workspaceRoot H.
  cbn [parsePythonFile imports]. unfold run.
  now rewrite loop_imports_disabled.
Qed.

Lemma python_imports_switched_off_witness :
  includeImports defaults = false /\
  imports (parsePythonFile defaults "/p/src/app.py" flask_app "/p") = [].
Proof.
  split; [reflexivity|].
  exact (python_imports_switched_off defaults "/p/src/app.py" flask_app "/p"
           eq_refl).
Defined.

End LineLoopFacts.

(* ===================================================================== *)
(** ** Where the endpoints come from *)
(* ===================================================================== *)

Module EndpointFacts.
Import Re Parser Generator Samples Props ParserFacts.

Lemma extends_refl {A : Type} (P : A -> Prop) (l : list A) : extends P l l.
Proof. exists []. split; [now rewrite app_nil_r|constructor]. Qed.

Lemma extends_trans {A : Type} (P : A -> Prop) (a b c : list A) :
  extends P a b -> extends P b c -> extends P a c.
Proof.
  intros (x & -> & Hx) (y & -> & Hy). exists (x ++ y)%list.
  split; [now rewrite app_assoc|]. apply Forall_app. now split.
Qed.

Lemma extends_weaken {A : Type} (P Q : A -> Prop) (a b : list A) :
  (forall x, P x -> Q x) -> extends P a b -> extends Q a b.
Proof.
  intros H (x & -> & Hx). exists x. split; [reflexivity|].
  eapply Forall_impl; [exact H|exact Hx].
Qed.

Lemma extends_app {A : Type} (P : A -> Prop) (l new : list A) :
  Forall P new -> extends P l (l ++ new)%list.
Proof. intros H. now exists new. Qed.

(** The pieces of a text split at line feeds are one more than its line
    feeds. *)
Lemma splitAux_lines fuel :
  forall s cur,
    String.length s < fuel ->
    List.length (Js.splitAux fuel Js.nl s cur) = S (lineFeeds s).
Proof.
  induction fuel as [|fuel IH]; intros s cur Hlt; [lia|].
  destruct s as [|c s]; [reflexivity|].
  cbn [Js.splitAux lineFeeds].
  change (Js.drop (String.length Js.nl) (String c s)) with s.
  change (Js.startsWith Js.nl (String c s))
    with (Ascii.eqb (ascii_of_nat 10) c && true).
  simpl in Hlt. destruct (Ascii.eqb (ascii_of_nat 10) c); cbn [andb List.length].
  - rewrite IH by lia. reflexivity.
  - rewrite IH by lia. reflexivity.
Qed.

Lemma split_lines s : List.length (Js.split s Js.nl) = S (lineFeeds s).
Proof. unfold Js.split. apply splitAux_lines. lia. Qed.

Lemma lineFeeds_take n s : lineFeeds (Js.take n s) <= lineFeeds s.
Proof.
  revert s. induction n as [|n IH]; intros [|c s]; simpl; try lia.
  specialize (IH s). lia.
Qed.

(** The line of an offset is a line of the text. *)
Lemma lineOfOffset_range content startPos :
  1 <= lineOfOffset content startPos <= List.length (Js.split content Js.nl).
Proof.
  unfold lineOfOffset, Js.substring. rewrite !split_lines.
  cbn [Nat.min]. rewrite Nat.max_0_l, Nat.sub_0_r. cbn [Js.drop].
  pose proof (lineFeeds_take (Nat.min startPos (String.length content)) content).
  lia.
Qed.

Section OneFile.
Variable fileIndex : FileIndex.
Variable content : string.

(** An endpoint of the decorator scan is read off an extracted function
    and the path found by the scan above it, which is not empty. *)
Lemma flask_endpoint lines f ep :
  In ep (flaskEndpoints fileIndex content lines f) ->
  ep_handler ep = fn_name f /\ ep_line ep = fn_line f /\
  ep_file ep = relativePath fileIndex /\
  ep_path ep = fst (scanDecorators lines (fn_line f)) /\
  ep_path ep <> EmptyString.
Proof.
  unfold flaskEndpoints.
  destruct (scanDecorators lines (fn_line f)) as [routePath routeMethods].
  destruct (Js.truthy routePath) eqn:E; [|intros []].
  intros H. apply in_map_iff in H as (method & <- & _). cbn.
  repeat split. intros ->. discriminate.
Qed.

Lemma express_endpoint ep :
  In ep (extractExpressRoutes fileIndex content []) ->
  ep_handler ep = "handler" /\ ep_file ep = relativePath fileIndex /\
  exists m, ep_line ep = lineOfOffset content (index m).
Proof.
  unfold extractExpressRoutes. cbn [app]. intros H.
  apply in_flat_map in H as (pm & _ & H).
  apply in_map_iff in H as (m & <- & _). cbn. repeat split. now exists m.
Qed.

Lemma nest_endpoint ep :
  In ep (extractNestJSRoutes fileIndex content []) ->
  ep_file ep = relativePath fileIndex /\
  exists m, ep_line ep = lineOfOffset content (index m).
Proof.
  unfold extractNestJSRoutes. cbn [app]. intros H.
  apply in_flat_map in H as (pm & _ & H).
  apply in_map_iff in H as (m & <- & _). cbn. split; [reflexivity|]. now exists m.
Qed.

Lemma next_endpoint filePath ep :
  In ep (extractNextJSRoutes filePath fileIndex content []) ->
  ep_line ep = 1 /\ In (ep_method ep) nextMethods /\
  ep_handler ep = Js.toLowerCase (ep_method ep) /\
  ep_file ep = relativePath fileIndex /\
  Js.startsWith "/api/" (ep_path ep) = true /\
  Js.includes filePath "/pages/api/" || Js.includes filePath "/app/api/" = true.
Proof.
  unfold extractNextJSRoutes.
  destruct (Js.includes filePath "/pages/api/" ||
            Js.includes filePath "/app/api/"); [|intros []].
  destruct (search apiRe filePath) as [apiMatch|]; [|intros []].
  cbn [app]. intros H. apply in_map_iff in H as (method & <- & H).
  apply filter_In in H as [H _]. cbn. repeat split. exact H.
Qed.

(** An endpoint of the view rules is read off a function of the file, or
    off a class of the file and one of its methods named after a verb. *)
Lemma django_endpoint ep :
  In ep (extractDjangoRoutes fileIndex content []) ->
  ep_file ep = relativePath fileIndex /\
  ((exists f, In f (functions fileIndex) /\
              ep_handler ep = fn_name f /\ ep_line ep = fn_line f) \/
   (exists c m, In c (classes fileIndex) /\ In m (cls_methods c) /\
                In (fn_name m) viewMethods /\
                ep_handler ep = cls_name c ++ "." ++ fn_name m /\
                ep_method ep = Js.toUpperCase (fn_name m) /\
                ep_line ep = cls_line c)).
Proof.
  unfold extractDjangoRoutes. cbn [app]. intros H.
  apply in_app_or in H as [H|H]; apply in_flat_map in H as (m & _ & H).
  - unfold apiViewEndpoints in H.
    destruct (find _ (functions fileIndex)) as [func|] eqn:E; [|destruct H].
    apply find_some in E as [Hin Hname]. apply String.eqb_eq in Hname.
    apply in_map_iff in H as (method & <- & _). cbn.
    split; [reflexivity|]. left. exists func. now rewrite Hname.
  - unfold cbvEndpoints in H.
    destruct (find _ (classes fileIndex)) as [cls|] eqn:E; [|destruct H].
    apply find_some in E as [Hin Hname]. apply String.eqb_eq in Hname.
    apply in_map_iff in H as (method & <- & H).
    apply filter_In in H as [Hverb H].
    apply existsb_exists in H as (f & Hf & Hfn). apply String.eqb_eq in Hfn.
    cbn. split; [reflexivity|]. right. exists cls, f.
    rewrite Hfn, <- Hname. now repeat split.
Qed.

Lemma flask_extends (P : ApiEndpoint -> Prop) eps :
  (forall f ep, In f (functions fileIndex) ->
                In ep (flaskEndpoints fileIndex content
                         (Js.split content Js.nl) f) -> P ep) ->
  extends P eps (extractFlaskRoutes fileIndex content eps).
Proof.
  intros H. unfold extractFlaskRoutes. apply extends_app.
  apply Forall_forall. intros ep Hep.
  apply in_flat_map in Hep as (f & Hf & Hep). now apply (H f).
Qed.

Lemma django_extends (P : ApiEndpoint -> Prop) eps :
  (forall ep, In ep (extractDjangoRoutes fileIndex content []) -> P ep) ->
  extends P eps (extractDjangoRoutes fileIndex content eps).
Proof.
  intros H. unfold extractDjangoRoutes in *. cbn [app] in H.
  apply extends_app. apply Forall_forall. exact H.
Qed.

Lemma express_extends (P : ApiEndpoint -> Prop) eps :
  (forall ep, In ep (extractExpressRoutes fileIndex content []) -> P ep) ->
  extends P eps (extractExpressRoutes fileIndex content eps).
Proof.
  intros H. unfold extractExpressRoutes in *. cbn [app] in H.
  apply extends_app. apply Forall_forall. exact H.
Qed.

Lemma nest_extends (P : ApiEndpoint -> Prop) eps :
  (forall ep, In ep (extractNestJSRoutes fileIndex content []) -> P ep) ->
  extends P eps (extractNestJSRoutes fileIndex content eps).
Proof.
  intros H. unfold extractNestJSRoutes in *. cbn [app] in H.
  apply extends_app. apply Forall_forall. exact H.
Qed.

Lemma next_extends (P : ApiEndpoint -> Prop) filePath eps :
  (forall ep, In ep (extractNextJSRoutes filePath fileIndex content []) -> P ep) ->
  extends P eps (extractNextJSRoutes filePath fileIndex content eps).
Proof.
  intros H. unfold extractNextJSRoutes in *.
  destruct (_ || _); [|apply extends_refl].
  destruct (search apiRe filePath); [|apply extends_refl].
  cbn [app] in H. apply extends_app. apply Forall_forall. exact H.
Qed.

End OneFile.

(** Every endpoint that the decorator scan adds is read off an extracted
    function: it carries the name and the line of the function, the file
    of the index, and the path found by the scan above that function,
    which is not empty. *)
Theorem flask_endpoints_come_from_functions :
  forall fileIndex content endpoints,
    extends
      (fun ep =>
         exists f, In f (functions fileIndex) /\
                   ep_handler ep = fn_name f /\ ep_line ep = fn_line f /\
                   ep_file ep = relativePath fileIndex /\
                   ep_path ep =
                     fst (scanDecorators (Js.split content Js.nl) (fn_line f)) /\
                   ep_path ep <> EmptyString)
      endpoints (extractFlaskRoutes fileIndex content endpoints).
Proof.
  intros fileIndex content endpoints. apply flask_extends.
  intros f ep Hf Hep. exists f. split; [exact Hf|].
  now apply flask_endpoint in Hep.
Qed.

Lemma scanFrom_no_route lines n :
  (forall line, In line lines -> search routeRe line = None) ->
  forall i acc, fst (scanFrom n lines i acc) = fst acc.
Proof.
  intros H. induction n as [|n IH]; intros i acc; [reflexivity|].
  cbn [scanFrom]. destruct (nth_error lines i) as [line|] eqn:E; [|reflexivity].
  rewrite IH. unfold scanLine. rewrite (H line (nth_error_In _ _ E)). reflexivity.
Qed.

(** A text in which no line holds a route decorator gives no endpoint,
    whatever functions were extracted from it. *)
Theorem no_route_decorator_no_flask_endpoint :
  forall fileIndex content endpoints,
    (forall line, In line (Js.split content Js.nl) ->
                  search routeRe line = None) ->
    extractFlaskRoutes fileIndex content endpoints = endpoints.
Proof.
  intros fileIndex content endpoints H. unfold extractFlaskRoutes.
  replace (flat_map _ (functions fileIndex)) with (@nil ApiEndpoint);
    [apply app_nil_r|].
  symmetry. induction (functions fileIndex) as [|f fs IH]; [reflexivity|].
  cbn [flat_map]. rewrite IH, app_nil_r. unfold flaskEndpoints, scanDecorators.
  pose proof (scanFrom_no_route _ (fn_line f - Nat.max 0 (fn_line f - 10)) H
                (Nat.max 0 (fn_line f - 10)) (EmptyString, [])) as Hs.
  destruct (scanFrom _ _ _ _) as [routePath routeMethods].
  cbn [fst] in Hs. subst routePath. reflexivity.
Qed.

Lemma no_route_decorator_no_flask_endpoint_witness :
  let fileIndex := parsePythonFile defaults "/p/util.py" plain_module "/p" in
  List.length (functions fileIndex) = 1 /\
  extractFlaskRoutes fileIndex plain_module [] = [].
Proof.
  intros fileIndex. split; [vm_compute; reflexivity|].
  apply no_route_decorator_no_flask_endpoint.
  intros line Hl. vm_compute in Hl.
  destruct Hl as [<-|[<-|[]]]; vm_compute; reflexivity.
Defined.

(** The endpoints of a function depend on the text only through the ten
    lines of index [line - 10] to [line - 1], the declaration line being
    the last of them, and through the presence of one of the two
    authentication decorators anywhere in the text: two texts that agree
    on both give the same endpoints. *)
Theorem flask_endpoints_depend_on_the_window :
  forall fileIndex content content' f,
    (forall k, fn_line f - 10 <= k < fn_line f ->
               nth_error (Js.split content Js.nl) k =
               nth_error (Js.split content' Js.nl) k) ->
    Js.includes content "@jwt_required" ||
    Js.includes content "@login_required" =
    Js.includes content' "@jwt_required" ||
    Js.includes content' "@login_required" ->
    flaskEndpoints fileIndex content (Js.split content Js.nl) f =
    flaskEndpoints fileIndex content' (Js.split content' Js.nl) f.
Proof.
  intros fileIndex content content' f H Hauth. unfold flaskEndpoints.
  rewrite (Scenarios.scanDecorators_window _ _ (fn_line f) H), Hauth.
  reflexivity.
Qed.

Lemma flask_endpoints_depend_on_the_window_witness :
  let f := mkFunctionInfo "list_widgets" [] None 3 false true None in
  let fileIndex := mkFileIndex "/p/a.py" "a.py" [f] [] [] [] python in
  flask_app <> flask_app_longer /\
  (forall k, fn_line f - 10 <= k < fn_line f ->
             nth_error (Js.split flask_app Js.nl) k =
             nth_error (Js.split flask_app_longer Js.nl) k) /\
  Js.includes flask_app "@jwt_required" ||
  Js.includes flask_app "@login_required" =
  Js.includes flask_app_longer "@jwt_required" ||
  Js.includes flask_app_longer "@login_required" /\
  flaskEndpoints fileIndex flask_app (Js.split flask_app Js.nl) f =
  flaskEndpoints fileIndex flask_app_longer (Js.split flask_app_longer Js.nl) f.
Proof.
  intros f fileIndex.
  assert (H : forall k, fn_line f - 10 <= k < fn_line f ->
                        nth_error (Js.split flask_app Js.nl) k =
                        nth_error (Js.split flask_app_longer Js.nl) k).
  { intros k Hk. cbn in Hk.
    assert (Hcase : k = 0 \/ k = 1 \/ k = 2) by lia.
    destruct Hcase as [-> | [-> | ->]]; vm_compute; reflexivity. }
  split; [vm_compute; discriminate|]. split; [exact H|].
  split; [reflexivity|].
  exact (flask_endpoints_depend_on_the_window fileIndex flask_app
           flask_app_longer f H eq_refl).
Defined.

Lemma python_lines_in_range config filePath content workspaceRoot :
  let fileIndex := parsePythonFile config filePath content workspaceRoot in
  let n := List.length (Js.split content Js.nl) in
  (forall f, In f (functions fileIndex) -> 1 <= fn_line f <= n) /\
  (forall c, In c (classes fileIndex) -> 1 <= cls_line c <= n).
Proof.
  cbv zeta. destruct (run_wf config content) as ((Hf & _) & (Hc & _) & _).
  rewrite Forall_forall in Hf, Hc. split.
  - intros f H. apply Hf. cbn [parsePythonFile functions] in H.
    now apply in_map.
  - intros c H. apply Hc. cbn [parsePythonFile classes] in H.
    now apply in_map.
Qed.

(** Every endpoint read in a Python file names that file and carries a
    line number between 1 and the number of lines of its text. *)
Theorem python_endpoints_point_into_the_file :
  forall config filePath content workspaceRoot,
    let fileIndex := parsePythonFile config filePath content workspaceRoot in
    Forall (endpoint_of fileIndex (List.length (Js.split content Js.nl)))
           (extractDjangoRoutes fileIndex content
              (extractFlaskRoutes fileIndex content [])).
Proof.
  intros config filePath content workspaceRoot fileIndex.
  destruct (python_lines_in_range config filePath content workspaceRoot)
    as [Hf Hc]. fold fileIndex in Hf, Hc.
  assert (H : extends (endpoint_of fileIndex (List.length (Js.split content Js.nl)))
                [] (extractDjangoRoutes fileIndex content
                      (extractFlaskRoutes fileIndex content []))).
  { eapply extends_trans.
    - apply flask_extends. intros f ep Hin Hep.
      apply flask_endpoint in Hep as (_ & Hl & Hfile & _).
      split; [exact Hfile|]. rewrite Hl. now apply Hf.
    - apply django_extends. intros ep Hep.
      apply django_endpoint in Hep as (Hfile & [(f & Hin & _ & Hl)|
                                                 (c & m & Hin & _ & _ & _ & _ & Hl)]);
        (split; [exact Hfile|]); rewrite Hl; auto. }
  destruct H as (new & -> & Hnew). exact Hnew.
Qed.

(** Every endpoint read in the raw text of a TypeScript or JavaScript file
    names that file and carries a line number between 1 and the number of
    lines of its text, whatever the syntax tree held. *)
Theorem text_endpoints_point_into_the_file :
  forall filePath fileIndex content,
    Forall (endpoint_of fileIndex (List.length (Js.split content Js.nl)))
           (extractNextJSRoutes filePath fileIndex content
              (extractNestJSRoutes fileIndex content
                 (extractExpressRoutes fileIndex content []))).
Proof.
  intros filePath fileIndex content.
  assert (H : extends (endpoint_of fileIndex (List.length (Js.split content Js.nl)))
                [] (extractNextJSRoutes filePath fileIndex content
                      (extractNestJSRoutes fileIndex content
                         (extractExpressRoutes fileIndex content [])))).
  { eapply extends_trans; [eapply extends_trans|].
    - apply express_extends. intros ep Hep.
      apply express_endpoint in Hep as (_ & Hfile & m & Hl).
      split; [exact Hfile|]. rewrite Hl. apply lineOfOffset_range.
    - apply nest_extends. intros ep Hep.
      apply nest_endpoint in Hep as (Hfile & m & Hl).
      split; [exact Hfile|]. rewrite Hl. apply lineOfOffset_range.
    - apply next_extends. intros ep Hep.
      apply next_endpoint in Hep as (Hl & _ & _ & Hfile & _).
      split; [exact Hfile|]. rewrite Hl, split_lines. lia. }
  destruct H as (new & -> & Hnew). exact Hnew.
Qed.

Lemma filter_length_bound {A : Type} (f : A -> bool) (l : list A) :
  List.length (filter f l) <= List.length l.
Proof.
  induction l as [|x l IH]; simpl; [lia|]. destruct (f x); simpl; lia.
Qed.

(** The path-convention rule adds at most five endpoints, and only for a
    file under an API directory: each one is on line 1, has one of the
    five verbs as method and the same verb in small letters as handler,
    and a path that starts with /api/. *)
Theorem next_endpoints_shape :
  forall filePath fileIndex content endpoints,
    extends
      (fun ep =>
         ep_line ep = 1 /\ In (ep_method ep) nextMethods /\
         ep_handler ep = Js.toLowerCase (ep_method ep) /\
         ep_file ep = relativePath fileIndex /\
         Js.startsWith "/api/" (ep_path ep) = true /\
         Js.includes filePath "/pages/api/" ||
         Js.includes filePath "/app/api/" = true)
      endpoints (extractNextJSRoutes filePath fileIndex content endpoints) /\
    List.length (extractNextJSRoutes filePath fileIndex content endpoints) <=
    List.length endpoints + 5.
Proof.
  intros filePath fileIndex content endpoints. split.
  - apply next_extends. intros ep Hep. now apply next_endpoint in Hep.
  - unfold extractNextJSRoutes.
    destruct (_ || _); [|lia]. destruct (search apiRe filePath); [|lia].
    rewrite length_app, length_map.
    pose proof (filter_length_bound
      (fun method =>
         Js.includes content ("export async function " ++ method) ||
         Js.includes content ("export function " ++ method) ||
         (String.eqb method "GET" && Js.includes content "export default"))
      nextMethods) as H.
    cbn [nextMethods List.length] in H. cbn [nextMethods]. lia.
Qed.

(** Every endpoint that the view rules add is read off the index: either
    off a function of the file, whose name and line it carries, or off a
    class of the file and a method of that class named get, post, put,
    patch or delete, which gives the handler and, in capitals, the
    method. *)
Theorem django_endpoints_come_from_records :
  forall fileIndex content endpoints,
    extends
      (fun ep =>
         ep_file ep = relativePath fileIndex /\
         ((exists f, In f (functions fileIndex) /\
                     ep_handler ep = fn_name f /\ ep_line ep = fn_line f) \/
          (exists c m, In c (classes fileIndex) /\ In m (cls_methods c) /\
                       In (fn_name m) viewMethods /\
                       ep_handler ep = cls_name c ++ "." ++ fn_name m /\
                       ep_method ep = Js.toUpperCase (fn_name m) /\
                       ep_line ep = cls_line c)))
      endpoints (extractDjangoRoutes fileIndex content endpoints).
Proof.
  intros fileIndex content endpoints. apply django_extends.
  intros ep Hep. now apply django_endpoint in Hep.
Qed.

End EndpointFacts.

(* ===================================================================== *)
(** ** The project index *)
(* ===================================================================== *)

Module IndexFacts.
Import Re Parser Generator Samples Props EndpointFacts.

Lemma list_sum_snoc l x : list_sum (l ++ [x]) = list_sum l + x.
Proof. rewrite list_sum_app. simpl. lia. Qed.

Lemma extends_any {A : Type} (P : A -> Prop) (a b : list A) :
  extends P a b -> extends (fun _ => True) a b.
Proof. apply extends_weaken. auto. Qed.

Lemma extends_length {A : Type} (P : A -> Prop) (a b : list A) :
  extends P a b -> List.length a <= List.length b.
Proof. intros (x & -> & _). rewrite length_app. lia. Qed.

Lemma extends_incl {A : Type} (P : A -> Prop) (a b : list A) :
  extends P a b -> incl a b.
Proof. intros (x & -> & _). now apply incl_appl, incl_refl. Qed.

Lemma fold_left_keeps {A B : Type} (f : A -> B -> A) (I : A -> Prop)
  (R : A -> A -> Prop) :
  (forall a, R a a) ->
  (forall a b c, R a b -> R b c -> R a c) ->
  (forall a x, I a -> I (f a x) /\ R a (f a x)) ->
  forall l a, I a -> I (fold_left f l a) /\ R a (fold_left f l a).
Proof.
  intros Hrefl Htrans Hstep l.
  induction l as [|x l IH]; intros a Ha; cbn [fold_left].
  - split; [exact Ha|apply Hrefl].
  - destruct (Hstep a x Ha) as [Hi Hr]. destruct (IH _ Hi) as [Hi' Hr'].
    split; [exact Hi'|]. eapply Htrans; eassumption.
Qed.

(** *** Technology tags *)

Lemma setAdd_extends x set : extends (fun t => t = x) set (setAdd x set).
Proof.
  unfold setAdd. destruct (existsb _ set); [apply extends_refl|].
  apply extends_app. now repeat constructor.
Qed.

Lemma setAdd_NoDup x set : NoDup set -> NoDup (setAdd x set).
Proof.
  intros H. unfold setAdd. destruct (existsb (String.eqb x) set) eqn:E; [exact H|].
  apply (Permutation_NoDup (l := x :: set)).
  - apply Permutation_cons_append.
  - constructor; [|exact H]. intros Hin.
    assert (existsb (String.eqb x) set = true); [|congruence].
    apply existsb_exists. exists x. split; [exact Hin|apply String.eqb_refl].
Qed.

Lemma detect_entries source entries :
  incl entries techCatalog ->
  forall set,
    tags_ok set ->
    tags_ok (fold_left (fun techs (entry : list string * string) =>
                          if existsb (Js.includes source) (fst entry)
                          then setAdd (snd entry) techs else techs)
                       entries set) /\
    extends (fun _ => True) set
      (fold_left (fun techs (entry : list string * string) =>
                    if existsb (Js.includes source) (fst entry)
                    then setAdd (snd entry) techs else techs)
                 entries set).
Proof.
  induction entries as [|e entries IH]; intros Hincl set Hset; cbn [fold_left].
  - split; [exact Hset|apply extends_refl].
  - assert (He : In e techCatalog) by (apply Hincl; now left).
    assert (Hrest : incl entries techCatalog)
      by (intros x Hx; apply Hincl; now right).
    destruct (existsb (Js.includes source) (fst e)).
    + destruct (IH Hrest (setAdd (snd e) set)) as [Hok Hext].
      * destruct Hset as [Hnd Hall]. split; [now apply setAdd_NoDup|].
        destruct (setAdd_extends (snd e) set) as (new & -> & Hnew).
        apply Forall_app. split; [exact Hall|].
        eapply Forall_impl; [|exact Hnew]. intros t ->. now apply in_map.
      * split; [exact Hok|].
        eapply extends_trans; [|exact Hext].
        eapply extends_any, setAdd_extends.
    + now apply IH.
Qed.

Lemma detectImport_ok set imp :
  tags_ok set ->
  tags_ok (detectImport set imp) /\
  extends (fun _ => True) set (detectImport set imp).
Proof. intros H. unfold detectImport. apply detect_entries; [apply incl_refl|exact H]. Qed.

Lemma detectTechs_ok fileIndex set :
  tags_ok set ->
  tags_ok (detectTechs fileIndex set) /\
  extends (fun _ => True) set (detectTechs fileIndex set).
Proof.
  unfold detectTechs.
  apply (fold_left_keeps detectImport tags_ok (extends (fun _ => True))).
  - intros a. apply extends_refl.
  - intros a b c. apply extends_trans.
  - intros a imp. apply detectImport_ok.
Qed.

Lemma detect_entries_extends source entries : forall set,
  extends (fun _ => True) set
    (fold_left (fun techs (entry : list string * string) =>
                  if existsb (Js.includes source) (fst entry)
                  then setAdd (snd entry) techs else techs)
               entries set).
Proof.
  induction entries as [|e entries IH]; intros set; cbn [fold_left].
  - apply extends_refl.
  - destruct (existsb (Js.includes source) (fst e)); [|apply IH].
    eapply extends_trans; [|apply IH]. eapply extends_any, setAdd_extends.
Qed.

(** The tags found before a file are kept, in their order. *)
Lemma detectImport_extends set imp :
  extends (fun _ => True) set (detectImport set imp).
Proof. unfold detectImport. apply detect_entries_extends. Qed.

Lemma extends_tags fileIndex set :
  extends (fun _ => True) set (detectTechs fileIndex set).
Proof.
  unfold detectTechs.
  apply (fold_left_keeps detectImport (fun _ => True)
           (extends (fun _ => True))); [| | |exact I].
  - intros a. apply extends_refl.
  - intros a b c. apply extends_trans.
  - intros a imp _. split; [exact I|apply detectImport_extends].
Qed.

Lemma insertSorted_perm x l : Permutation (insertSorted x l) (x :: l).
Proof.
  induction l as [|y l IH]; cbn [insertSorted]; [reflexivity|].
  destruct (String.leb x y); [reflexivity|].
  rewrite IH. apply perm_swap.
Qed.

Lemma sortStrings_perm l : Permutation (sortStrings l) l.
Proof.
  induction l as [|x l IH]; cbn; [constructor|].
  fold (sortStrings l). rewrite insertSorted_perm. now constructor.
Qed.

Lemma insertSorted_sorted x l :
  Sorted string_le l -> Sorted string_le (insertSorted x l).
Proof.
  induction l as [|y l IH]; intros H; cbn [insertSorted].
  - repeat constructor.
  - destruct (String.leb x y) eqn:E.
    + constructor; [exact H|]. constructor. exact E.
    + inversion H as [|? ? Hs Hhd]; subst. constructor; [now apply IH|].
      assert (Hyx : string_le y x).
      { destruct (String.leb_total x y) as [Hxy|Hyx]; [congruence|exact Hyx]. }
      destruct l as [|z l]; cbn [insertSorted].
      * now constructor.
      * destruct (String.leb x z); constructor; [exact Hyx|].
        now inversion Hhd.
Qed.

Lemma sortStrings_sorted l : Sorted string_le (sortStrings l).
Proof.
  induction l as [|x l IH]; cbn; [constructor|].
  now apply insertSorted_sorted.
Qed.

(** *** Tables *)

Lemma sqlalchemy_extends fileIndex content tables :
  extends (fun t => tbl_file t = relativePath fileIndex) tables
          (extractSQLAlchemySchema fileIndex content tables).
Proof.
  unfold extractSQLAlchemySchema.
  destruct (_ && _); [apply extends_refl|].
  apply extends_app, Forall_forall. intros t H.
  apply in_flat_map in H as (cls & _ & H). unfold sqlTable in H.
  destruct (cls_properties cls); [destruct H|].
  destruct H as [<-|[]]. reflexivity.
Qed.

Lemma django_models_extends fileIndex content tables :
  extends (fun t => tbl_file t = relativePath fileIndex) tables
          (extractDjangoModels fileIndex content tables).
Proof.
  unfold extractDjangoModels.
  destruct (negb _); [apply extends_refl|].
  apply extends_app, Forall_forall. intros t H.
  apply in_flat_map in H as (cls & _ & H). unfold djangoTable in H.
  destruct (map djangoColumn _); [destruct H|].
  destruct H as [<-|[]]. reflexivity.
Qed.

Section Index.

Variable readFileContent : string -> outcome string.
Variable parseTypeScriptFile :
  string -> string -> string -> Language -> outcome FileIndex.
Variable typeormSchema : FileIndex -> string -> list DbTable.
Variable config : ExtensionConfig.
Variable workspaceRoot : string.

Local Abbreviation contribute := (contribute typeormSchema).
Local Abbreviation processFile :=
  (processFile readFileContent parseTypeScriptFile typeormSchema config
               workspaceRoot).
Local Abbreviation runFiles :=
  (runFiles readFileContent parseTypeScriptFile typeormSchema config
            workspaceRoot).
Local Abbreviation generateIndex :=
  (generateIndex readFileContent parseTypeScriptFile typeormSchema config
                 workspaceRoot).

(** One iteration either leaves the accumulators alone or is the [try]
    block run to its end. *)
Lemma processFile_cases acc file :
  processFile acc file = acc \/
  exists content fileIndex,
    readFileContent file = Returned content /\
    parseFile parseTypeScriptFile config file content workspaceRoot =
      Returned fileIndex /\
    processFile acc file = contribute file content fileIndex acc.
Proof.
  unfold Generator.processFile.
  destruct (readFileContent file) as [content|]; [|now left].
  destruct (parseFile _ _ _ _ _) as [fileIndex|] eqn:E; [|now left].
  right. now exists content, fileIndex.
Qed.

(** A property of the accumulators that every completed [try] block keeps
    holds after any list of files. *)
Lemma fold_invariant (I : Accumulators -> Prop) :
  (forall file content fileIndex acc,
      I acc -> I (contribute file content fileIndex acc)) ->
  forall files acc, I acc -> I (fold_left processFile files acc).
Proof.
  intros Hstep files. induction files as [|file files IH]; intros acc H.
  - exact H.
  - cbn [fold_left]. apply IH.
    destruct (processFile_cases acc file) as [->|(content & fi & _ & _ & ->)];
      [exact H|now apply Hstep].
Qed.

(** The same for a relation between the accumulators before and after. *)
Lemma fold_relation (R : Accumulators -> Accumulators -> Prop) :
  (forall acc, R acc acc) ->
  (forall a b c, R a b -> R b c -> R a c) ->
  (forall file content fileIndex acc,
      R acc (contribute file content fileIndex acc)) ->
  forall files acc, R acc (fold_left processFile files acc).
Proof.
  intros Hrefl Htrans Hstep files.
  induction files as [|file files IH]; intros acc.
  - apply Hrefl.
  - cbn [fold_left]. eapply Htrans; [|apply IH].
    destruct (processFile_cases acc file) as [->|(content & fi & _ & _ & ->)];
      [apply Hrefl|apply Hstep].
Qed.

Lemma contribute_counts file content fileIndex acc :
  acc_counts acc -> acc_counts (contribute file content fileIndex acc).
Proof.
  intros (Hf & Hn & Hc). unfold acc_counts, counts_agree, Generator.contribute.
  cbn [acc_fileCount acc_functionCount acc_classCount acc_files].
  rewrite length_app, !map_app, !list_sum_app. cbn. lia.
Qed.

Lemma fold_fileCount files : forall acc,
  acc_fileCount (fold_left processFile files acc) <=
  acc_fileCount acc + List.length files.
Proof.
  induction files as [|file files IH]; intros acc; cbn [fold_left List.length].
  - lia.
  - destruct (processFile_cases acc file) as [E|(content & fi & _ & _ & E)];
      rewrite E; (eapply Nat.le_trans; [apply IH|]).
    + lia.
    + unfold Generator.contribute. cbn [acc_fileCount]. lia.
Qed.

Lemma grows_refl acc : grows acc acc.
Proof. unfold grows. repeat split; try apply extends_refl; lia. Qed.

Lemma grows_trans a b c : grows a b -> grows b c -> grows a c.
Proof.
  intros (H1 & H2 & H3 & H4 & H5 & H6 & H7) (K1 & K2 & K3 & K4 & K5 & K6 & K7).
  unfold grows. repeat split; try (eapply extends_trans; eassumption); lia.
Qed.

Lemma contribute_endpoints (P : ApiEndpoint -> Prop) file content fileIndex acc :
  (forall ep, ep_file ep = relativePath fileIndex -> P ep) ->
  extends P (apiEndpoints acc)
          (apiEndpoints (contribute file content fileIndex acc)).
Proof.
  intros HP. unfold Generator.contribute. cbn [apiEndpoints].
  destruct (language fileIndex).
  - eapply extends_trans; [|apply next_extends].
    eapply extends_trans; [|apply nest_extends].
    apply express_extends.
    + intros ep H. apply HP. now apply express_endpoint in H.
    + intros ep H. apply HP. now apply nest_endpoint in H.
    + intros ep H. apply HP. now apply next_endpoint in H.
  - eapply extends_trans; [|apply next_extends].
    eapply extends_trans; [|apply nest_extends].
    apply express_extends.
    + intros ep H. apply HP. now apply express_endpoint in H.
    + intros ep H. apply HP. now apply nest_endpoint in H.
    + intros ep H. apply HP. now apply next_endpoint in H.
  - eapply extends_trans; [|apply django_extends].
    apply flask_extends.
    + intros f ep _ H. apply HP. now apply flask_endpoint in H.
    + intros ep H. apply HP. now apply django_endpoint in H.
Qed.

Lemma contribute_tables file content fileIndex acc :
  extends (fun _ => True) (dbTables acc)
          (dbTables (contribute file content fileIndex acc)).
Proof.
  unfold Generator.contribute. cbn [dbTables].
  assert (Hts : extends (fun _ : DbTable => True) (dbTables acc)
                  (extractPrismaSchema fileIndex content
                     (extractTypeORMSchema typeormSchema fileIndex content
                        (dbTables acc)))).
  { unfold extractPrismaSchema, extractTypeORMSchema.
    destruct (negb _); [apply extends_refl|].
    apply extends_app, Forall_forall. auto. }
  destruct (language fileIndex); try exact Hts.
  eapply extends_trans.
  - eapply extends_any, sqlalchemy_extends.
  - eapply extends_any, django_models_extends.
Qed.

Lemma contribute_grows file content fileIndex acc :
  grows acc (contribute file content fileIndex acc).
Proof.
  unfold grows. repeat split.
  - unfold Generator.contribute. cbn [acc_files]. apply extends_app. auto.
  - apply contribute_endpoints. auto.
  - apply contribute_tables.
  - unfold Generator.contribute. cbn [detectedTechs].
    destruct (extends_tags fileIndex (detectedTechs acc)) as (new & -> & _).
    apply extends_app, Forall_forall. auto.
  - unfold Generator.contribute. cbn [acc_fileCount]. lia.
  - unfold Generator.contribute. cbn [acc_functionCount]. lia.
  - unfold Generator.contribute. cbn [acc_classCount]. lia.
Qed.

(** The three counters of the index agree with its file records: the file
    count is their number, the function and class counts are the sums of
    the numbers of their function and class records; and no more files are
    counted than [scanWorkspace] listed. *)
Theorem index_counters_agree_with_file_records :
  forall files,
    let index := generateIndex files in
    counts_agree (fileCount index) (functionCount index) (classCount index)
                 (Generator.files index) /\
    fileCount index <= List.length files.
Proof.
  intros files index. split.
  - subst index. unfold Generator.generateIndex.
    cbn [fileCount functionCount classCount Generator.files].
    unfold Generator.runFiles.
    apply (fold_invariant acc_counts).
    + intros file content fi acc. apply contribute_counts.
    + unfold acc_counts, counts_agree. cbn. auto.
  - subst index. unfold Generator.generateIndex. cbn [fileCount].
    unfold Generator.runFiles. apply (fold_fileCount files emptyAcc).
Qed.

(** Listing further files after the others only adds to the index: the
    file records, the endpoints and the tables of the shorter run are kept
    in front, every technology tag is kept, and no counter goes down. *)
Theorem index_of_more_files_keeps_the_earlier_records :
  forall files more,
    let a := generateIndex files in
    let b := generateIndex (files ++ more)%list in
    extends (fun _ => True) (Generator.files a) (Generator.files b) /\
    extends (fun _ => True) (pi_apiEndpoints a) (pi_apiEndpoints b) /\
    extends (fun _ => True) (dbSchema a) (dbSchema b) /\
    incl (techStack a) (techStack b) /\
    fileCount a <= fileCount b /\
    functionCount a <= functionCount b /\
    classCount a <= classCount b.
Proof.
  intros files more a b.
  assert (H : grows (runFiles files) (runFiles (files ++ more)%list)).
  { unfold Generator.runFiles. rewrite fold_left_app.
    apply (fold_relation grows grows_refl grows_trans).
    intros file content fi acc. apply contribute_grows. }
  destruct H as (H1 & H2 & H3 & H4 & H5 & H6 & H7).
  subst a b. unfold Generator.generateIndex.
  cbn [Generator.files pi_apiEndpoints dbSchema techStack fileCount
       functionCount classCount].
  repeat split; try assumption.
  intros t Ht.
  apply (Permutation_in _ (Permutation_sym (sortStrings_perm _))).
  apply (extends_incl _ _ _ H4).
  apply (Permutation_in _ (sortStrings_perm _)). exact Ht.
Qed.

(** Every endpoint of the index carries the relative path of one of the
    file records of the index. *)
Theorem index_endpoints_name_indexed_files :
  forall files,
    let index := generateIndex files in
    endpoints_name_files (Generator.files index) (pi_apiEndpoints index).
Proof.
  intros files index. subst index. unfold Generator.generateIndex.
  cbn [Generator.files pi_apiEndpoints]. unfold Generator.runFiles.
  apply (fold_invariant
           (fun acc => endpoints_name_files (acc_files acc) (apiEndpoints acc))).
  - intros file content fi acc H.
    destruct (contribute_endpoints
                (fun ep => ep_file ep = relativePath fi) file content fi acc)
      as (new & -> & Hnew); [auto|].
    unfold endpoints_name_files, Generator.contribute. cbn [acc_files].
    apply Forall_app. split.
    + eapply Forall_impl; [|exact H]. intros ep (f & Hf & E).
      exists f. split; [|exact E]. apply in_or_app. now left.
    + eapply Forall_impl; [|exact Hnew]. intros ep E.
      exists fi. split; [|exact E]. apply in_or_app. right. now left.
  - constructor.
Qed.

(** The technology list of the index is in ascending order of the code
    units, holds no label twice, and holds only labels of the catalogue
    that the import sources are tested against. *)
Theorem index_tech_stack_is_sorted_and_from_the_catalogue :
  forall files,
    let index := generateIndex files in
    Sorted string_le (techStack index) /\
    NoDup (techStack index) /\
    Forall (fun t => In t (map snd techCatalog)) (techStack index).
Proof.
  intros files index. subst index. unfold Generator.generateIndex.
  cbn [techStack].
  assert (H : tags_ok (detectedTechs (runFiles files))).
  { unfold Generator.runFiles.
    apply (fold_invariant (fun acc => tags_ok (detectedTechs acc))).
    - intros file content fi acc H. unfold Generator.contribute.
      cbn [detectedTechs]. now apply detectTechs_ok.
    - split; constructor. }
  destruct H as [Hnd Hall]. split; [apply sortStrings_sorted|]. split.
  - apply (Permutation_NoDup (Permutation_sym (sortStrings_perm _)) Hnd).
  - apply Forall_forall. intros t Ht.
    apply (Permutation_in _ (sortStrings_perm _)) in Ht.
    revert t Ht. now apply Forall_forall.
Qed.

(** A file with the extension [.py] that can be read is always recorded:
    its parse cannot fail, so the iteration appends its file record and
    counts one file and the functions and classes of the record. *)
Theorem readable_python_file_is_recorded :
  forall acc file content,
    NodePath.extname file = ".py" ->
    readFileContent file = Returned content ->
    let fileIndex := parsePythonFile config file content workspaceRoot in
    let acc' := processFile acc file in
    acc_files acc' = (acc_files acc ++ [fileIndex])%list /\
    acc_fileCount acc' = acc_fileCount acc + 1 /\
    acc_functionCount acc' =
      acc_functionCount acc + List.length (functions fileIndex) /\
    acc_classCount acc' = acc_classCount acc + List.length (classes fileIndex).
Proof.
  intros acc file content Hext Hread fileIndex acc'. subst acc'.
  unfold Generator.processFile, parseFile, parseFileWith.
  rewrite Hread, Hext. cbn [String.eqb Ascii.eqb Bool.eqb orb].
  repeat split.
Qed.

Lemma python_file_adds_no_tag acc file :
  includeImports config = false ->
  NodePath.extname file = ".py" ->
  detectedTechs (processFile acc file) = detectedTechs acc.
Proof.
  intros Hoff Hext. unfold Generator.processFile, parseFile, parseFileWith.
  destruct (readFileContent file) as [content|]; [|reflexivity].
  rewrite Hext. cbn [String.eqb Ascii.eqb Bool.eqb orb].
  unfold Generator.contribute. cbn [detectedTechs]. unfold detectTechs.
  cbn [parsePythonFile imports]. unfold run.
  now rewrite LineLoopFacts.loop_imports_disabled.
Qed.

(** With the import records switched off, which is the default, a
    workspace of Python files only gets an empty technology list, whatever
    the files import. *)
Theorem python_workspace_without_import_records_has_no_tech_stack :
  forall files,
    includeImports config = false ->
    (forall file, In file files -> NodePath.extname file = ".py") ->
    techStack (generateIndex files) = [].
Proof.
  intros files Hoff Hpy. unfold Generator.generateIndex. cbn [techStack].
  assert (H : forall acc,
             detectedTechs (fold_left processFile files acc) =
             detectedTechs acc).
  { induction files as [|file files IH]; intros acc; cbn [fold_left].
    - reflexivity.
    - rewrite IH.
      + apply python_file_adds_no_tag; [exact Hoff|]. apply Hpy. now left.
      + intros f Hf. apply Hpy. now right. }
  unfold Generator.runFiles. rewrite H. reflexivity.
Qed.

End Index.

Lemma readable_python_file_is_recorded_witness :
  NodePath.extname "/p/src/app.py" = ".py" /\
  sample_disk "/p/src/app.py" = Returned flask_app /\
  let fileIndex := parsePythonFile defaults "/p/src/app.py" flask_app "/p" in
  let acc' :=
    processFile sample_disk no_typescript no_typeorm defaults "/p" emptyAcc
                "/p/src/app.py" in
  acc_files acc' = (acc_files emptyAcc ++ [fileIndex])%list /\
  acc_fileCount acc' = acc_fileCount emptyAcc + 1 /\
  acc_functionCount acc' =
    acc_functionCount emptyAcc + List.length (functions fileIndex) /\
  acc_classCount acc' =
    acc_classCount emptyAcc + List.length (classes fileIndex).
Proof.
  split; [reflexivity|]. split; [reflexivity|].
  exact (readable_python_file_is_recorded sample_disk no_typescript no_typeorm
           defaults "/p" emptyAcc "/p/src/app.py" flask_app eq_refl eq_refl).
Defined.

Lemma python_workspace_without_import_records_has_no_tech_stack_witness :
  let files := ["/p/src/app.py"; "/p/src/models.py"] in
  includeImports defaults = false /\
  (forall file, In file files -> NodePath.extname file = ".py") /\
  techStack (generateIndex sample_disk no_typescript no_typeorm defaults "/p"
                           files) = [].
Proof.
  intros files.
  assert (Hpy : forall file, In file files -> NodePath.extname file = ".py").
  { intros file [<-|[<-|[]]]; reflexivity. }
  split; [reflexivity|]. split; [exact Hpy|].
  exact (python_workspace_without_import_records_has_no_tech_stack
           sample_disk no_typescript no_typeorm defaults "/p" files eq_refl Hpy).
Defined.

End IndexFacts.

(* ===================================================================== *)
(** ** Tables *)
(* ===================================================================== *)

Module SchemaFacts.
Import Re Parser Generator Samples Props.

Lemma sqlTables_follow fileIndex content classes :
  Forall2 (table_of_class fileIndex) (filter hasProperties classes)
          (flat_map (sqlTable fileIndex content) classes).
Proof.
  induction classes as [|cls classes IH]; cbn [filter flat_map]; [constructor|].
  unfold hasProperties at 1, sqlTable at 1.
  destruct (cls_properties cls) as [|p ps] eqn:E; [exact IH|].
  cbn [List.app]. constructor; [|exact IH].
  unfold table_of_class. cbn [tbl_name tbl_file tbl_line tbl_columns].
  rewrite E, length_map. auto.
Qed.

(** The tables that the SQLAlchemy pass adds follow the class records of
    the file: when the text holds one of the two markers, one table for
    each class that has a property, in the order of the classes, with the
    name and the line of the class, the path of the file and one column
    for each property; a class without a property gets none. Without a
    marker nothing is added. The tables found before are kept in front. *)
Theorem sqlalchemy_tables_follow_the_classes :
  forall fileIndex content tables,
    exists new,
      extractSQLAlchemySchema fileIndex content tables = (tables ++ new)%list /\
      if Js.includes content "db.Model" || Js.includes content "Base"
      then Forall2 (table_of_class fileIndex)
                   (filter hasProperties (classes fileIndex)) new
      else new = [].
Proof.
  intros fileIndex content tables. unfold extractSQLAlchemySchema.
  destruct (Js.includes content "db.Model"); cbn [negb andb orb].
  - eexists. split; [reflexivity|apply sqlTables_follow].
  - destruct (Js.includes content "Base"); cbn [negb].
    + eexists. split; [reflexivity|apply sqlTables_follow].
    + exists []. split; [now rewrite app_nil_r|reflexivity].
Qed.

Lemma indexOfAux_bounds p : forall s i k,
  Js.indexOfAux p s i = Some k -> i <= k <= i + String.length s.
Proof.
  induction s as [|c s IH]; intros i k; cbn [Js.indexOfAux].
  - destruct (Js.startsWith p ""); [|discriminate].
    intros [= <-]. cbn [String.length]. lia.
  - destruct (Js.startsWith p (String c s)).
    + intros [= <-]. lia.
    + intros H. apply IH in H. cbn [String.length]. lia.
Qed.

Lemma indexOf_bounds s p from k :
  p <> EmptyString ->
  Js.indexOf s p from = Some k -> from <= k <= String.length s.
Proof.
  intros Hp. unfold Js.indexOf.
  destruct (String.length s <? from) eqn:E.
  - destruct (String.eqb_spec p ""); [contradiction|discriminate].
  - apply Nat.ltb_ge in E. intros H. apply indexOfAux_bounds in H.
    rewrite ReFacts.length_drop in H. lia.
Qed.

Lemma take_min a s : Js.take (Nat.min a (String.length s)) s = Js.take a s.
Proof.
  revert s. induction a as [|a IH]; intros [|c s]; cbn; auto.
  now rewrite IH.
Qed.

(** The text in which the Django pass looks for the fields of a class whose
    header is found at offset [a]: up to the next line that opens a class
    when there is one; when there is none, which is the case of the last
    class of a file, the text before the header. *)
Theorem django_class_text :
  forall content name a,
    Js.indexOf content ("class " ++ name) 0 = Some a ->
    classSlice content name =
    match Js.indexOf content (Js.nl ++ "class ") (a + 1) with
    | Some b => Js.take (b - a) (Js.drop a content)
    | None => Js.take a content
    end.
Proof.
  intros content name a Ha. unfold classSlice. rewrite Ha.
  assert (Hlen : a <= String.length content).
  { apply indexOf_bounds in Ha; [lia|discriminate]. }
  destruct (Js.indexOf content (Js.nl ++ "class ") (a + 1)) as [b|] eqn:Hb;
    unfold Js.substringO, Js.substring.
  - apply indexOf_bounds in Hb; [|discriminate].
    rewrite (Nat.min_l a), (Nat.min_l b) by lia.
    now rewrite (Nat.min_l a), (Nat.max_r a) by lia.
  - rewrite (Nat.min_l a), (Nat.min_l 0), (Nat.min_r a 0), (Nat.max_l a 0) by lia.
    now rewrite Nat.sub_0_r.
Qed.

Lemma django_class_text_witness :
  Js.indexOf two_models ("class " ++ "A") 0 = Some 0 /\
  classSlice two_models "A" =
  match Js.indexOf two_models (Js.nl ++ "class ") (0 + 1) with
  | Some b => Js.take (b - 0) (Js.drop 0 two_models)
  | None => Js.take 0 two_models
  end.
Proof.
  split; [reflexivity|].
  exact (django_class_text two_models "A" 0 eq_refl).
Defined.

(** A class whose header opens the text of its file and that no other
    class follows gets no Django table, whatever fields it declares. *)
Theorem django_model_alone_in_its_file_gets_no_table :
  forall fileIndex content cls,
    Js.indexOf content ("class " ++ cls_name cls) 0 = Some 0 ->
    Js.indexOf content (Js.nl ++ "class ") 1 = None ->
    djangoTable fileIndex content cls = [].
Proof.
  intros fileIndex content cls Ha Hb. unfold djangoTable, classSlice.
  rewrite Ha. cbn [Nat.add]. rewrite Hb. reflexivity.
Qed.

Lemma django_model_alone_in_its_file_gets_no_table_witness :
  let fileIndex :=
    parsePythonFile defaults "/p/src/models.py" lone_django_model "/p" in
  let cls := mkClassInfo "User" 1 [] true None [] in
  classes fileIndex = [cls] /\
  Js.includes lone_django_model "models.Model" = true /\
  Js.indexOf lone_django_model ("class " ++ cls_name cls) 0 = Some 0 /\
  Js.indexOf lone_django_model (Js.nl ++ "class ") 1 = None /\
  djangoTable fileIndex lone_django_model cls = [].
Proof.
  intros fileIndex cls.
  split; [reflexivity|]. split; [reflexivity|].
  split; [reflexivity|]. split; [reflexivity|].
  exact (django_model_alone_in_its_file_gets_no_table
           fileIndex lone_django_model cls eq_refl eq_refl).
Defined.

End SchemaFacts.

(* ===================================================================== *)
(** ** Technology groups of the rendered document *)
(* ===================================================================== *)

Module GroupFacts.
Import Generator.

Lemma count_filter (f : string -> bool) l t :
  count_occ string_dec (filter f l) t =
  if f t then count_occ string_dec l t else 0.
Proof.
  induction l as [|x l IH]; cbn [filter count_occ]; [now destruct (f t)|].
  destruct (f x) eqn:Ex; cbn [count_occ]; destruct (string_dec x t) as [->|Hne].
  - rewrite IH, Ex. reflexivity.
  - exact IH.
  - rewrite IH, Ex. reflexivity.
  - exact IH.
Qed.

Lemma member_In t l : member t l = true <-> In t l.
Proof.
  unfold member. rewrite existsb_exists. split.
  - intros (x & Hx & E). apply String.eqb_eq in E. now subst.
  - intros H. exists t. split; [exact H|apply String.eqb_refl].
Qed.

Lemma member_filter (f : string -> bool) t l :
  member t (filter f l) = f t && member t l.
Proof.
  destruct (member t (filter f l)) eqn:E.
  - apply member_In, filter_In in E as [Hin Hf].
    apply member_In in Hin. now rewrite Hf, Hin.
  - destruct (f t) eqn:Hf; [|reflexivity].
    destruct (member t l) eqn:Hin; [|reflexivity].
    assert (member t (filter f l) = true); [|congruence].
    apply member_In, filter_In. split; [now apply member_In|exact Hf].
Qed.

Lemma member_absent t l : member t l = false -> count_occ string_dec l t = 0.
Proof.
  intros H. apply count_occ_not_In. intros Hin.
  apply member_In in Hin. congruence.
Qed.

Ltac each_tag H :=
  apply member_In in H; cbn [backendTags frontendTags databaseTags In] in H;
  repeat (destruct H as [<-|H]; [split; reflexivity|]); destruct H.

Lemma backend_tag_only t :
  member t backendTags = true ->
  member t frontendTags = false /\ member t databaseTags = false.
Proof. intros H. each_tag H. Qed.

Lemma frontend_tag_only t :
  member t frontendTags = true ->
  member t backendTags = false /\ member t databaseTags = false.
Proof. intros H. each_tag H. Qed.

(** The four groups of the technology section split the technology list:
    every label of the list stands in exactly one group, as often as it
    stands in the list. *)
Theorem tech_groups_split_the_tech_stack :
  forall techStack t,
    let groups := groupTechs techStack in
    count_occ string_dec techStack t =
    count_occ string_dec (backend groups) t +
    count_occ string_dec (frontend groups) t +
    count_occ string_dec (database groups) t +
    count_occ string_dec (other groups) t.
Proof.
  intros techStack t groups. subst groups. unfold groupTechs.
  cbn [backend frontend database other].
  rewrite !count_filter, !member_filter.
  destruct (member t techStack) eqn:Hin.
  - rewrite !andb_true_r.
    destruct (member t backendTags) eqn:Hb.
    + destruct (backend_tag_only t Hb) as [-> ->]. cbn. lia.
    + destruct (member t frontendTags) eqn:Hf.
      * destruct (frontend_tag_only t Hf) as [_ ->]. cbn. lia.
      * destruct (member t databaseTags); cbn; lia.
  - rewrite (member_absent _ _ Hin).
    repeat match goal with |- context [if ?b then 0 else 0] =>
             replace (if b then 0 else 0) with 0 by now destruct b end.
    reflexivity.
Qed.

End GroupFacts.

(* ===================================================================== *)
(** ** The workspace scan *)
(* ===================================================================== *)

Module ScannerFacts.
Import Generator Scanner Samples.

Lemma setAdd_In x set y : In y (setAdd x set) <-> y = x \/ In y set.
Proof.
  unfold setAdd. destruct (existsb (String.eqb x) set) eqn:E.
  - split; [now right|]. intros [->|H]; [|exact H].
    apply existsb_exists in E as (z & Hz & Ez).
    apply String.eqb_eq in Ez. now subst.
  - rewrite in_app_iff. cbn [In]. split.
    + intros [H|[<-|[]]]; auto.
    + intros [->|H]; auto.
Qed.

(** *** Paths of entries *)

Lemma splitAux_plain b : forall fuel cur,
  Js.includes b "/" = false ->
  String.length b < fuel ->
  Js.splitAux fuel "/" b cur = [cur ++ b].
Proof.
  induction b as [|c b IH]; intros fuel cur Hb Hlt;
    (destruct fuel as [|fuel]; [inversion Hlt|]); cbn [Js.splitAux].
  - now rewrite ReFacts.append_nil_r.
  - cbn [Js.includes] in Hb. apply orb_false_iff in Hb as [Hs Hb].
    rewrite Hs, IH; [|exact Hb|cbn [String.length] in Hlt; lia].
    now rewrite ReFacts.append_assoc.
Qed.

Lemma splitAux_join b : forall a fuel cur,
  Js.includes b "/" = false ->
  String.length (a ++ "/" ++ b) < fuel ->
  exists pre, Js.splitAux fuel "/" (a ++ "/" ++ b) cur = (pre ++ [b])%list.
Proof.
  induction a as [|c a IH]; intros fuel cur Hb Hlt;
    (destruct fuel as [|fuel]; [inversion Hlt|]).
  - change ("" ++ "/" ++ b) with (String "/" b) in *.
    cbn [Js.splitAux Js.startsWith Ascii.eqb Bool.eqb andb String.length Js.drop].
    rewrite splitAux_plain; [|exact Hb|cbn [String.length] in Hlt; lia].
    now exists [cur].
  - change (String c a ++ "/" ++ b) with (String c (a ++ "/" ++ b)) in *.
    cbn [String.length] in Hlt. cbn [Js.splitAux].
    destruct (Js.startsWith "/" (String c (a ++ "/" ++ b))).
    + change (Js.drop (String.length "/") (String c (a ++ "/" ++ b)))
        with (a ++ "/" ++ b).
      destruct (IH fuel EmptyString Hb) as (pre & ->); [lia|].
      now exists (cur :: pre).
    + apply IH; [exact Hb|lia].
Qed.

Lemma last_segment_join dir name :
  entryName name = true -> NodePath.last_segment (joinPath dir name) = name.
Proof.
  unfold entryName. intros H. apply andb_true_iff in H as [Ht Hs].
  apply negb_true_iff in Hs.
  unfold NodePath.last_segment, NodePath.segments, Js.split, joinPath.
  destruct (splitAux_join name dir (S (String.length (dir ++ "/" ++ name)))
              EmptyString Hs) as (pre & ->); [lia|].
  rewrite filter_app. cbn [filter]. rewrite Ht. apply last_last.
Qed.

Lemma last_segment_plain name :
  entryName name = true -> NodePath.last_segment name = name.
Proof.
  unfold entryName. intros H. apply andb_true_iff in H as [Ht Hs].
  apply negb_true_iff in Hs.
  unfold NodePath.last_segment, NodePath.segments, Js.split.
  rewrite splitAux_plain; [|exact Hs|lia].
  cbn [filter String.append]. now rewrite Ht.
Qed.

Lemma extname_join dir name :
  entryName name = true -> NodePath.extname (joinPath dir name) = NodePath.extname name.
Proof.
  intros H. unfold NodePath.extname.
  now rewrite last_segment_join, last_segment_plain.
Qed.

(** *** The scan and the listed paths *)

Section ScanFacts.

Variable ignores : string -> outcome bool.
Variable maxFileSize : nat.
Variable workspaceRoot : string.

Local Abbreviation scanEntry := (scanEntry ignores maxFileSize workspaceRoot).
Local Abbreviation scanEntries := (scanEntries ignores maxFileSize workspaceRoot).
Local Abbreviation scanWorkspace := (scanWorkspace ignores maxFileSize workspaceRoot).
Local Abbreviation listed := (listed ignores maxFileSize workspaceRoot).
Local Abbreviation found := (found ignores maxFileSize workspaceRoot).
Local Abbreviation ignored entryPath :=
  (ignores (NodePath.relative workspaceRoot entryPath)).

Lemma scanEntries_cons dir entry rest files :
  scanEntries dir (entry :: rest) files =
  match ignored (joinPath dir (name_of entry)) with
  | Thrown _ => files
  | Returned true => scanEntries dir rest files
  | Returned false =>
      scanEntries dir rest (scanEntry (joinPath dir (name_of entry)) entry files)
  end.
Proof. reflexivity. Qed.

Lemma listed_more dir entries entries' file :
  incl entries entries' -> listed dir entries file -> listed dir entries' file.
Proof.
  intros Hincl H.
  destruct H as [dir entries name bytes Hin Hig Hext Hle
                |dir entries name sub file Hin Hig Hsub].
  - apply listed_file with (bytes := bytes); auto.
  - apply listed_below with (name := name) (sub := sub); auto.
Qed.

Lemma found_listed dir entry entries file :
  In entry entries ->
  ignored (joinPath dir (name_of entry)) = Returned false ->
  found (joinPath dir (name_of entry)) entry file ->
  listed dir entries file.
Proof.
  intros Hin Hig H. destruct entry as [name [bytes|]|name [sub|]|name];
    cbn [Scanner.found name_of] in *; try contradiction.
  - destruct H as (-> & Hext & Hle).
    now apply listed_file with (bytes := bytes).
  - now apply listed_below with (name := name) (sub := sub).
Qed.

Lemma scanEntry_sound :
  forall entry fullPath files file,
    In file (scanEntry fullPath entry files) ->
    In file files \/ found fullPath entry file.
Proof.
  fix IH 1. intros [name [bytes|]|name [sub|]|name] fullPath files file;
    cbn [Scanner.scanEntry Scanner.found]; try (intros H; now left).
  - destruct (member (NodePath.extname name) scanExtensions) eqn:Hext;
      [|intros H; now left].
    destruct (bytes <=? maxFileSize) eqn:Hle; [|intros H; now left].
    intros H. apply setAdd_In in H as [->|H]; [right|now left].
    split; [reflexivity|]. split; [now apply GroupFacts.member_In|now apply Nat.leb_le].
  - destruct (member _ _); intros H; now left.
  - fold (scanEntries fullPath sub files). revert files.
    induction sub as [|entry rest IHrest]; intros files; [intros H; now left|].
    rewrite scanEntries_cons.
    destruct (ignored (joinPath fullPath (name_of entry))) as [[|]|] eqn:Hig.
    + intros H. apply IHrest in H as [H|H]; [now left|right].
      eapply listed_more; [|exact H]. now apply incl_tl, incl_refl.
    + intros H. apply IHrest in H as [H|H].
      * apply IH in H as [H|H]; [now left|right].
        eapply found_listed; [|exact Hig|exact H]. now left.
      * right. eapply listed_more; [|exact H]. now apply incl_tl, incl_refl.
    + intros H. now left.
Qed.

Lemma scanEntries_sound dir entries files file :
  In file (scanEntries dir entries files) ->
  In file files \/ listed dir entries file.
Proof.
  intros H.
  apply (scanEntry_sound (DirEntry EmptyString (Returned entries)) dir) in H.
  exact H.
Qed.

Lemma scanEntry_NoDup :
  forall entry fullPath files,
    NoDup files -> NoDup (scanEntry fullPath entry files).
Proof.
  fix IH 1. intros [name [bytes|]|name [sub|]|name] fullPath files Hnd;
    cbn [Scanner.scanEntry]; try exact Hnd.
  - destruct (member _ _); [|exact Hnd].
    destruct (_ <=? _); [|exact Hnd]. now apply IndexFacts.setAdd_NoDup.
  - now destruct (member _ _).
  - fold (scanEntries fullPath sub files). revert files Hnd.
    induction sub as [|entry rest IHrest]; intros files Hnd; [exact Hnd|].
    rewrite scanEntries_cons.
    destruct (ignored (joinPath fullPath (name_of entry))) as [[|]|].
    + now apply IHrest.
    + apply IHrest. now apply IH.
    + exact Hnd.
Qed.

(** Every path that the scan returns is listed: it is a file of a
    supported extension and of at most [maxFileSize] bytes that is not
    ignored, reached through directories that can be read and are not
    ignored. No path is returned twice. *)
Theorem scan_returns_listed_files_once :
  forall entries,
    let files := scanWorkspace (Returned entries) in
    Forall (listed workspaceRoot entries) files /\ NoDup files.
Proof.
  intros entries files. subst files.
  unfold Scanner.scanWorkspace, scanDirectory. split.
  - apply Forall_forall. intros file H.
    apply scanEntries_sound in H as [[]|H]. exact H.
  - apply (scanEntry_NoDup (DirEntry EmptyString (Returned entries))).
    constructor.
Qed.

Lemma scanEntry_keeps :
  forall entry fullPath files file,
    In file files -> In file (scanEntry fullPath entry files).
Proof.
  fix IH 1. intros [name [bytes|]|name [sub|]|name] fullPath files file Hin;
    cbn [Scanner.scanEntry]; try exact Hin.
  - destruct (member _ _); [|exact Hin].
    destruct (_ <=? _); [|exact Hin]. apply setAdd_In. now right.
  - now destruct (member _ _).
  - fold (scanEntries fullPath sub files). revert files Hin.
    induction sub as [|entry rest IHrest]; intros files Hin; [exact Hin|].
    rewrite scanEntries_cons.
    destruct (ignored (joinPath fullPath (name_of entry))) as [[|]|].
    + now apply IHrest.
    + apply IHrest. now apply IH.
    + exact Hin.
Qed.

Lemma scanEntries_keeps dir entries files file :
  In file files -> In file (scanEntries dir entries files).
Proof.
  apply (scanEntry_keeps (DirEntry EmptyString (Returned entries)) dir).
Qed.

Hypothesis ignores_returns : forall p, exists b, ignores p = Returned b.

Lemma scanEntries_reaches dir entry file : forall entries,
  In entry entries ->
  ignored (joinPath dir (name_of entry)) = Returned false ->
  (forall files, In file (scanEntry (joinPath dir (name_of entry)) entry files)) ->
  forall files, In file (scanEntries dir entries files).
Proof.
  intros entries Hin Hig Hentry.
  induction entries as [|e rest IH]; [destruct Hin|]. intros files.
  rewrite scanEntries_cons. destruct Hin as [->|Hin].
  - rewrite Hig. apply scanEntries_keeps, Hentry.
  - destruct (ignores_returns
                (NodePath.relative workspaceRoot (joinPath dir (name_of e))))
      as ([|] & ->); now apply IH.
Qed.

Lemma listed_scanned dir entries file :
  listed dir entries file ->
  forall files, In file (scanEntries dir entries files).
Proof.
  induction 1 as [dir entries name bytes Hin Hig Hext Hle
                 |dir entries name sub file Hin Hig Hsub IH].
  - apply (scanEntries_reaches dir (FileEntry name (Returned bytes)));
      [exact Hin|exact Hig|].
    intros files. cbn [Scanner.scanEntry name_of].
    apply GroupFacts.member_In in Hext. rewrite Hext.
    apply Nat.leb_le in Hle. rewrite Hle. apply setAdd_In. now left.
  - apply (scanEntries_reaches dir (DirEntry name (Returned sub)));
      [exact Hin|exact Hig|].
    intros files. cbn [Scanner.scanEntry name_of]. apply IH.
Qed.

End ScanFacts.

(** When the ignore test never throws, the scan misses nothing: every
    listed path is returned. *)
Theorem scan_returns_every_listed_file :
  forall ignores maxFileSize workspaceRoot entries file,
    (forall p, exists b, ignores p = Returned b) ->
    listed ignores maxFileSize workspaceRoot workspaceRoot entries file ->
    In file (scanWorkspace ignores maxFileSize workspaceRoot (Returned entries)).
Proof.
  intros ignores maxFileSize workspaceRoot entries file Hig H.
  unfold scanWorkspace, scanDirectory. now apply listed_scanned.
Qed.

Lemma listed_extension ignores maxFileSize workspaceRoot dir entries file :
  forallb plain_names entries = true ->
  listed ignores maxFileSize workspaceRoot dir entries file ->
  In (NodePath.extname file) scanExtensions.
Proof.
  intros Hplain H. induction H as [dir entries name bytes Hin Hig Hext Hle
                                  |dir entries name sub file Hin Hig Hsub IH].
  - rewrite forallb_forall in Hplain. apply Hplain in Hin.
    cbn [plain_names name_of] in Hin. rewrite andb_true_r in Hin.
    now rewrite extname_join.
  - apply IH. rewrite forallb_forall in Hplain. apply Hplain in Hin.
    cbn [plain_names] in Hin. now apply andb_true_iff in Hin.
Qed.

(** Every path that the scan returns is one that [parseFile] takes: its
    extension sends it to the TypeScript parser or to the Python parser,
    never to the error for an unsupported file type. *)
Theorem scanned_files_reach_a_parser :
  forall ignores maxFileSize workspaceRoot entries file,
    forallb plain_names entries = true ->
    In file (scanWorkspace ignores maxFileSize workspaceRoot (Returned entries)) ->
    forall parseTypeScriptFile config content,
      let parsed :=
        parseFileWith parseTypeScriptFile config file content workspaceRoot in
      parsed = parseTypeScriptFile file content workspaceRoot typescript \/
      parsed = parseTypeScriptFile file content workspaceRoot javascript \/
      parsed = Returned (Parser.parsePythonFile config file content workspaceRoot).
Proof.
  intros ignores maxFileSize workspaceRoot entries file Hplain Hin
         parseTypeScriptFile config content parsed.
  unfold scanWorkspace, scanDirectory in Hin.
  apply scanEntries_sound in Hin as [[]|Hin].
  apply (listed_extension _ _ _ _ _ _ Hplain) in Hin.
  subst parsed. unfold parseFileWith.
  cbn [scanExtensions In] in Hin.
  destruct Hin as [<-|[<-|[<-|[<-|[<-|[]]]]]]; cbn; auto.
Qed.

Lemma scan_returns_every_listed_file_witness :
  (forall p, exists b, sample_ignores p = Returned b) /\
  listed sample_ignores 1000 "/p" "/p" sample_entries "/p/src/app.py" /\
  In "/p/src/app.py"
     (scanWorkspace sample_ignores 1000 "/p" (Returned sample_entries)).
Proof.
  assert (Hig : forall p, exists b, sample_ignores p = Returned b).
  { intros p. eexists. reflexivity. }
  assert (H : listed sample_ignores 1000 "/p" "/p" sample_entries
                     "/p/src/app.py").
  { apply listed_below
      with (name := "src")
           (sub := [FileEntry "app.py" (Returned 120);
                    FileEntry "notes.txt" (Returned 10);
                    FileEntry "models.py" (Returned 300)]).
    - now left.
    - reflexivity.
    - apply (listed_file sample_ignores 1000 "/p" (joinPath "/p" "src") _
                         "app.py" 120).
      + now left.
      + reflexivity.
      + cbn. auto 6.
      + lia. }
  split; [exact Hig|]. split; [exact H|].
  exact (scan_returns_every_listed_file sample_ignores 1000 "/p" sample_entries
           "/p/src/app.py" Hig H).
Defined.

Lemma scanned_files_reach_a_parser_witness :
  forallb plain_names sample_entries = true /\
  In "/p/src/models.py"
     (scanWorkspace sample_ignores 1000 "/p" (Returned sample_entries)) /\
  let parsed :=
    parseFileWith no_typescript defaults "/p/src/models.py" two_models "/p" in
  parsed = no_typescript "/p/src/models.py" two_models "/p" typescript \/
  parsed = no_typescript "/p/src/models.py" two_models "/p" javascript \/
  parsed = Returned (Parser.parsePythonFile defaults "/p/src/models.py"
                                            two_models "/p").
Proof.
  assert (Hin : In "/p/src/models.py"
                   (scanWorkspace sample_ignores 1000 "/p"
                                  (Returned sample_entries))).
  { vm_compute. auto. }
  split; [reflexivity|]. split; [exact Hin|].
  exact (scanned_files_reach_a_parser sample_ignores 1000 "/p" sample_entries
           "/p/src/models.py" eq_refl Hin no_typescript defaults two_models).
Defined.

End ScannerFacts.

(* ===================================================================== *)
(** ** The decorator scan of one function *)
(* ===================================================================== *)

Module DecoratorFacts.
Import Re Parser Generator Samples Props ParserFacts.














End DecoratorFacts.

(* ===================================================================== *)
(** ** Column definitions and their records *)
(* ===================================================================== *)

Module ColumnFacts.
Import Re Parser Generator Samples Props ParserFacts.

(** *** A property, once recorded, stays *)

Lemma holds_app c p l x : holds c p l -> holds c p (l ++ [x])%list.
Proof.
  intros (cls & Hc & Hp). exists cls. split; [|exact Hp].
  rewrite nth_error_app1; [exact Hc|].
  apply nth_error_Some. congruence.
Qed.

Lemma holds_update c p n f l :
  (forall cls, In p (cls_properties cls) -> In p (cls_properties (f cls))) ->
  holds c p l -> holds c p (update n f l).
Proof.
  intros Hf (cls & Hc & Hp). revert c n Hc.
  induction l as [|x l IH]; intros c n Hc; [now destruct c|].
  destruct c as [|c], n as [|n]; cbn [update nth_error] in *.
  - injection Hc as ->. exists (f cls). split; [reflexivity|now apply Hf].
  - exists cls. now split.
  - exists cls. now split.
  - now apply IH.
Qed.

Lemma nth_update c f l cls :
  nth_error l c = Some cls -> nth_error (update c f l) c = Some (f cls).
Proof.
  revert c. induction l as [|x l IH]; intros [|c] H; cbn in *;
    try discriminate; [congruence|now apply IH].
Qed.

Lemma body_holds config lines s c p :
  holds c p (st_classes s) -> holds c p (st_classes (body config lines s)).
Proof.
  intros H. unfold body, classBodyStep, declStep, importStep, docstringStep.
  break_match; cbn [st_classes];
    first [ exact H
          | now apply holds_app
          | apply holds_update; [|exact H];
            intros cls Hcls; cbn [pushProperty pushMethod cls_properties];
            first [exact Hcls|apply in_or_app; now left] ].
Qed.

Lemma loop_holds config lines c p fuel : forall s,
  holds c p (st_classes s) -> holds c p (st_classes (loop fuel config lines s)).
Proof.
  induction fuel as [|fuel IH]; intros s H; cbn [loop]; [exact H|].
  destruct (st_i s <? List.length lines); [|exact H].
  apply IH. unfold step. cbn [setI st_classes]. now apply body_holds.
Qed.

(** *** The loop, cut at a line *)

Section Cut.
Variable config : ExtensionConfig.
Variable lines : list string.

Lemma loop_stopped fuel s :
  List.length lines <= st_i s -> loop fuel config lines s = s.
Proof.
  intros H. destruct fuel as [|fuel]; [reflexivity|]. cbn [loop].
  apply Nat.ltb_ge in H. now rewrite H.
Qed.

Lemma loop_add a : forall b s,
  loop (a + b) config lines s = loop b config lines (loop a config lines s).
Proof.
  induction a as [|a IH]; intros b s; [reflexivity|].
  cbn [Nat.add loop]. destruct (st_i s <? List.length lines) eqn:E.
  - apply IH.
  - symmetry. apply loop_stopped. now apply Nat.ltb_ge.
Qed.

(** As long as the loop has not reached its exit test, every unit of fuel
    has moved the cursor. *)
Lemma loop_advances fuel : forall s,
  wf (st_i s) s ->
  st_i (loop fuel config lines s) < List.length lines ->
  st_i s + fuel <= st_i (loop fuel config lines s).
Proof.
  induction fuel as [|fuel IH]; intros s Hw Hlt; cbn [loop] in *; [lia|].
  destruct (st_i s <? List.length lines) eqn:E.
  - apply Nat.ltb_lt in E. destruct (step_wf config lines s E Hw) as (Hw' & _ & Hs).
    specialize (IH _ Hw' Hlt). lia.
  - apply Nat.ltb_ge in E. lia.
Qed.

Lemma continuation_closed later def i j :
  continuation later 0 1 def i j = (def, i).
Proof. destruct later; reflexivity. Qed.

(** The iteration that reads the column line records the property on the
    class that [currentClass] refers to. *)
Lemma column_step s c :
  let line := nth (st_i s) lines EmptyString in
  inDocstring s = false ->
  insideClass (indentOf line) s = Some c ->
  columnLine line "id" "Integer, primary_key=True)" ->
  st_classes (body config lines s) =
  update c (pushProperty "id: Integer") (st_classes s).
Proof.
  intros line Hdoc Hin (Hquote & Hclass & m & Hm & Hname & Hdef).
  unfold body. fold line. cbv zeta. rewrite Hquote, Hdoc, Hclass.
  unfold classBodyStep. fold (indentOf line). rewrite Hin, Hm, Hname, Hdef.
  replace (parenDelta "Integer, primary_key=True)") with (0, 1)
    by (vm_compute; reflexivity).
  cbn [fst snd]. rewrite continuation_closed.
  replace (search typeRe "Integer, primary_key=True)")
    with (Some (Result 0 "Integer" [(1, "Integer")]))
    by (vm_compute; reflexivity).
  reflexivity.
Qed.

End Cut.

(** *** The record of the column *)

Lemma id_column content :
  fullDefOf content "id" "Integer" = "id = Column(Integer, primary_key=True)" ->
  sqlColumn content "id: Integer" = mkDbColumn "id" "Integer" true true None.
Proof.
  intros H. unfold sqlColumn.
  replace (map Js.trim (Js.split "id: Integer" ":")) with ["id"; "Integer"]
    by (vm_compute; reflexivity).
  cbn [nth]. cbv zeta. rewrite H. vm_compute. reflexivity.
Qed.

Lemma table_of_property fileIndex content c cls p :
  Js.includes content "db.Model" || Js.includes content "Base" = true ->
  nth_error (classes fileIndex) c = Some cls ->
  In p (cls_properties cls) ->
  exists t,
    In t (extractSQLAlchemySchema fileIndex content []) /\
    tbl_name t = cls_name cls /\ tbl_file t = relativePath fileIndex /\
    tbl_line t = cls_line cls /\
    In (sqlColumn content p) (tbl_columns t).
Proof.
  intros Hmark Hc Hp. unfold extractSQLAlchemySchema.
  replace (negb (Js.includes content "db.Model") &&
           negb (Js.includes content "Base")) with false
    by (destruct (Js.includes content "db.Model"),
                 (Js.includes content "Base"); try reflexivity; discriminate).
  cbn [List.app].
  exists (mkDbTable (cls_name cls) (relativePath fileIndex) (cls_line cls)
                    (map (sqlColumn content) (cls_properties cls))).
  split; [|cbn; repeat split; now apply in_map].
  apply in_flat_map. exists cls. split; [now apply nth_error_In in Hc|].
  unfold sqlTable. destruct (cls_properties cls) as [|q qs] eqn:E;
    [destruct Hp|]. now left.
Qed.

(** C6, as the code has it. The loop of the Python extractor reaches,
    after [k] iterations, a line inside a class body that the column
    pattern reads as the column id with the definition text
    [Integer, primary_key=True)]; the file holds a marker of the
    declarative rule; and the first text of the file that matches the
    pattern built from the name id is [id = Column(Integer, primary_key=True)].
    Then the table of that class holds the column record named id, of
    type Integer, primary, nullable, without foreign key. *)
Theorem primary_key_column_record :
  forall config filePath content workspaceRoot k c,
    let lines := Js.split content Js.nl in
    let s := loop k config lines initial in
    let line := nth (st_i s) lines EmptyString in
    let fileIndex := parsePythonFile config filePath content workspaceRoot in
    Js.includes content "db.Model" || Js.includes content "Base" = true ->
    st_i s < List.length lines ->
    inDocstring s = false ->
    insideClass (indentOf line) s = Some c ->
    columnLine line "id" "Integer, primary_key=True)" ->
    fullDefOf content "id" "Integer" = "id = Column(Integer, primary_key=True)" ->
    exists cls t,
      nth_error (classes fileIndex) c = Some cls /\
      In t (extractSQLAlchemySchema fileIndex content []) /\
      tbl_name t = cls_name cls /\ tbl_file t = relativePath fileIndex /\
      tbl_line t = cls_line cls /\
      In (mkDbColumn "id" "Integer" true true None) (tbl_columns t).
Proof.
  intros config filePath content workspaceRoot k c lines s line fileIndex
         Hmark Hlt Hdoc Hin Hline Hdef.
  assert (Hw : wf (st_i s) s).
  { apply (loop_wf config lines k initial initial_wf). cbn. lia. }
  assert (Hk : k <= st_i s).
  { pose proof (loop_advances config lines k initial initial_wf Hlt). exact H. }
  (* the class that the line belongs to *)
  assert (Hcur : S c = List.length (st_classes s)).
  { destruct Hw as (_ & _ & _ & _ & _ & Href). apply Href.
    exact (insideClass_current _ _ _ Hin). }
  destruct (nth_error (st_classes s) c) as [cls0|] eqn:Hc0;
    [|apply nth_error_None in Hc0; lia].
  (* the rest of the loop *)
  assert (Hrun : run config content =
                 loop (List.length lines - S k) config lines
                      (step config lines s)).
  { unfold run. fold lines.
    replace (List.length lines) with (k + S (List.length lines - S k)) at 1
      by lia.
    rewrite loop_add. fold s. cbn [loop].
    apply Nat.ltb_lt in Hlt. now rewrite Hlt. }
  assert (Hfinal : holds c "id: Integer" (st_classes (run config content))).
  { rewrite Hrun. apply loop_holds. unfold step. cbn [setI st_classes].
    rewrite (column_step config lines s c Hdoc Hin Hline).
    exists (pushProperty "id: Integer" cls0). split.
    - now apply nth_update.
    - cbn [pushProperty cls_properties]. apply in_or_app. right. now left. }
  destruct Hfinal as (cls & Hcls & Hp). exists cls.
  destruct (table_of_property fileIndex content c cls "id: Integer" Hmark
              Hcls Hp) as (t & Ht & Hn & Hf & Hl & Hcol).
  exists t. rewrite (id_column content Hdef) in Hcol. auto 10.
Qed.

Lemma primary_key_column_record_witness :
  let content := user_model "Base" in
  let lines := Js.split content Js.nl in
  let s := loop 1 defaults lines initial in
  let line := nth (st_i s) lines EmptyString in
  let fileIndex := parsePythonFile defaults "/p/src/models.py" content "/p" in
  line = "    id = Column(Integer, primary_key=True)" /\
  Js.includes content "db.Model" || Js.includes content "Base" = true /\
  st_i s < List.length lines /\
  inDocstring s = false /\
  insideClass (indentOf line) s = Some 0 /\
  columnLine line "id" "Integer, primary_key=True)" /\
  fullDefOf content "id" "Integer" = "id = Column(Integer, primary_key=True)" /\
  exists cls t,
    nth_error (classes fileIndex) 0 = Some cls /\
    In t (extractSQLAlchemySchema fileIndex content []) /\
    tbl_name t = cls_name cls /\ tbl_file t = relativePath fileIndex /\
    tbl_line t = cls_line cls /\
    In (mkDbColumn "id" "Integer" true true None) (tbl_columns t).
Proof.
  intros content lines s line fileIndex.
  assert (Hmark : Js.includes content "db.Model" ||
                  Js.includes content "Base" = true)
    by (vm_compute; reflexivity).
  assert (Hlt : st_i s < List.length lines)
    by (apply Nat.ltb_lt; vm_compute; reflexivity).
  assert (Hdoc : inDocstring s = false) by (vm_compute; reflexivity).
  assert (Hin : insideClass (indentOf line) s = Some 0)
    by (vm_compute; reflexivity).
  assert (Hline : columnLine line "id" "Integer, primary_key=True)").
  { split; [vm_compute; reflexivity|]. split; [vm_compute; reflexivity|].
    eexists. split; [vm_compute; reflexivity|]. split; reflexivity. }
  assert (Hdef : fullDefOf content "id" "Integer" =
                 "id = Column(Integer, primary_key=True)")
    by (vm_compute; reflexivity).
  split; [vm_compute; reflexivity|].
  split; [exact Hmark|]. split; [exact Hlt|]. split; [exact Hdoc|].
  split; [exact Hin|]. split; [exact Hline|]. split; [exact Hdef|].
  exact (primary_key_column_record defaults "/p/src/models.py" content "/p"
           1 0 Hmark Hlt Hdoc Hin Hline Hdef).
Defined.

(** The claim read for every file with a marker fails: when a class
    before declares a column of the same name as not nullable, the
    definition found for the primary key of the second class is that of
    the first, and its record is neither primary nor nullable. *)
Lemma primary_key_after_earlier_id :
  nth_error (Js.split earlier_id Js.nl) 3 =
    Some "    id = Column(Integer, primary_key=True)" /\
  Js.includes earlier_id "Base" = true /\
  extractSQLAlchemySchema
    (parsePythonFile defaults "/p/src/models.py" earlier_id "/p")
    earlier_id [] =
  [mkDbTable "Account" "src/models.py" 1
             [mkDbColumn "id" "Integer" false false None];
   mkDbTable "User" "src/models.py" 3
             [mkDbColumn "id" "Integer" false false None]].
Proof. repeat split; vm_compute; reflexivity. Qed.

(** *** Columns of one name *)





End ColumnFacts.
